(** * Multi-Video In-Out Extractor ([inout_extractorUI.py])

    A shallow embedding of the decision logic of the PyQt5 front end: the
    tracked file list ([add_videos]), the time selectors
    ([create_time_wheels], [get_selected_time]), the range check of
    [extract_video], the command line built by [process_extraction] and the
    row traversal of [extract_all_videos].

    What stands for what:
    - Python text is a [string] of bytes, the UTF-8 encoding of the [str]
      value; Python integers are [Z].
    - [os.path] is [posixpath].
    - [int(text)] follows CPython's base-10 reading of ASCII text; the
      rewriting of non-ASCII digits and spaces that comes before it is a
      parameter ([to_ascii]).  [int(text)] and [str(n)] raise [ValueError]
      beyond the interpreter's limit on the digits of a conversion
      ([sys.get_int_max_str_digits()], 4300 as the interpreter starts).
    - [strftime] follows the C library of the platform (glibc): [%Y] is
      the year as it is, without padding.
    - A combo box holds whatever text it was given: the [QIntValidator]
      that filters keystrokes lives inside Qt and is not modelled.
    - The effects (message boxes, [subprocess.run], [datetime.now],
      [QDesktopServices.openUrl]) go through a state and exception monad
      whose state carries the window and the log of what was done; the
      clock and the fate of each launch are given by a [World]. *)

From Stdlib Require Import ZArith List String Ascii Bool Lia.
From Stdlib Require Import DecimalString DecimalZ DecimalPos FinFun.
Import ListNotations.

Local Open Scope string_scope.
Local Open Scope list_scope.
Local Open Scope Z_scope.

Infix "+++" := String.append (at level 60, right associativity).

(* ================================================================== *)
(** * The Python runtime the program calls into *)
(* ================================================================== *)

(** Exceptions the modelled calls can raise. *)
Inductive exn : Type :=
| ValueError
| AttributeError
| OSError (what : string).

(** The outcome of evaluating a Python expression. *)
Inductive outcome (A : Type) : Type :=
| Returned (a : A)
| Raised (e : exn).
Arguments Returned {A} a.
Arguments Raised {A} e.

Module Py.

(** The limit on the digits of a conversion between [int] and decimal
    text, [sys.get_int_max_str_digits()]: 4300 as the interpreter starts,
    and the program never changes it. *)
Definition int_max_str_digits : Z := 4300.

(** The decimal digits of an integer, a leading [-] when negative. *)
Definition decimal (n : Z) : string := NilZero.string_of_int (Z.to_int n).

(** [str(n)] for an [int]: the decimal text, or [ValueError] when the
    text has more digits (the sign apart) than the limit. *)
Definition str (n : Z) : outcome string :=
  if int_max_str_digits <? Z.of_nat (String.length (decimal (Z.abs n)))
  then Raised ValueError
  else Returned (decimal n).

(** C's [Py_ISSPACE]: tab, newline, vertical tab, form feed, carriage
    return and space. *)
Definition is_space (c : ascii) : bool :=
  let k := nat_of_ascii c in
  ((9 <=? k) && (k <=? 13))%nat || (k =? 32)%nat.

Definition digit_value (c : ascii) : option Z :=
  let k := nat_of_ascii c in
  if ((48 <=? k) && (k <=? 57))%nat then Some (Z.of_nat (k - 48)) else None.

Definition is_ascii (s : string) : bool :=
  forallb (fun c => (nat_of_ascii c <? 128)%nat) (list_ascii_of_string s).

Fixpoint lstrip (s : string) : string :=
  match s with
  | String c r => if is_space c then lstrip r else s
  | EmptyString => s
  end.

Fixpoint all_space (s : string) : bool :=
  match s with
  | String c r => is_space c && all_space r
  | EmptyString => true
  end.

(** What the scan of the digits has just read. *)
Inductive prev : Type := AtStart | AfterDigit | AfterUnderscore.

(** The end of the run of digits and underscores: the run must hold a
    digit and must not end in an underscore. *)
Definition finish (p : prev) (acc : Z) (rest : string) : option (Z * string) :=
  match p with
  | AfterDigit => Some (acc, rest)
  | AtStart | AfterUnderscore => None
  end.

(** The digits of a base-10 literal, most significant first, with single
    underscores allowed between two digits ([long_from_string_base]). *)
Fixpoint scan (p : prev) (acc : Z) (s : string) : option (Z * string) :=
  match s with
  | String c r =>
      match digit_value c with
      | Some d => scan AfterDigit (10 * acc + d) r
      | None =>
          if Ascii.eqb c "_" then
            match p with
            | AfterDigit => scan AfterUnderscore acc r
            | AtStart | AfterUnderscore => None
            end
          else finish p acc s
      end
  | EmptyString => finish p acc s
  end.

(** The digits in the run of digits and underscores a text starts with. *)
Fixpoint count_digits (s : string) : nat :=
  match s with
  | String c r =>
      match digit_value c with
      | Some _ => S (count_digits r)
      | None => if Ascii.eqb c "_" then count_digits r else O
      end
  | EmptyString => O
  end.

(** An optional sign in front of the digits. *)
Definition split_sign (s : string) : bool * string :=
  match s with
  | String c r =>
      if Ascii.eqb c "-" then (true, r)
      else if Ascii.eqb c "+" then (false, r)
      else (false, s)
  | EmptyString => (false, s)
  end.

(** [PyLong_FromString] in base 10 on ASCII text: optional blanks, an
    optional sign, the digits, optional blanks, and nothing else.  A run
    of more digits than the limit is refused once it was scanned, leading
    zeros counted and underscores not. *)
Definition long_from_string (s : string) : outcome Z :=
  let '(negative, s2) := split_sign (lstrip s) in
  match scan AtStart 0 s2 with
  | Some (v, rest) =>
      if int_max_str_digits <? Z.of_nat (count_digits s2) then Raised ValueError
      else if all_space rest then Returned (if negative then - v else v)
      else Raised ValueError
  | None => Raised ValueError
  end.

(** The characters a decimal literal is made of: digits, blanks, the
    signs and the underscore. *)
Definition numeric_char (c : ascii) : bool :=
  match digit_value c with
  | Some _ => true
  | None => is_space c || Ascii.eqb c "-" || Ascii.eqb c "+" || Ascii.eqb c "_"
  end.

Fixpoint all_numeric (s : string) : bool :=
  match s with
  | String c r => numeric_char c && all_numeric r
  | EmptyString => true
  end.

Section Int.
(** CPython first rewrites a text that holds a non-ASCII character,
    turning every Unicode space into a blank and every Unicode decimal
    digit into its ASCII digit ([_PyUnicode_TransformDecimalAndSpaceToASCII]);
    the tables it reads belong to the interpreter's Unicode database,
    so the rewriting, [to_ascii], is a parameter here.  ASCII text never
    reaches it. *)
Variable to_ascii : string -> string.

(** [int(text)] for a [str] argument. *)
Definition int (text : string) : outcome Z :=
  long_from_string
    (if is_ascii text then text else to_ascii text).
End Int.

(** [n] copies of the character [c]. *)
Fixpoint repeat_char (c : ascii) (n : nat) : string :=
  match n with
  | O => EmptyString
  | S k => String c (repeat_char c k)
  end.

(** [format(i, "0<width>d")]: zero padding between the sign and the
    digits, up to [width] characters in all.  The program formats the
    values of [range(24)] and [range(60)] only, far below the limit on
    the digits. *)
Definition format_0d (width : nat) (i : Z) : string :=
  let digits := decimal (Z.abs i) in
  if i <? 0 then
    String "-" (repeat_char "0" (width - 1 - String.length digits) +++ digits)
  else repeat_char "0" (width - String.length digits) +++ digits.

(** Whether [p] is a prefix of [s]. *)
Fixpoint startswith (p s : string) : bool :=
  match p, s with
  | EmptyString, _ => true
  | String a p', String b s' => Ascii.eqb a b && startswith p' s'
  | String _ _, EmptyString => false
  end.

(** The scan of [str.replace] for a non-empty [old]: [skip] counts the
    characters of a match still to be dropped. *)
Fixpoint replace_from (old new : string) (skip : nat) (s : string) : string :=
  match s with
  | EmptyString => EmptyString
  | String c r =>
      match skip with
      | S k => replace_from old new k r
      | O =>
          if startswith old s
          then new +++ replace_from old new (String.length old - 1) r
          else String c (replace_from old new O r)
      end
  end.

(** With an empty [old], [new] goes before every character and at the end. *)
Fixpoint intersperse (new s : string) : string :=
  match s with
  | EmptyString => new
  | String c r => new +++ String c (intersperse new r)
  end.

(** [s.replace(old, new)]: every occurrence, left to right, no overlap. *)
Definition replace (old new s : string) : string :=
  match old with
  | EmptyString => intersperse new s
  | String _ _ => replace_from old new O s
  end.

(** [range(n)]. *)
Definition range (n : nat) : list Z := map Z.of_nat (seq 0 n).

(** [x in l] for a list of strings. *)
Definition in_list (x : string) (l : list string) : bool :=
  existsb (String.eqb x) l.

(** [old in s] for two strings: [old] occurs somewhere in [s]. *)
Fixpoint in_str (old s : string) : bool :=
  startswith old s ||
  match s with
  | String _ r => in_str old r
  | EmptyString => false
  end.

(** Truth value of a [str]: the empty string is false. *)
Definition truthy (s : string) : bool := negb (String.eqb s "").

End Py.

Module posixpath.

Definition is_sep (c : ascii) : bool := Ascii.eqb c "/".

Fixpoint has_sep (s : string) : bool :=
  match s with
  | String c r => is_sep c || has_sep r
  | EmptyString => false
  end.

(** [os.path.basename(p)]: what follows the last [/] of [p]. *)
Fixpoint basename (p : string) : string :=
  match p with
  | String c r =>
      if is_sep c then basename r
      else if has_sep r then basename r else p
  | EmptyString => EmptyString
  end.

Fixpoint endswith_sep (s : string) : bool :=
  match s with
  | EmptyString => false
  | String c EmptyString => is_sep c
  | String _ r => endswith_sep r
  end.

(** [os.path.isabs(s)]: [s] starts with a [/]. *)
Definition isabs (s : string) : bool :=
  match s with
  | String c _ => is_sep c
  | EmptyString => false
  end.

(** [os.path.join(a, b)] for two components. *)
Definition join (a b : string) : string :=
  if isabs b then b
  else if String.eqb a "" || endswith_sep a then a +++ b
  else a +++ "/" +++ b.

End posixpath.


(* ================================================================== *)
(** * [datetime] *)
(* ================================================================== *)

Record datetime : Type := {
  year : Z; month : Z; day : Z; hour : Z; minute : Z; second : Z
}.

(** One [strftime] directive, as glibc writes it.  [%Y] is the year with
    century and no padding ([999] for the year 999); the others are fields
    padded with zeros to two digits. *)
Definition directive (c : ascii) (d : datetime) : string :=
  if Ascii.eqb c "Y" then Py.decimal (year d)
  else if Ascii.eqb c "m" then Py.format_0d 2 (month d)
  else if Ascii.eqb c "d" then Py.format_0d 2 (day d)
  else if Ascii.eqb c "H" then Py.format_0d 2 (hour d)
  else if Ascii.eqb c "M" then Py.format_0d 2 (minute d)
  else if Ascii.eqb c "S" then Py.format_0d 2 (second d)
  else if Ascii.eqb c "%" then "%"
  else String "%" (String c EmptyString).

(** [d.strftime(fmt)] for the directives above. *)
Fixpoint strftime (fmt : string) (d : datetime) : string :=
  match fmt with
  | String "%" (String c r) => directive c d +++ strftime r d
  | String c r => String c (strftime r d)
  | EmptyString => EmptyString
  end.

(* ================================================================== *)
(** * The widgets the program builds and reads back *)
(* ================================================================== *)

(** [FocusComboBox]: an editable combo box.  [min_val], [max_val] and
    [base_color] are what [__init__] stores; [items] and [currentText] are
    the inherited [QComboBox] state.  The [QIntValidator] installed by
    [__init__] acts on keystrokes inside Qt and is no part of the value. *)
Record FocusComboBox : Type := {
  min_val : Z;
  max_val : Z;
  base_color : string;
  items : list string;
  currentText : string
}.

Definition new_FocusComboBox (lo hi : Z) (color : string) : FocusComboBox :=
  {| min_val := lo; max_val := hi; base_color := color;
     items := []; currentText := "" |}.

(** [addItems]: the first item put into an empty box becomes current. *)
Definition addItems (texts : list string) (c : FocusComboBox) : FocusComboBox :=
  {| min_val := min_val c; max_val := max_val c; base_color := base_color c;
     items := items c ++ texts;
     currentText := match items c, texts with
                    | [], t :: _ => t
                    | _, _ => currentText c
                    end |}.

(** [setCurrentText] on an editable box: the edit text is replaced as is. *)
Definition setCurrentText (text : string) (c : FocusComboBox) : FocusComboBox :=
  {| min_val := min_val c; max_val := max_val c; base_color := base_color c;
     items := items c; currentText := text |}.

(** [setCurrentIndex], what picking the item at [index] from the
    drop-down list does: the edit text becomes the text of the item, and
    is cleared when there is no such item. *)
Definition setCurrentIndex (index : nat) (c : FocusComboBox) : FocusComboBox :=
  match nth_error (items c) index with
  | Some t => setCurrentText t c
  | None => setCurrentText "" c
  end.

(** What a button does when clicked: the two lambdas of [add_video_ui]. *)
Inductive slot : Type :=
| on_extract (file_path : string)
| on_play (file_path : string).

Inductive widget : Type :=
| QLabel (text : string)
| Combo (c : FocusComboBox)
| QPushButton (text : string) (clicked : slot).

#[local] Set Warnings "-register-all".

(** An entry of a box layout, in the order it was added. *)
Inductive layout_item : Type :=
| WidgetItem (w : widget)
| SpacerItem (size : Z)
| LayoutItem (l : list layout_item).

(** A [QFrame] is read back through its layout only. *)
Definition QFrame : Type := list layout_item.

(* ================================================================== *)
(** * Effects *)
(* ================================================================== *)

(** What the program did to the outside, oldest first. *)
Inductive event : Type :=
| Warning (title text : string)              (* QMessageBox.warning *)
| Information (title text : string)          (* QMessageBox.information *)
| Launched (args : list string)              (* subprocess.run(args) *)
| Opened (file_path : string).               (* QDesktopServices.openUrl *)

(** How a call of [subprocess.run] ends: the child ran and exited, with a
    return code and whatever it wrote to its standard error, or the call
    itself raised (the executable could not be started). *)
Inductive run_result : Type :=
| completed (returncode : Z) (stderr : string)
| failed_to_start (e : exn).

(** The outside world: the reading of the [k]-th call of [datetime.now()]
    and the end of the [k]-th call of [subprocess.run]. *)
Record World : Type := {
  now : nat -> datetime;
  run : nat -> list string -> run_result
}.

(** The window ([VideoExtractor]: [video_list], the frames of
    [video_list_widget], [current_combo] as the row and the position in
    the row's time layout of the focused box) and the trace of effects. *)
Record state : Type := {
  video_list : list string;
  video_list_widget : list QFrame;
  current_combo : option (nat * nat);
  log : list event;
  clock_reads : nat;
  launches : nat
}.

Definition initial : state :=
  {| video_list := []; video_list_widget := []; current_combo := None;
     log := []; clock_reads := 0; launches := 0 |}.

(** Computations: state passing with exceptions. *)
Definition M (A : Type) : Type := state -> outcome A * state.

Definition ret {A} (a : A) : M A := fun s => (Returned a, s).

Definition raise {A} (e : exn) : M A := fun s => (Raised e, s).

Definition bind {A B} (m : M A) (k : A -> M B) : M B :=
  fun s => match m s with
           | (Returned a, s') => k a s'
           | (Raised e, s') => (Raised e, s')
           end.

Notation "x <- m ;; k" := (bind m (fun x => k))
  (at level 61, m at next level, right associativity).
Notation "m ;;; k" := (bind m (fun _ => k))
  (at level 61, right associativity).

(** An expression that returns or raises, inside a computation. *)
Definition lift {A} (o : outcome A) : M A := fun s => (o, s).

Definition gets {A} (f : state -> A) : M A := fun s => (Returned (f s), s).

Definition modify (f : state -> state) : M unit := fun s => (Returned tt, f s).

Definition set_video_list (l : list string) (s : state) : state :=
  {| video_list := l; video_list_widget := video_list_widget s;
     current_combo := current_combo s; log := log s;
     clock_reads := clock_reads s; launches := launches s |}.

Definition set_video_list_widget (w : list QFrame) (s : state) : state :=
  {| video_list := video_list s; video_list_widget := w;
     current_combo := current_combo s; log := log s;
     clock_reads := clock_reads s; launches := launches s |}.

Definition set_current_combo (c : option (nat * nat)) (s : state) : state :=
  {| video_list := video_list s; video_list_widget := video_list_widget s;
     current_combo := c; log := log s;
     clock_reads := clock_reads s; launches := launches s |}.

Definition emit (e : event) : M unit :=
  modify (fun s =>
    {| video_list := video_list s; video_list_widget := video_list_widget s;
       current_combo := current_combo s; log := log s ++ [e];
       clock_reads := clock_reads s; launches := launches s |}).

(** [for x in l: body(x)]. *)
Fixpoint for_each {A} (l : list A) (body : A -> M unit) : M unit :=
  match l with
  | [] => ret tt
  | x :: r => body x ;;; for_each r body
  end.

(** A lookup that yields [None] in Python and is then dereferenced. *)
Definition deref {A} (o : option A) : M A :=
  match o with
  | Some a => ret a
  | None => raise AttributeError
  end.

(** ** Reading a layout back *)

Definition itemAt (i : nat) (l : list layout_item) : option layout_item :=
  nth_error l i.

(** [QLayoutItem.widget()] and [QLayoutItem.layout()]. *)
Definition widget_of (it : layout_item) : option widget :=
  match it with WidgetItem w => Some w | _ => None end.

Definition layout_of (it : layout_item) : option (list layout_item) :=
  match it with LayoutItem l => Some l | _ => None end.

(** [w.text()]: labels and buttons have it, combo boxes do not. *)
Definition text_of (w : widget) : option string :=
  match w with
  | QLabel t => Some t
  | QPushButton t _ => Some t
  | Combo _ => None
  end.

(** The widget as something that answers [currentText()]. *)
Definition as_combo (w : widget) : option FocusComboBox :=
  match w with Combo c => Some c | _ => None end.

Definition option_bind {A B} (o : option A) (f : A -> option B) : option B :=
  match o with Some a => f a | None => None end.

(** [layout.itemAt(i).widget()], used as a combo box: a position that
    holds no combo box ends in [AttributeError] before anything is done. *)
Definition combo_at (i : nat) (l : list layout_item) : M FocusComboBox :=
  deref (option_bind (option_bind (itemAt i l) widget_of) as_combo).

Fixpoint update_nth {A} (n : nat) (f : A -> A) (l : list A) {struct l} : list A :=
  match l, n with
  | [], _ => []
  | x :: r, O => f x :: r
  | x :: r, S k => x :: update_nth k f r
  end.

(** The combo box at position [pos] of the time layout of a frame,
    changed in place. *)
Definition edit_frame (pos : nat) (f : FocusComboBox -> FocusComboBox)
    (frame : QFrame) : QFrame :=
  update_nth 1
    (fun it => match it with
               | LayoutItem tl =>
                   LayoutItem
                     (update_nth pos
                        (fun w => match w with
                                  | WidgetItem (Combo c) => WidgetItem (Combo (f c))
                                  | _ => w
                                  end) tl)
               | _ => it
               end) frame.

Definition edit_combo (row pos : nat) (f : FocusComboBox -> FocusComboBox)
    (s : state) : state :=
  set_video_list_widget
    (update_nth row (edit_frame pos f) (video_list_widget s)) s.

(* ================================================================== *)
(** * The program *)
(* ================================================================== *)

Definition OUTPUT_FOLDER : string := "./output".

(** The decoration of a row's title: U+1F4FD FILM PROJECTOR and a blank. *)
Definition film : string := "📽 ".

(** Three time selector wheels (HH:MM:SS). *)
Definition create_time_wheels : FocusComboBox * FocusComboBox * FocusComboBox :=
  let hour := new_FocusComboBox 0 23 "#00FFFF" in
  let minute := new_FocusComboBox 0 59 "#39FF14" in
  let second := new_FocusComboBox 0 59 "red" in
  (addItems (map (Py.format_0d 2) (Py.range 24)) hour,
   addItems (map (Py.format_0d 2) (Py.range 60)) minute,
   addItems (map (Py.format_0d 2) (Py.range 60)) second).

(** The layout [add_video_ui] gives the frame of a video. *)
Definition video_frame_of (file_path : string)
    (in_hour in_min in_sec out_hour out_min out_sec : FocusComboBox) : QFrame :=
  let video_label := QLabel (film +++ posixpath.basename file_path) in
  let time_layout :=
    [ WidgetItem (QLabel "IN:");
      WidgetItem (Combo in_hour); WidgetItem (QLabel ":");
      WidgetItem (Combo in_min); WidgetItem (QLabel ":");
      WidgetItem (Combo in_sec);
      SpacerItem 20;
      WidgetItem (QLabel "OUT:");
      WidgetItem (Combo out_hour); WidgetItem (QLabel ":");
      WidgetItem (Combo out_min); WidgetItem (QLabel ":");
      WidgetItem (Combo out_sec) ] in
  [ WidgetItem video_label;
    LayoutItem time_layout;
    WidgetItem (QPushButton "Extract" (on_extract file_path));
    WidgetItem (QPushButton "Play" (on_play file_path)) ].

(** Adds a UI block for a video with IN-OUT selectors, Extract and Play
    buttons. *)
Definition add_video_ui (file_path : string) : M unit :=
  let '(in_hour, in_min, in_sec) := create_time_wheels in
  let '(out_hour, out_min, out_sec) := create_time_wheels in
  let video_frame :=
    video_frame_of file_path in_hour in_min in_sec out_hour out_min out_sec in
  modify (fun s =>
    set_video_list_widget (video_list_widget s ++ [video_frame]) s).

(** [files] is what the file dialog returned. *)
Definition add_videos (files : list string) : M unit :=
  for_each files (fun file =>
    tracked <- gets video_list ;;
    if Py.in_list file tracked then ret tt
    else
      modify (fun s => set_video_list (video_list s ++ [file]) s) ;;;
      add_video_ui file).

Definition focusInEvent (row pos : nat) : M unit :=
  modify (set_current_combo (Some (row, pos))).

(** Updates the currently focused combo box with the clicked value. *)
Definition handle_quick_insert (value : Z) : M unit :=
  focused <- gets current_combo ;;
  match focused with
  | Some (row, pos) =>
      text <- lift (Py.str value) ;;
      modify (edit_combo row pos (setCurrentText text))
  | None => ret tt
  end.

(** Plays the selected video using the default video player. *)
Definition play_video (file_path : string) : M unit :=
  emit (Opened file_path).

Definition QMessageBox_warning (title text : string) : M unit :=
  emit (Warning title text).

Definition QMessageBox_information (title text : string) : M unit :=
  emit (Information title text).

Section Program.

(** The interpreter's rewriting of non-ASCII digits and spaces, see
    [Py.int], and the world the program runs in. *)
Variable to_ascii : string -> string.
Variable world : World.

Definition datetime_now : M datetime :=
  fun s =>
    (Returned (now world (clock_reads s)),
     {| video_list := video_list s; video_list_widget := video_list_widget s;
        current_combo := current_combo s; log := log s;
        clock_reads := S (clock_reads s); launches := launches s |}).

(** [subprocess.run(args)] with no option: the child's streams are not
    captured and the returned [CompletedProcess] is what the caller gets;
    a child that cannot be started raises. *)
Definition subprocess_run (args : list string) : M run_result :=
  fun s =>
    let s' :=
      {| video_list := video_list s; video_list_widget := video_list_widget s;
         current_combo := current_combo s; log := log s ++ [Launched args];
         clock_reads := clock_reads s; launches := S (launches s) |} in
    match run world (launches s) args with
    | failed_to_start e => (Raised e, s')
    | done => (Returned done, s')
    end.

Definition safe_int (val : string) : Z :=
  match Py.int to_ascii val with
  | Returned n => n
  | Raised _ => 0
  end.

Definition get_selected_time
    (hour_combo minute_combo second_combo : FocusComboBox) : Z :=
  let h := safe_int (currentText hour_combo) in
  let m := safe_int (currentText minute_combo) in
  let s := safe_int (currentText second_combo) in
  h * 3600 + m * 60 + s.

(** The elements of the argument list are evaluated from left to right,
    so [str(start_time)] and [str(end_time)] come after the clock was read
    and before [subprocess.run] is called. *)
Definition process_extraction (input_file : string)
    (start_time end_time : Z) : M unit :=
  d <- datetime_now ;;
  let timestamp := strftime "%Y%m%d_%H%M%S" d in
  let filename := posixpath.basename input_file in
  let output_file :=
    posixpath.join OUTPUT_FOLDER
      (filename +++ "_clip_" +++ timestamp +++ ".mp4") in
  start_text <- lift (Py.str start_time) ;;
  end_text <- lift (Py.str end_time) ;;
  subprocess_run
    [ "ffmpeg"; "-i"; input_file; "-ss"; start_text;
      "-to"; end_text; "-c"; "copy"; output_file ] ;;;
  ret tt.

Definition extract_video (file_path : string)
    (in_hour in_min in_sec out_hour out_min out_sec : FocusComboBox) : M unit :=
  let in_time := get_selected_time in_hour in_min in_sec in
  let out_time := get_selected_time out_hour out_min out_sec in
  if in_time >=? out_time then
    QMessageBox_warning "Invalid Time" "OUT time must be greater than IN time."
  else
    process_extraction file_path in_time out_time ;;;
    QMessageBox_information "Done"
      ("Extraction completed for " +++ posixpath.basename file_path +++ "!").

(** One turn of the loop of [extract_all_videos]. *)
Definition extract_row (index : nat) : M unit :=
  item <- gets (fun s => nth_error (video_list_widget s) index) ;;
  video_frame <- deref item ;;
  title <- deref (option_bind (option_bind (itemAt 0 video_frame) widget_of) text_of) ;;
  let video_label := Py.replace film "" title in
  tracked <- gets video_list ;;
  match find (fun path => String.eqb (posixpath.basename path) video_label) tracked with
  | None => ret tt
  | Some video_path =>
      if negb (Py.truthy video_path) then ret tt
      else
        time_layout <- deref (option_bind (itemAt 1 video_frame) layout_of) ;;
        in_hour <- combo_at 1 time_layout ;;
        in_min <- combo_at 3 time_layout ;;
        in_sec <- combo_at 5 time_layout ;;
        out_hour <- combo_at 8 time_layout ;;
        out_min <- combo_at 10 time_layout ;;
        out_sec <- combo_at 12 time_layout ;;
        extract_video video_path in_hour in_min in_sec out_hour out_min out_sec
  end.

Definition extract_all_videos : M unit :=
  count <- gets (fun s => List.length (video_list_widget s)) ;;
  for_each (seq 0 count) extract_row.

(** A click on a button of the row [index]: the lambda connected by
    [add_video_ui] runs on the path it captured and, for Extract, on the
    six combo boxes of its own frame. *)
Definition click (index button : nat) : M unit :=
  item <- gets (fun s => nth_error (video_list_widget s) index) ;;
  video_frame <- deref item ;;
  match option_bind (itemAt button video_frame) widget_of with
  | Some (QPushButton _ (on_extract file_path)) =>
      time_layout <- deref (option_bind (itemAt 1 video_frame) layout_of) ;;
      in_hour <- combo_at 1 time_layout ;;
      in_min <- combo_at 3 time_layout ;;
      in_sec <- combo_at 5 time_layout ;;
      out_hour <- combo_at 8 time_layout ;;
      out_min <- combo_at 10 time_layout ;;
      out_sec <- combo_at 12 time_layout ;;
      extract_video file_path in_hour in_min in_sec out_hour out_min out_sec
  | Some (QPushButton _ (on_play file_path)) => play_video file_path
  | _ => ret tt
  end.

(** What the user can do to the window. *)
Inductive action : Type :=
| AddVideos (files : list string)          (* "Add Videos" and the dialog *)
| ExtractAll                               (* "Extract All Videos" *)
| Click (index button : nat)               (* Extract or Play of a row *)
| Focus (index pos : nat)                  (* a combo box takes the focus *)
| QuickInsert (value : Z)                  (* a quick-insert button *)
| Pick (index pos item : nat)              (* an item of a drop-down list *)
| TypeText (index pos : nat) (text : string). (* the edit text after typing *)

Definition perform (a : action) : M unit :=
  match a with
  | AddVideos files => add_videos files
  | ExtractAll => extract_all_videos
  | Click index button => click index button
  | Focus index pos => focusInEvent index pos
  | QuickInsert value => handle_quick_insert value
  | Pick index pos item => modify (edit_combo index pos (setCurrentIndex item))
  | TypeText index pos text => modify (edit_combo index pos (setCurrentText text))
  end.

(** The state after a run of actions.  PyQt5 aborts the application
    when an exception leaves a slot, so the run ends there. *)
Fixpoint session (acts : list action) (s : state) : state :=
  match acts with
  | [] => s
  | a :: r =>
      match perform a s with
      | (Returned _, s') => session r s'
      | (Raised _, s') => s'
      end
  end.

End Program.

(* ================================================================== *)
(** * Vocabulary of the statements *)
(* ================================================================== *)

(** A tracked video as the window holds it: the path in [video_list] and
    the six combo boxes of its frame. *)
Record row : Type := {
  file_path : string;
  in_hour : FocusComboBox; in_min : FocusComboBox; in_sec : FocusComboBox;
  out_hour : FocusComboBox; out_min : FocusComboBox; out_sec : FocusComboBox
}.

Definition frame_of (r : row) : QFrame :=
  video_frame_of (file_path r) (in_hour r) (in_min r) (in_sec r)
    (out_hour r) (out_min r) (out_sec r).

(** The window shows exactly the rows [rs], in this order. *)
Definition rows_of (s : state) (rs : list row) : Prop :=
  video_list s = map file_path rs /\ video_list_widget s = map frame_of rs.

(** The row [add_video_ui] gives a file: fresh wheels on both sides. *)
Definition fresh_row (file : string) : row :=
  let '(in_h, in_m, in_s) := create_time_wheels in
  let '(out_h, out_m, out_s) := create_time_wheels in
  {| file_path := file;
     in_hour := in_h; in_min := in_m; in_sec := in_s;
     out_hour := out_h; out_min := out_m; out_sec := out_s |}.

(** A fresh row whose OUT seconds box was edited to [out_text]. *)
Definition edited_row (file out_text : string) : row :=
  let r := fresh_row file in
  {| file_path := file;
     in_hour := in_hour r; in_min := in_min r; in_sec := in_sec r;
     out_hour := out_hour r; out_min := out_min r;
     out_sec := setCurrentText out_text (out_sec r) |}.

(** [s'] shows the same window as [s]: only the trace of effects moved. *)
Definition same_window (s s' : state) : Prop :=
  video_list s' = video_list s
  /\ video_list_widget s' = video_list_widget s
  /\ current_combo s' = current_combo s.

(** A computation that leaves the window as it found it. *)
Definition quiet {A} (m : M A) : Prop :=
  forall s, same_window s (snd (m s)).

(** The command lines of the launches recorded in a log. *)
Fixpoint commands (l : list event) : list (list string) :=
  match l with
  | [] => []
  | Launched args :: r => args :: commands r
  | _ :: r => commands r
  end.

(** The state once the events [es] were added to the log, after [reads]
    readings of the clock and [runs] launches. *)
Definition advance (es : list event) (reads runs : nat) (s : state) : state :=
  {| video_list := video_list s; video_list_widget := video_list_widget s;
     current_combo := current_combo s; log := log s ++ es;
     clock_reads := reads + clock_reads s; launches := runs + launches s |}.

(** A world in which [ffmpeg] always starts and exits with code 0, at
    2025-02-27 16:10:00. *)
Definition calm_world : World :=
  {| now := fun _ => {| year := 2025; month := 2; day := 27;
                        hour := 16; minute := 10; second := 0 |};
     run := fun _ _ => completed 0 "" |}.

(** A world in which [ffmpeg] starts, complains and exits with code 1. *)
Definition failing_world : World :=
  {| now := now calm_world;
     run := fun _ _ => completed 1 "Invalid data found when processing input" |}.

(** A world in which [ffmpeg] is not installed. *)
Definition no_ffmpeg_world : World :=
  {| now := now calm_world;
     run := fun _ _ =>
       failed_to_start (OSError "[Errno 2] No such file or directory: 'ffmpeg'") |}.

(** An integer within the limit on the digits of a conversion: its
    decimal text has at most [Py.int_max_str_digits] digits. *)
Definition within_digit_limit (n : Z) : Prop :=
  Z.abs n < 10 ^ Py.int_max_str_digits.

(** An interpreter whose Unicode database knows no digit and no space
    beyond ASCII: a text with a non-ASCII character is then rewritten to
    something [int] refuses.  It serves to evaluate the program on ASCII
    texts, where the rewriting is never consulted. *)
Definition ascii_only : string -> string := fun _ => "?".

Section ProgramViews.
Variable to_ascii : string -> string.
Variable world : World.

(** [Extract] on a row: the call the row's button makes. *)
Definition extract_entry (r : row) : M unit :=
  extract_video to_ascii world (file_path r)
    (in_hour r) (in_min r) (in_sec r) (out_hour r) (out_min r) (out_sec r).

Definition in_time (r : row) : Z :=
  get_selected_time to_ascii (in_hour r) (in_min r) (in_sec r).

Definition out_time (r : row) : Z :=
  get_selected_time to_ascii (out_hour r) (out_min r) (out_sec r).

(** A row whose extraction gets past the two [str()] calls: when its
    range is valid, both of its times are within the digit limit. *)
Definition writable_times (r : row) : Prop :=
  in_time r < out_time r ->
  within_digit_limit (in_time r) /\ within_digit_limit (out_time r).

(** How an extraction over the rows [rs] may end: it returns, or it
    raises what some launch raised, or it raises the [ValueError] of
    [str()] on a time beyond the digit limit that a row with a valid range
    holds. *)
Definition extraction_end (rs : list row) (o : outcome unit) : Prop :=
  o = Returned tt
  \/ (exists e k args, o = Raised e /\ run world k args = failed_to_start e)
  \/ (o = Raised ValueError
      /\ exists r, In r rs /\ in_time r < out_time r
                   /\ ~ (within_digit_limit (in_time r)
                         /\ within_digit_limit (out_time r))).
End ProgramViews.

(* ================================================================== *)
(** * The quick-insert bar *)
(* ================================================================== *)

(** A button of the quick-insert bar: its caption, the colour of its
    text, its cell in the grid, and the value its click hands to
    [handle_quick_insert]. *)
Record quick_button : Type := {
  caption : string;
  text_color : string;
  grid_row : Z;
  grid_col : Z;
  inserts : Z
}.

(** [i in l] for a list of integers. *)
Definition in_ints (i : Z) (l : list Z) : bool := existsb (Z.eqb i) l.

(** The button the loop of [create_quick_insert_bar] makes for [i]:
    [row = i // 20], [col = i % 20].  The caption is [str(i)], which for
    the values of [range(60)] is the decimal text of [i]. *)
Definition quick_insert_button (i : Z) : quick_button :=
  {| caption := Py.decimal i;
     text_color := if in_ints i [0; 1; 2] then "#00FFFF" else "#FF00FF";
     grid_row := i / 20;
     grid_col := i mod 20;
     inserts := i |}.

(** 60 buttons (0-59), laid out in 3 rows of 20. *)
Definition create_quick_insert_bar : list quick_button :=
  map quick_insert_button (Py.range 60).

(* ================================================================== *)
(** * More vocabulary *)
(* ================================================================== *)

(** The row whose frame is the frame of [r] after the combo box at the
    position [pos] of the time layout was changed by [f]: the six boxes
    stand at 1, 3, 5 (IN) and 8, 10, 12 (OUT), the other positions hold
    labels and the spacing. *)
Definition edit_row (pos : nat) (f : FocusComboBox -> FocusComboBox) (r : row) : row :=
  {| file_path := file_path r;
     in_hour := if Nat.eqb pos 1 then f (in_hour r) else in_hour r;
     in_min := if Nat.eqb pos 3 then f (in_min r) else in_min r;
     in_sec := if Nat.eqb pos 5 then f (in_sec r) else in_sec r;
     out_hour := if Nat.eqb pos 8 then f (out_hour r) else out_hour r;
     out_min := if Nat.eqb pos 10 then f (out_min r) else out_min r;
     out_sec := if Nat.eqb pos 12 then f (out_sec r) else out_sec r |}.

(** The combo box at the position [pos] of the time layout of a row. *)
Definition box_at (pos : nat) (r : row) : option FocusComboBox :=
  if Nat.eqb pos 1 then Some (in_hour r)
  else if Nat.eqb pos 3 then Some (in_min r)
  else if Nat.eqb pos 5 then Some (in_sec r)
  else if Nat.eqb pos 8 then Some (out_hour r)
  else if Nat.eqb pos 10 then Some (out_min r)
  else if Nat.eqb pos 12 then Some (out_sec r)
  else None.

(** The files of a dialog answer that [add_videos] starts to track, in
    the order it meets them: those not in [tracked], each once. *)
Fixpoint fresh_files (files tracked : list string) : list string :=
  match files with
  | [] => []
  | file :: rest =>
      if Py.in_list file tracked then fresh_files rest tracked
      else file :: fresh_files rest (tracked ++ [file])
  end.

(** [p] is the first path of [tracked] with its base name. *)
Definition first_of_its_name (tracked : list string) (p : string) : Prop :=
  find (fun q => String.eqb (posixpath.basename q) (posixpath.basename p)) tracked
  = Some p.

(** From [s] to [s'] the log only grew, and every command launched on
    the way satisfies [P]. *)
Definition launches_only (P : list string -> Prop) (s s' : state) : Prop :=
  exists added, log s' = log s ++ added /\ Forall P (commands added).

(** The input file of a command line of [process_extraction]: what
    follows [-i]. *)
Definition input_of (args : list string) : option string := nth_error args 2.

(** Its output file: the last argument. *)
Definition output_of (args : list string) : option string := nth_error args 9.

(** A text made of decimal digits only. *)
Fixpoint all_digits (s : string) : bool :=
  match s with
  | String c r =>
      match Py.digit_value c with Some _ => all_digits r | None => false end
  | EmptyString => true
  end.

(** The values a [datetime] can hold. *)
Definition valid_datetime (d : datetime) : Prop :=
  1 <= year d <= 9999 /\ 1 <= month d <= 12 /\ 1 <= day d <= 31
  /\ 0 <= hour d <= 23 /\ 0 <= minute d <= 59 /\ 0 <= second d <= 59.

(** Hours, minutes and seconds compared field by field. *)
Definition hms_before (h m s h' m' s' : Z) : Prop :=
  h < h' \/ (h = h' /\ (m < m' \/ (m = m' /\ s < s'))).

(* ================================================================== *)
(** * The runtime on examples *)
(* ================================================================== *)

(** What the interpreter answers on the same inputs. *)

Example str_minus_fifty :
  Py.str (-50) = Returned "-50".
Proof. reflexivity. Qed.

Example int_digits_at_the_limit :
  Py.int ascii_only (Py.repeat_char "0" 4298 +++ "23") = Returned 23.
Proof. vm_compute. reflexivity. Qed.

Example int_digits_beyond_the_limit :
  Py.int ascii_only (Py.repeat_char "0" 4299 +++ "23") = Raised ValueError.
Proof. vm_compute. reflexivity. Qed.

Example int_underscores_are_not_counted :
  Py.int ascii_only (Py.repeat_char "0" 4298 +++ "2_3") = Returned 23.
Proof. vm_compute. reflexivity. Qed.

Example int_blanks_sign_underscore :
  Py.int ascii_only "  +1_2 " = Returned 12.
Proof. reflexivity. Qed.

Example int_double_underscore :
  Py.int ascii_only "1__2" = Raised ValueError.
Proof. reflexivity. Qed.

Example int_trailing_underscore :
  Py.int ascii_only "1_" = Raised ValueError.
Proof. reflexivity. Qed.

Example int_empty :
  Py.int ascii_only "" = Raised ValueError.
Proof. reflexivity. Qed.

Example int_blank_after_sign :
  Py.int ascii_only "- 5" = Raised ValueError.
Proof. reflexivity. Qed.

Example int_minus_leading_zero :
  Py.int ascii_only "-05" = Returned (-5).
Proof. reflexivity. Qed.

Example format_02d_seven :
  Py.format_0d 2 7 = "07".
Proof. reflexivity. Qed.

Example format_02d_minus_seven :
  Py.format_0d 2 (-7) = "-7".
Proof. reflexivity. Qed.

Example format_04d_minus_seven :
  Py.format_0d 4 (-7) = "-007".
Proof. reflexivity. Qed.

Example format_02d_wide :
  Py.format_0d 2 123 = "123".
Proof. reflexivity. Qed.

Example replace_every_occurrence :
  Py.replace "ab" "" "xabaabby" = "xaby".
Proof. reflexivity. Qed.

Example replace_no_overlap :
  Py.replace "aa" "b" "aaa" = "ba".
Proof. reflexivity. Qed.

Example replace_empty_old :
  Py.replace "" "-" "ab" = "-a-b-".
Proof. reflexivity. Qed.

Example basename_of_path :
  posixpath.basename "/a/b/clip.mp4" = "clip.mp4".
Proof. reflexivity. Qed.

Example basename_trailing_sep :
  posixpath.basename "/a/b/" = "".
Proof. reflexivity. Qed.

Example basename_plain :
  posixpath.basename "clip.mp4" = "clip.mp4".
Proof. reflexivity. Qed.

Example join_output_name :
  posixpath.join "./output" "x" = "./output/x".
Proof. reflexivity. Qed.

(* ================================================================== *)
(** * Reading decimal text back *)
(* ================================================================== *)

Lemma append_nil_r (s : string) : s +++ "" = s.
Proof. induction s as [|c s IH]; [ reflexivity | ]. cbn. now rewrite IH. Qed.

Lemma append_assoc (a b c : string) : (a +++ b) +++ c = a +++ b +++ c.
Proof. induction a as [|x a IH]; [ reflexivity | ]. cbn. now rewrite IH. Qed.

Lemma length_append (a b : string) :
  String.length (a +++ b) = (String.length a + String.length b)%nat.
Proof. induction a as [|c a IH]; [ reflexivity | ]. cbn. now rewrite IH. Qed.


Lemma lstrip_not_space (c : ascii) (r : string) :
  Py.is_space c = false -> Py.lstrip (String c r) = String c r.
Proof. intro H. cbn [Py.lstrip]. now rewrite H. Qed.

Lemma scan_step (c : ascii) (d : Z) (p : Py.prev) (acc : Z) (r : string) :
  Py.digit_value c = Some d ->
  Py.scan p acc (String c r) = Py.scan Py.AfterDigit (10 * acc + d) r.
Proof. intro H. cbn [Py.scan]. now rewrite H. Qed.

Lemma scan_digits_acc (d : Decimal.uint) (p : positive) :
  Py.scan Py.AfterDigit (Z.pos p) (NilEmpty.string_of_uint d)
  = Some (Z.pos (Pos.of_uint_acc d p), "").
Proof.
  revert p; induction d; intro p; cbn [NilEmpty.string_of_uint Pos.of_uint_acc];
    [ reflexivity | .. ];
    (erewrite scan_step by (vm_compute; reflexivity));
    rewrite <- IHd; f_equal; lia.
Qed.

Lemma scan_digits_zero (d : Decimal.uint) :
  Py.scan Py.AfterDigit 0 (NilEmpty.string_of_uint d)
  = Some (Z.of_N (Pos.of_uint d), "").
Proof.
  induction d; cbn [NilEmpty.string_of_uint Pos.of_uint];
    [ reflexivity | .. ];
    (erewrite scan_step by (vm_compute; reflexivity));
    [ exact IHd | .. ];
    cbn [Z.of_N]; rewrite <- scan_digits_acc; f_equal.
Qed.

Lemma scan_zeros (k : nat) (s : string) :
  Py.scan Py.AfterDigit 0 (Py.repeat_char "0" k +++ s) = Py.scan Py.AfterDigit 0 s.
Proof.
  induction k as [|k IH]; [ reflexivity | ].
  cbn [Py.repeat_char String.append].
  now erewrite scan_step by (vm_compute; reflexivity).
Qed.

Lemma is_ascii_app (a b : string) :
  Py.is_ascii (a +++ b) = Py.is_ascii a && Py.is_ascii b.
Proof.
  unfold Py.is_ascii. induction a as [|c a IH]; [ reflexivity | ].
  cbn [String.append list_ascii_of_string forallb]. now rewrite IH, andb_assoc.
Qed.

(** ** Texts made of digits *)

Lemma digit_value_code (c : ascii) (d : Z) :
  Py.digit_value c = Some d ->
  (48 <= nat_of_ascii c <= 57)%nat /\ 0 <= d <= 9.
Proof.
  unfold Py.digit_value. intro H.
  destruct ((48 <=? nat_of_ascii c)%nat && (nat_of_ascii c <=? 57)%nat) eqn:E;
    [ | discriminate ].
  apply andb_prop in E. destruct E as (E1 & E2).
  apply Nat.leb_le in E1, E2. injection H as <-. lia.
Qed.

Lemma digit_not_space (c : ascii) (d : Z) :
  Py.digit_value c = Some d -> Py.is_space c = false.
Proof.
  intro H. apply digit_value_code in H. destruct H as (H & _).
  unfold Py.is_space.
  destruct (Nat.leb_spec 9 (nat_of_ascii c)), (Nat.leb_spec (nat_of_ascii c) 13),
    (Nat.eqb_spec (nat_of_ascii c) 32); cbn; try reflexivity; lia.
Qed.

Lemma digit_not_sign (c : ascii) (d : Z) :
  Py.digit_value c = Some d ->
  Ascii.eqb c "-" = false /\ Ascii.eqb c "+" = false.
Proof.
  intro H. split.
  - destruct (Ascii.eqb_spec c "-") as [->|_]; [ discriminate H | reflexivity ].
  - destruct (Ascii.eqb_spec c "+") as [->|_]; [ discriminate H | reflexivity ].
Qed.

Lemma all_digits_is_ascii (s : string) :
  all_digits s = true -> Py.is_ascii s = true.
Proof.
  unfold Py.is_ascii. induction s as [|c r IH]; [ reflexivity | ].
  cbn [all_digits list_ascii_of_string forallb].
  destruct (Py.digit_value c) as [d|] eqn:Hd; [ | discriminate ].
  intro H. rewrite (IH H), andb_true_r.
  apply digit_value_code in Hd. apply Nat.ltb_lt. lia.
Qed.

Lemma all_digits_app (a b : string) :
  all_digits (a +++ b) = all_digits a && all_digits b.
Proof.
  induction a as [|c a IH]; [ reflexivity | ].
  cbn [String.append all_digits]. now destruct (Py.digit_value c).
Qed.

Lemma all_digits_uint (d : Decimal.uint) :
  all_digits (NilEmpty.string_of_uint d) = true.
Proof.
  induction d; cbn [NilEmpty.string_of_uint all_digits]; [ reflexivity | .. ];
    exact IHd.
Qed.

Lemma all_digits_repeat_char (c : ascii) (d : Z) (k : nat) :
  Py.digit_value c = Some d -> all_digits (Py.repeat_char c k) = true.
Proof.
  intro H. induction k as [|k IH]; [ reflexivity | ].
  cbn [Py.repeat_char all_digits]. now rewrite H.
Qed.

Lemma count_digits_all_digits (s : string) :
  all_digits s = true -> Py.count_digits s = String.length s.
Proof.
  induction s as [|c r IH]; [ reflexivity | ].
  cbn [all_digits Py.count_digits String.length].
  destruct (Py.digit_value c); [ | discriminate ].
  intro H. now rewrite (IH H).
Qed.

(** The scan of a text of digits, with the size of what it reads. *)
Lemma scan_all_digits (s : string) :
  all_digits s = true ->
  forall acc, 0 <= acc ->
    exists v, Py.scan Py.AfterDigit acc s = Some (v, "")
              /\ acc * 10 ^ Z.of_nat (String.length s) <= v
                 < (acc + 1) * 10 ^ Z.of_nat (String.length s).
Proof.
  induction s as [|c r IH]; intros H acc Hacc.
  - exists acc. split; [ reflexivity | cbn [String.length Z.of_nat]; lia ].
  - cbn [all_digits] in H. cbn [Py.scan].
    destruct (Py.digit_value c) as [d|] eqn:Hd; [ | discriminate ].
    apply digit_value_code in Hd. destruct Hd as (_ & Hd).
    destruct (IH H (10 * acc + d)) as (v & Hscan & Hv); [ lia | ].
    exists v. split; [ exact Hscan | ].
    cbn [String.length]. rewrite Nat2Z.inj_succ, Z.pow_succ_r by lia.
    assert (0 < 10 ^ Z.of_nat (String.length r)) by (apply Z.pow_pos_nonneg; lia).
    nia.
Qed.

(** [PyLong_FromString] on a text of digits: the number it writes, or
    [ValueError] when the digits are more than the limit. *)
Lemma long_from_all_digits (s : string) (v : Z) :
  s <> "" -> all_digits s = true ->
  Py.scan Py.AfterDigit 0 s = Some (v, "") ->
  Py.long_from_string s
  = if Py.int_max_str_digits <? Z.of_nat (String.length s)
    then Raised ValueError else Returned v.
Proof.
  intros Hne H Hscan. destruct s as [|c r]; [ congruence | ].
  rewrite <- (count_digits_all_digits _ H).
  cbn [all_digits] in H.
  destruct (Py.digit_value c) as [d|] eqn:Hd; [ | discriminate ].
  unfold Py.long_from_string.
  rewrite lstrip_not_space by (eapply digit_not_space; exact Hd).
  unfold Py.split_sign.
  destruct (digit_not_sign c d Hd) as (-> & ->).
  rewrite (scan_step c d) in * by exact Hd.
  rewrite Hscan. reflexivity.
Qed.

Lemma long_from_minus_all_digits (s : string) (v : Z) :
  s <> "" -> all_digits s = true ->
  Py.scan Py.AfterDigit 0 s = Some (v, "") ->
  Py.long_from_string (String "-" s)
  = if Py.int_max_str_digits <? Z.of_nat (String.length s)
    then Raised ValueError else Returned (- v).
Proof.
  intros Hne H Hscan. destruct s as [|c r]; [ congruence | ].
  rewrite <- (count_digits_all_digits _ H).
  cbn [all_digits] in H.
  destruct (Py.digit_value c) as [d|] eqn:Hd; [ | discriminate ].
  unfold Py.long_from_string.
  rewrite lstrip_not_space by reflexivity.
  unfold Py.split_sign. cbn [Ascii.eqb Bool.eqb].
  rewrite (scan_step c d) in * by exact Hd.
  rewrite Hscan. reflexivity.
Qed.

(** ** The decimal text of an integer *)

(** The digits of a non-negative integer, as [str] prints them. *)
Lemma decimal_nonneg (n : Z) :
  0 <= n ->
  exists d, Py.decimal n = NilEmpty.string_of_uint d /\ d <> Decimal.Nil
            /\ Z.of_N (Pos.of_uint d) = n.
Proof.
  intro Hn. destruct n as [|p|p]; [ | | lia ].
  - exists (Decimal.D0 Decimal.Nil). repeat split. discriminate.
  - exists (Pos.to_uint p). unfold Py.decimal. cbn [Z.to_int NilZero.string_of_int].
    pose proof (Unsigned.to_uint_nonnil p) as Hnil.
    repeat split.
    + unfold NilZero.string_of_uint. destruct (Pos.to_uint p); congruence.
    + exact Hnil.
    + now rewrite DecimalPos.Unsigned.of_to.
Qed.

Lemma decimal_neg (n : Z) : n < 0 -> Py.decimal n = String "-" (Py.decimal (- n)).
Proof.
  intro Hn. destruct n as [|p|p]; try lia. reflexivity.
Qed.

Lemma decimal_digits (n : Z) :
  0 <= n ->
  Py.decimal n <> "" /\ all_digits (Py.decimal n) = true
  /\ Py.scan Py.AfterDigit 0 (Py.decimal n) = Some (n, "").
Proof.
  intro Hn. destruct (decimal_nonneg n Hn) as (d & -> & Hd & Hval).
  split; [ destruct d; [ congruence | .. ]; discriminate | ].
  split; [ apply all_digits_uint | ].
  now rewrite scan_digits_zero, Hval.
Qed.

(** A positive integer is printed without leading zeros. *)
Lemma to_uint_leading (p : positive) (d : Decimal.uint) :
  Pos.to_uint p <> Decimal.D0 d.
Proof.
  intro H.
  pose proof (Unsigned.to_of (Pos.to_uint p)) as Hnorm.
  rewrite Unsigned.of_to in Hnorm. cbn [N.to_uint] in Hnorm.
  rewrite H, DecimalFacts.unorm_D0 in Hnorm.
  destruct (Decimal.nzhead d) eqn:Hhead;
    [ unfold Decimal.unorm in Hnorm; rewrite Hhead in Hnorm;
      apply (Unsigned.to_uint_nonzero p); rewrite H; exact Hnorm
    | .. ];
    rewrite DecimalFacts.unorm_nzhead in Hnorm by congruence;
    symmetry in Hnorm; exact (DecimalFacts.nzhead_nonzero _ _ Hnorm).
Qed.

Lemma decimal_leading (n : Z) :
  0 < n ->
  exists c r d, Py.decimal n = String c r /\ Py.digit_value c = Some d /\ 1 <= d.
Proof.
  intro Hn. destruct n as [|p|p]; try lia.
  unfold Py.decimal. cbn [Z.to_int NilZero.string_of_int].
  pose proof (Unsigned.to_uint_nonnil p) as Hnil.
  pose proof (to_uint_leading p) as Hlead.
  unfold NilZero.string_of_uint.
  destruct (Pos.to_uint p) as [|u|u|u|u|u|u|u|u|u|u];
    [ congruence | now elim (Hlead u) | .. ];
    cbn [NilEmpty.string_of_uint]; do 3 eexists;
    (split; [ reflexivity | split; [ vm_compute; reflexivity | lia ] ]).
Qed.

(** The length of the decimal text tells the size of the integer. *)
Lemma decimal_length_bounds (n : Z) :
  0 < n ->
  10 ^ (Z.of_nat (String.length (Py.decimal n)) - 1) <= n
  < 10 ^ Z.of_nat (String.length (Py.decimal n)).
Proof.
  intro Hn.
  destruct (decimal_digits n ltac:(lia)) as (_ & Hall & Hscan).
  destruct (decimal_leading n Hn) as (c & r & d & Htext & Hd & Hone).
  rewrite Htext in *. cbn [all_digits] in Hall. rewrite Hd in Hall.
  rewrite (scan_step c d) in Hscan by exact Hd.
  pose proof (digit_value_code c d Hd) as (_ & Hnine).
  destruct (scan_all_digits r Hall (10 * 0 + d) ltac:(lia)) as (v & Hv & Hsize).
  rewrite Hv in Hscan. injection Hscan as ->.
  cbn [String.length]. rewrite Nat2Z.inj_succ.
  replace (Z.succ (Z.of_nat (String.length r)) - 1)
    with (Z.of_nat (String.length r)) by lia.
  rewrite Z.pow_succ_r by lia.
  assert (0 < 10 ^ Z.of_nat (String.length r)) by (apply Z.pow_pos_nonneg; lia).
  nia.
Qed.

(** ** [str] and the limit on the digits *)

Lemma str_within (n : Z) :
  within_digit_limit n -> Py.str n = Returned (Py.decimal n).
Proof.
  unfold within_digit_limit, Py.str. intro H.
  destruct (Z.ltb_spec Py.int_max_str_digits
              (Z.of_nat (String.length (Py.decimal (Z.abs n))))) as [Hlong|_];
    [ exfalso | reflexivity ].
  destruct (Z.eq_dec (Z.abs n) 0) as [Hzero|Hpos].
  - rewrite Hzero in Hlong. vm_compute in Hlong. discriminate Hlong.
  - pose proof (decimal_length_bounds (Z.abs n) ltac:(lia)) as (Hlow & _).
    assert (10 ^ Py.int_max_str_digits
            <= 10 ^ (Z.of_nat (String.length (Py.decimal (Z.abs n))) - 1))
      by (apply Z.pow_le_mono_r; lia).
    lia.
Qed.

Lemma str_beyond (n : Z) :
  ~ within_digit_limit n -> Py.str n = Raised ValueError.
Proof.
  unfold within_digit_limit, Py.str. intro H.
  destruct (Z.ltb_spec Py.int_max_str_digits
              (Z.of_nat (String.length (Py.decimal (Z.abs n))))) as [_|Hshort];
    [ reflexivity | exfalso ].
  apply H.
  destruct (Z.eq_dec (Z.abs n) 0) as [->|Hpos];
    [ apply Z.pow_pos_nonneg; unfold Py.int_max_str_digits; lia | ].
  pose proof (decimal_length_bounds (Z.abs n) ltac:(lia)) as (_ & Hhigh).
  assert (10 ^ Z.of_nat (String.length (Py.decimal (Z.abs n)))
          <= 10 ^ Py.int_max_str_digits)
    by (apply Z.pow_le_mono_r; lia).
  lia.
Qed.

Lemma within_digit_limit_dec (n : Z) :
  {within_digit_limit n} + {~ within_digit_limit n}.
Proof. unfold within_digit_limit. apply Z_lt_dec. Qed.

Lemma str_returned (n : Z) (text : string) :
  Py.str n = Returned text -> text = Py.decimal n /\ within_digit_limit n.
Proof.
  intro H. destruct (within_digit_limit_dec n) as [Hin|Hout].
  - rewrite (str_within n Hin) in H. injection H as <-. now split.
  - rewrite (str_beyond n Hout) in H. discriminate H.
Qed.

Lemma str_raised (n : Z) (e : exn) :
  Py.str n = Raised e -> e = ValueError /\ ~ within_digit_limit n.
Proof.
  intro H. destruct (within_digit_limit_dec n) as [Hin|Hout].
  - rewrite (str_within n Hin) in H. discriminate H.
  - rewrite (str_beyond n Hout) in H. injection H as <-. now split.
Qed.

(** What the program's own numbers are: far within the limit. *)
Lemma small_within_digit_limit (n : Z) :
  Z.abs n < 10 ^ 9 -> within_digit_limit n.
Proof.
  unfold within_digit_limit. intro H.
  assert (10 ^ 9 <= 10 ^ Py.int_max_str_digits)
    by (apply Z.pow_le_mono_r; unfold Py.int_max_str_digits; lia).
  lia.
Qed.

(** ** A text of nines *)


(** ** What [int] refuses *)

Lemma all_numeric_lstrip (s : string) :
  Py.all_numeric (Py.lstrip s) = Py.all_numeric s.
Proof.
  induction s as [|c r IH]; [ reflexivity | ].
  cbn [Py.lstrip]. destruct (Py.is_space c) eqn:Hc; [ | reflexivity ].
  rewrite IH. cbn [Py.all_numeric]. unfold Py.numeric_char. rewrite Hc.
  now destruct (Py.digit_value c).
Qed.

Lemma all_numeric_split_sign (s : string) :
  Py.all_numeric (snd (Py.split_sign s)) = Py.all_numeric s.
Proof.
  destruct s as [|c r]; [ reflexivity | ].
  unfold Py.split_sign. cbn [Py.all_numeric]. unfold Py.numeric_char.
  destruct (Ascii.eqb c "-") eqn:Hminus;
    [ cbn [snd]; destruct (Py.digit_value c); now rewrite ?orb_true_r | ].
  destruct (Ascii.eqb c "+") eqn:Hplus;
    [ cbn [snd]; destruct (Py.digit_value c); now rewrite ?orb_true_r | ].
  cbn [snd Py.all_numeric]. unfold Py.numeric_char. now rewrite Hminus, Hplus.
Qed.

(** The scan eats digits and underscores only. *)
Lemma all_numeric_scan (s : string) :
  forall p acc v rest,
    Py.scan p acc s = Some (v, rest) ->
    Py.all_numeric s = Py.all_numeric rest.
Proof.
  induction s as [|c r IH]; intros p acc v rest H; cbn [Py.scan] in H.
  - destruct p; cbn [Py.finish] in H; congruence.
  - cbn [Py.all_numeric]. unfold Py.numeric_char.
    destruct (Py.digit_value c) as [d|] eqn:Hd.
    + cbn [andb]. eapply IH. exact H.
    + destruct (Ascii.eqb c "_") eqn:Hu.
      * rewrite !orb_true_r. cbn [andb].
        destruct p; try discriminate. eapply IH. exact H.
      * destruct p; cbn [Py.finish] in H; try discriminate.
        injection H as <- <-. cbn [Py.all_numeric]. unfold Py.numeric_char.
        now rewrite Hd, Hu.
Qed.

Lemma all_space_numeric (s : string) :
  Py.all_space s = true -> Py.all_numeric s = true.
Proof.
  induction s as [|c r IH]; [ reflexivity | ]. cbn [Py.all_space Py.all_numeric].
  intro H. apply andb_prop in H. destruct H as (Hc & Hr).
  rewrite (IH Hr). unfold Py.numeric_char. rewrite Hc.
  now destruct (Py.digit_value c).
Qed.

(** A text with a character that is no digit, blank, sign or underscore is
    no decimal literal. *)
Lemma long_from_string_foreign (s : string) :
  Py.all_numeric s = false -> Py.long_from_string s = Raised ValueError.
Proof.
  intro H. unfold Py.long_from_string.
  pose proof (all_numeric_split_sign (Py.lstrip s)) as Hsign.
  rewrite all_numeric_lstrip, H in Hsign.
  destruct (Py.split_sign (Py.lstrip s)) as [negative s2]. cbn [snd] in Hsign.
  destruct (Py.scan Py.AtStart 0 s2) as [[v rest]|] eqn:Hscan; [ | reflexivity ].
  apply all_numeric_scan in Hscan. rewrite Hsign in Hscan.
  destruct (Py.int_max_str_digits <? Z.of_nat (Py.count_digits s2));
    [ reflexivity | ].
  destruct (Py.all_space rest) eqn:Hrest; [ | reflexivity ].
  apply all_space_numeric in Hrest. congruence.
Qed.

(** ** [format] and [str], read back by [int] *)

Lemma format_0d_nonneg (width : nat) (i : Z) :
  0 <= i ->
  Py.format_0d width i
  = Py.repeat_char "0" (width - String.length (Py.decimal i)) +++ Py.decimal i.
Proof.
  intro H. unfold Py.format_0d.
  destruct (Z.ltb_spec i 0) as [Hneg|_]; [ lia | ]. now rewrite Z.abs_eq.
Qed.

Lemma format_0d_neg (width : nat) (i : Z) :
  i < 0 ->
  Py.format_0d width i
  = String "-" (Py.repeat_char "0" (width - 1 - String.length (Py.decimal (- i)))
                +++ Py.decimal (- i)).
Proof.
  intro H. unfold Py.format_0d.
  destruct (Z.ltb_spec i 0) as [_|Hpos]; [ | lia ]. now rewrite Z.abs_neq by lia.
Qed.

Lemma padded_digits (k : nat) (n : Z) :
  0 <= n ->
  let s := Py.repeat_char "0" k +++ Py.decimal n in
  s <> "" /\ all_digits s = true /\ Py.scan Py.AfterDigit 0 s = Some (n, "").
Proof.
  intros Hn s. subst s.
  destruct (decimal_digits n Hn) as (Hne & Hall & Hscan).
  split; [ | split ].
  - destruct k; [ exact Hne | discriminate ].
  - rewrite all_digits_app, Hall, andb_true_r.
    now apply (all_digits_repeat_char "0" 0).
  - now rewrite scan_zeros.
Qed.

Section IntFacts.
Variable to_ascii : string -> string.

(** [int] reads back what [format(i, "0<width>d")] writes, when that is
    not longer than the limit on the digits. *)
Lemma int_format_0d (width : nat) (i : Z) :
  Z.of_nat (String.length (Py.format_0d width i)) <= Py.int_max_str_digits ->
  Py.int to_ascii (Py.format_0d width i) = Returned i.
Proof.
  unfold Py.int.
  destruct (Z_lt_ge_dec i 0) as [Hneg|Hpos].
  - rewrite (format_0d_neg width i Hneg).
    set (k := (width - 1 - String.length (Py.decimal (- i)))%nat).
    destruct (padded_digits k (- i) ltac:(lia)) as (Hne & Hall & Hscan).
    intro Hlen. cbn [String.length] in Hlen.
    replace (Py.is_ascii _) with true.
    + rewrite (long_from_minus_all_digits _ _ Hne Hall Hscan).
      destruct (Z.ltb_spec Py.int_max_str_digits
                  (Z.of_nat (String.length (Py.repeat_char "0" k +++ Py.decimal (- i)))));
        [ lia | f_equal; lia ].
    + symmetry. change (String "-" ?s) with ("-" +++ s).
      now rewrite is_ascii_app, (all_digits_is_ascii _ Hall).
  - rewrite (format_0d_nonneg width i ltac:(lia)).
    set (k := (width - String.length (Py.decimal i))%nat).
    destruct (padded_digits k i ltac:(lia)) as (Hne & Hall & Hscan).
    intro Hlen.
    rewrite (all_digits_is_ascii _ Hall), (long_from_all_digits _ _ Hne Hall Hscan).
    destruct (Z.ltb_spec Py.int_max_str_digits
                (Z.of_nat (String.length (Py.repeat_char "0" k +++ Py.decimal i))));
      [ lia | reflexivity ].
Qed.

(** [int] refuses an ASCII text that holds a foreign character: a
    letter, a dot, a colon... *)
Lemma int_foreign (text : string) :
  Py.is_ascii text = true -> Py.all_numeric text = false ->
  Py.int to_ascii text = Raised ValueError.
Proof.
  intros Hascii H. unfold Py.int. rewrite Hascii.
  now apply long_from_string_foreign.
Qed.

(** [int] reads the decimal text of an integer within the limit back. *)
Lemma int_decimal (n : Z) :
  within_digit_limit n -> Py.int to_ascii (Py.decimal n) = Returned n.
Proof.
  intro Hin. pose proof (str_within n Hin) as Hstr. unfold Py.str in Hstr.
  destruct (Z.ltb_spec Py.int_max_str_digits
              (Z.of_nat (String.length (Py.decimal (Z.abs n))))) as [|Hlen];
    [ discriminate Hstr | clear Hstr ].
  unfold Py.int.
  destruct (Z_lt_ge_dec n 0) as [Hneg|Hpos].
  - rewrite (decimal_neg n Hneg). rewrite Z.abs_neq in Hlen by lia.
    destruct (decimal_digits (- n) ltac:(lia)) as (Hne & Hall & Hscan).
    replace (Py.is_ascii _) with true.
    + rewrite (long_from_minus_all_digits _ _ Hne Hall Hscan).
      destruct (Z.ltb_spec Py.int_max_str_digits
                  (Z.of_nat (String.length (Py.decimal (- n)))));
        [ lia | f_equal; lia ].
    + symmetry. change (String "-" ?s) with ("-" +++ s).
      now rewrite is_ascii_app, (all_digits_is_ascii _ Hall).
  - rewrite Z.abs_eq in Hlen by lia.
    destruct (decimal_digits n ltac:(lia)) as (Hne & Hall & Hscan).
    rewrite (all_digits_is_ascii _ Hall), (long_from_all_digits _ _ Hne Hall Hscan).
    destruct (Z.ltb_spec Py.int_max_str_digits
                (Z.of_nat (String.length (Py.decimal n))));
      [ lia | reflexivity ].
Qed.

(** [int] reads back what [str] writes. *)
Lemma int_str (n : Z) (text : string) :
  Py.str n = Returned text -> Py.int to_ascii text = Returned n.
Proof.
  intro H. apply str_returned in H. destruct H as (-> & Hin).
  now apply int_decimal.
Qed.

(** [int] on a text of digits: a number that is not negative when the
    digits are within the limit, [ValueError] when they are more. *)
Lemma int_all_digits (text : string) :
  text <> "" -> all_digits text = true ->
  (Z.of_nat (String.length text) <= Py.int_max_str_digits ->
   exists n, 0 <= n /\ Py.int to_ascii text = Returned n)
  /\ (Py.int_max_str_digits < Z.of_nat (String.length text) ->
      Py.int to_ascii text = Raised ValueError).
Proof.
  intros Hne Hall. unfold Py.int. rewrite (all_digits_is_ascii text Hall).
  destruct (scan_all_digits text Hall 0 ltac:(lia)) as (v & Hscan & Hv & _).
  rewrite (long_from_all_digits text v Hne Hall Hscan).
  split; intro Hlen.
  - exists v. split; [ lia | ].
    now destruct (Z.ltb_spec Py.int_max_str_digits (Z.of_nat (String.length text)));
      [ lia | ].
  - now destruct (Z.ltb_spec Py.int_max_str_digits (Z.of_nat (String.length text)));
      [ | lia ].
Qed.

End IntFacts.

(* ================================================================== *)
(** * Paths and time stamps *)
(* ================================================================== *)

(** ** Paths *)

Lemma basename_no_sep (p : string) :
  posixpath.has_sep (posixpath.basename p) = false.
Proof.
  induction p as [|c r IH]; [ reflexivity | ].
  cbn [posixpath.basename].
  destruct (posixpath.is_sep c) eqn:Hc; [ exact IH | ].
  destruct (posixpath.has_sep r) eqn:Hr; [ exact IH | ].
  cbn [posixpath.has_sep]. now rewrite Hc, Hr.
Qed.

Lemma join_output (b rest : string) :
  posixpath.has_sep b = false ->
  posixpath.join OUTPUT_FOLDER (b +++ "_clip_" +++ rest)
  = "./output/" +++ b +++ "_clip_" +++ rest.
Proof.
  intro Hb. unfold posixpath.join.
  assert (Habs : posixpath.isabs (b +++ "_clip_" +++ rest) = false).
  { destruct b as [|c b]; [ reflexivity | ].
    cbn [posixpath.has_sep] in Hb. apply orb_false_elim in Hb.
    cbn [String.append posixpath.isabs]. tauto. }
  rewrite Habs. reflexivity.
Qed.

(** From the year 1000 to the year 9999 the year has four digits. *)
Lemma length_decimal_between (n k : Z) :
  0 <= k -> 10 ^ k <= n < 10 ^ (k + 1) ->
  Z.of_nat (String.length (Py.decimal n)) = k + 1.
Proof.
  intros Hk (Hlow & Hhigh).
  assert (Hn : 0 < n) by (pose proof (Z.pow_pos_nonneg 10 k); lia).
  pose proof (decimal_length_bounds n Hn) as (Hlow' & Hhigh').
  set (L := Z.of_nat (String.length (Py.decimal n))) in *.
  assert (HL : 0 <= L) by (subst L; lia).
  assert (k < L) by (apply (Z.pow_lt_mono_r_iff 10); lia).
  destruct (Z_le_gt_dec L (k + 1)) as [Hle|Hgt]; [ lia | exfalso ].
  assert (10 ^ (k + 1) <= 10 ^ (L - 1)) by (apply Z.pow_le_mono_r; lia).
  lia.
Qed.

Lemma length_decimal_four_digits (y : Z) :
  1000 <= y <= 9999 -> String.length (Py.decimal y) = 4%nat.
Proof.
  intro H. pose proof (length_decimal_between y 3 ltac:(lia) ltac:(lia)). lia.
Qed.

Lemma decimal_four_digits (y : Z) :
  1000 <= y <= 9999 -> Py.decimal y = Py.format_0d 4 y.
Proof.
  intro H. rewrite format_0d_nonneg by lia.
  now rewrite (length_decimal_four_digits y H).
Qed.

Lemma strftime_stamp (d : datetime) :
  strftime "%Y%m%d_%H%M%S" d
  = Py.decimal (year d) +++ Py.format_0d 2 (month d)
    +++ Py.format_0d 2 (day d) +++ "_" +++ Py.format_0d 2 (hour d)
    +++ Py.format_0d 2 (minute d) +++ Py.format_0d 2 (second d).
Proof.
  cbn [strftime]. unfold directive. cbn [Ascii.eqb Bool.eqb].
  now rewrite append_nil_r.
Qed.

(* ================================================================== *)
(** * One extraction *)
(* ================================================================== *)

Section ExtractFacts.
Variable to_ascii : string -> string.
Variable world : World.

Lemma extract_video_invalid (path : string)
    (ih im is_ oh om os : FocusComboBox) (s : state) :
  get_selected_time to_ascii ih im is_ >= get_selected_time to_ascii oh om os ->
  extract_video to_ascii world path ih im is_ oh om os s
  = (Returned tt,
     advance [Warning "Invalid Time" "OUT time must be greater than IN time."]
       0 0 s).
Proof.
  intro H. unfold extract_video.
  destruct (Z.geb_spec (get_selected_time to_ascii ih im is_)
              (get_selected_time to_ascii oh om os)) as [_|Hlt]; [ | lia ].
  reflexivity.
Qed.

(** The state once the clock was read and nothing else was done. *)
Lemma advance_clock (s : state) :
  {| video_list := video_list s; video_list_widget := video_list_widget s;
     current_combo := current_combo s; log := log s;
     clock_reads := S (clock_reads s); launches := launches s |}
  = advance [] 1 0 s.
Proof. unfold advance. now rewrite app_nil_r. Qed.

(** Both [str()] calls return: the tool is launched. *)
Lemma process_extraction_run (input_file : string) (start_time end_time : Z)
    (start_text end_text : string) (s : state) :
  Py.str start_time = Returned start_text ->
  Py.str end_time = Returned end_text ->
  let args :=
    [ "ffmpeg"; "-i"; input_file; "-ss"; start_text;
      "-to"; end_text; "-c"; "copy";
      posixpath.join OUTPUT_FOLDER
        (posixpath.basename input_file +++ "_clip_"
         +++ strftime "%Y%m%d_%H%M%S" (now world (clock_reads s)) +++ ".mp4") ] in
  process_extraction world input_file start_time end_time s
  = (match run world (launches s) args with
     | completed _ _ => Returned tt
     | failed_to_start e => Raised e
     end,
     advance [Launched args] 1 1 s).
Proof.
  intros Hstart Hend args.
  unfold process_extraction, bind, datetime_now, lift, subprocess_run, ret.
  rewrite Hstart, Hend.
  cbn [clock_reads launches log video_list video_list_widget current_combo].
  fold args. destruct (run world (launches s) args); reflexivity.
Qed.

(** One of the two times is beyond the digit limit: [str()] raises once
    the clock was read, and nothing is launched. *)
Lemma process_extraction_raises (input_file : string) (start_time end_time : Z)
    (s : state) :
  ~ (within_digit_limit start_time /\ within_digit_limit end_time) ->
  process_extraction world input_file start_time end_time s
  = (Raised ValueError, advance [] 1 0 s).
Proof.
  intro H. rewrite <- advance_clock.
  unfold process_extraction, bind, datetime_now, lift.
  destruct (within_digit_limit_dec start_time) as [Hstart|Hstart].
  - rewrite (str_within _ Hstart).
    destruct (within_digit_limit_dec end_time) as [Hend|Hend]; [ tauto | ].
    now rewrite (str_beyond _ Hend).
  - now rewrite (str_beyond _ Hstart).
Qed.

Lemma extract_video_valid (path : string)
    (ih im is_ oh om os : FocusComboBox) (start_text end_text : string)
    (s : state) :
  get_selected_time to_ascii ih im is_ < get_selected_time to_ascii oh om os ->
  Py.str (get_selected_time to_ascii ih im is_) = Returned start_text ->
  Py.str (get_selected_time to_ascii oh om os) = Returned end_text ->
  let args :=
    [ "ffmpeg"; "-i"; path; "-ss"; start_text; "-to"; end_text;
      "-c"; "copy";
      posixpath.join OUTPUT_FOLDER
        (posixpath.basename path +++ "_clip_"
         +++ strftime "%Y%m%d_%H%M%S" (now world (clock_reads s)) +++ ".mp4") ] in
  extract_video to_ascii world path ih im is_ oh om os s
  = match run world (launches s) args with
    | completed _ _ =>
        (Returned tt,
         advance [ Launched args;
                   Information "Done"
                     ("Extraction completed for " +++ posixpath.basename path +++ "!") ]
           1 1 s)
    | failed_to_start e => (Raised e, advance [Launched args] 1 1 s)
    end.
Proof.
  intros H Hstart Hend args. unfold extract_video.
  destruct (Z.geb_spec (get_selected_time to_ascii ih im is_)
              (get_selected_time to_ascii oh om os)) as [Hge|_]; [ lia | ].
  unfold bind.
  rewrite (process_extraction_run path _ _ start_text end_text s Hstart Hend).
  fold args.
  destruct (run world (launches s) args); [ | reflexivity ].
  unfold QMessageBox_information, emit, modify, advance.
  cbn [clock_reads launches log video_list video_list_widget current_combo].
  rewrite <- app_assoc. reflexivity.
Qed.

Lemma extract_video_raises (path : string)
    (ih im is_ oh om os : FocusComboBox) (s : state) :
  get_selected_time to_ascii ih im is_ < get_selected_time to_ascii oh om os ->
  ~ (within_digit_limit (get_selected_time to_ascii ih im is_)
     /\ within_digit_limit (get_selected_time to_ascii oh om os)) ->
  extract_video to_ascii world path ih im is_ oh om os s
  = (Raised ValueError, advance [] 1 0 s).
Proof.
  intros H Hbeyond. unfold extract_video.
  destruct (Z.geb_spec (get_selected_time to_ascii ih im is_)
              (get_selected_time to_ascii oh om os)) as [Hge|_]; [ lia | ].
  unfold bind. now rewrite (process_extraction_raises path _ _ s Hbeyond).
Qed.

(** The three ways of [extract_video]: the warning, the [ValueError] of
    [str()], the launch. *)
Lemma extract_video_cases (path : string)
    (ih im is_ oh om os : FocusComboBox) (s : state) :
  let in_seconds := get_selected_time to_ascii ih im is_ in
  let out_seconds := get_selected_time to_ascii oh om os in
  let args :=
    [ "ffmpeg"; "-i"; path; "-ss"; Py.decimal in_seconds;
      "-to"; Py.decimal out_seconds; "-c"; "copy";
      posixpath.join OUTPUT_FOLDER
        (posixpath.basename path +++ "_clip_"
         +++ strftime "%Y%m%d_%H%M%S" (now world (clock_reads s)) +++ ".mp4") ] in
  (in_seconds >= out_seconds
   /\ extract_video to_ascii world path ih im is_ oh om os s
      = (Returned tt,
         advance [Warning "Invalid Time" "OUT time must be greater than IN time."]
           0 0 s))
  \/ (in_seconds < out_seconds
      /\ ~ (within_digit_limit in_seconds /\ within_digit_limit out_seconds)
      /\ extract_video to_ascii world path ih im is_ oh om os s
         = (Raised ValueError, advance [] 1 0 s))
  \/ (in_seconds < out_seconds
      /\ within_digit_limit in_seconds /\ within_digit_limit out_seconds
      /\ extract_video to_ascii world path ih im is_ oh om os s
         = match run world (launches s) args with
           | completed _ _ =>
               (Returned tt,
                advance [ Launched args;
                          Information "Done"
                            ("Extraction completed for "
                             +++ posixpath.basename path +++ "!") ]
                  1 1 s)
           | failed_to_start e => (Raised e, advance [Launched args] 1 1 s)
           end).
Proof.
  intros in_seconds out_seconds args.
  destruct (Z_lt_ge_dec in_seconds out_seconds) as [Hlt|Hge].
  - destruct (within_digit_limit_dec in_seconds) as [Hin|Hin];
      [ destruct (within_digit_limit_dec out_seconds) as [Hout|Hout] | ].
    + right; right. repeat (split; [ assumption | ]).
      exact (extract_video_valid path ih im is_ oh om os _ _ s Hlt
               (str_within _ Hin) (str_within _ Hout)).
    + right; left. split; [ exact Hlt | ].
      assert (Hbeyond : ~ (within_digit_limit in_seconds
                           /\ within_digit_limit out_seconds)) by tauto.
      split; [ exact Hbeyond | now apply extract_video_raises ].
    + right; left. split; [ exact Hlt | ].
      assert (Hbeyond : ~ (within_digit_limit in_seconds
                           /\ within_digit_limit out_seconds)) by tauto.
      split; [ exact Hbeyond | now apply extract_video_raises ].
  - left. split; [ exact Hge | now apply extract_video_invalid ].
Qed.
End ExtractFacts.

(** ** Computations that leave the window alone *)

Lemma same_window_refl (s : state) : same_window s s.
Proof. repeat split. Qed.

Lemma same_window_trans (s1 s2 s3 : state) :
  same_window s1 s2 -> same_window s2 s3 -> same_window s1 s3.
Proof.
  intros (H1 & H2 & H3) (H4 & H5 & H6). repeat split; congruence.
Qed.

Lemma quiet_ret {A} (a : A) : quiet (ret a).
Proof. intro s. apply same_window_refl. Qed.

Lemma quiet_raise {A} (e : exn) : quiet (@raise A e).
Proof. intro s. apply same_window_refl. Qed.

Lemma quiet_gets {A} (f : state -> A) : quiet (gets f).
Proof. intro s. apply same_window_refl. Qed.

Lemma quiet_lift {A} (o : outcome A) : quiet (lift o).
Proof. intro s. apply same_window_refl. Qed.

Lemma quiet_deref {A} (o : option A) : quiet (deref o).
Proof. destruct o; [ apply quiet_ret | apply quiet_raise ]. Qed.

Lemma quiet_emit (e : event) : quiet (emit e).
Proof. intro s. repeat split. Qed.

Lemma quiet_bind {A B} (m : M A) (k : A -> M B) :
  quiet m -> (forall a, quiet (k a)) -> quiet (bind m k).
Proof.
  intros Hm Hk s. unfold bind. specialize (Hm s).
  destruct (m s) as [[a|e] s']; cbn [snd] in *; [ | exact Hm ].
  eapply same_window_trans; [ exact Hm | apply Hk ].
Qed.

Lemma quiet_for_each {A} (l : list A) (body : A -> M unit) :
  (forall x, quiet (body x)) -> quiet (for_each l body).
Proof.
  intro Hb. induction l as [|x l IH]; cbn [for_each].
  - apply quiet_ret.
  - apply quiet_bind; [ apply Hb | intros _; exact IH ].
Qed.

Lemma quiet_combo_at (i : nat) (l : list layout_item) : quiet (combo_at i l).
Proof. apply quiet_deref. Qed.

Create HintDb quiet.
#[local] Hint Resolve quiet_ret quiet_raise quiet_gets quiet_lift quiet_deref
  quiet_emit quiet_combo_at : quiet.

Ltac quiet_steps :=
  cbv zeta;
  repeat first
    [ progress intros
    | solve [ auto with quiet ]
    | apply quiet_bind
    | match goal with
      | |- quiet (match ?x with _ => _ end) => destruct x
      | |- quiet (if ?b then _ else _) => destruct b
      end ].

Section Quiet.
Variable to_ascii : string -> string.
Variable world : World.

Lemma quiet_datetime_now : quiet (datetime_now world).
Proof. intro s. repeat split. Qed.

Lemma quiet_subprocess_run (args : list string) :
  quiet (subprocess_run world args).
Proof.
  intro s. unfold subprocess_run.
  destruct (run world (launches s) args); repeat split.
Qed.

Lemma quiet_process_extraction (f : string) (a b : Z) :
  quiet (process_extraction world f a b).
Proof.
  unfold process_extraction.
  apply quiet_bind; [ apply quiet_datetime_now | intro d ].
  apply quiet_bind; [ apply quiet_lift | intro start_text ].
  apply quiet_bind; [ apply quiet_lift | intro end_text ].
  apply quiet_bind; [ apply quiet_subprocess_run | intros _; apply quiet_ret ].
Qed.

Lemma quiet_extract_video (f : string) (ih im is_ oh om os : FocusComboBox) :
  quiet (extract_video to_ascii world f ih im is_ oh om os).
Proof.
  unfold extract_video, QMessageBox_warning, QMessageBox_information.
  pose proof quiet_process_extraction. quiet_steps.
Qed.

Lemma quiet_extract_row (index : nat) : quiet (extract_row to_ascii world index).
Proof.
  unfold extract_row. pose proof quiet_extract_video. quiet_steps.
Qed.

Lemma quiet_extract_all_videos : quiet (extract_all_videos to_ascii world).
Proof.
  unfold extract_all_videos.
  apply quiet_bind; [ apply quiet_gets | intro count ].
  apply quiet_for_each, quiet_extract_row.
Qed.

Lemma quiet_click (index button : nat) : quiet (click to_ascii world index button).
Proof.
  unfold click, play_video. pose proof quiet_extract_video. quiet_steps.
Qed.
End Quiet.

(** ** The tracked list and its rows *)

Lemma in_list_spec (x : string) (l : list string) :
  Py.in_list x l = true <-> In x l.
Proof.
  unfold Py.in_list. rewrite existsb_exists. split.
  - intros (y & Hy & Heq). apply String.eqb_eq in Heq. now subst.
  - intro H. exists x. split; [ exact H | apply String.eqb_refl ].
Qed.

Lemma in_list_false (x : string) (l : list string) :
  Py.in_list x l = false <-> ~ In x l.
Proof.
  rewrite <- in_list_spec. destruct (Py.in_list x l); split; congruence.
Qed.

Lemma add_videos_nil (s : state) : add_videos [] s = (Returned tt, s).
Proof. reflexivity. Qed.

Lemma add_videos_tracked (file : string) (files : list string) (s : state) :
  In file (video_list s) ->
  add_videos (file :: files) s = add_videos files s.
Proof.
  intro H. apply in_list_spec in H.
  unfold add_videos. cbn [for_each]. unfold bind at 1. unfold bind at 1.
  unfold gets at 1. now rewrite H.
Qed.

Lemma add_videos_new (file : string) (files : list string) (s : state) :
  ~ In file (video_list s) ->
  add_videos (file :: files) s
  = add_videos files
      (set_video_list_widget (video_list_widget s ++ [frame_of (fresh_row file)])
         (set_video_list (video_list s ++ [file]) s)).
Proof.
  intro H. apply in_list_false in H.
  unfold add_videos. cbn [for_each]. unfold bind at 1. unfold bind at 1.
  unfold gets at 1. now rewrite H.
Qed.

Lemma fresh_row_path (file : string) : file_path (fresh_row file) = file.
Proof. reflexivity. Qed.

Lemma rows_of_track (s : state) (rs : list row) (file : string) :
  rows_of s rs ->
  rows_of
    (set_video_list_widget (video_list_widget s ++ [frame_of (fresh_row file)])
       (set_video_list (video_list s ++ [file]) s))
    (rs ++ [fresh_row file]).
Proof.
  intros (Hl & Hw).
  split; unfold set_video_list_widget, set_video_list;
    cbn [video_list video_list_widget]; rewrite map_app; cbn [map];
    rewrite ?fresh_row_path; congruence.
Qed.

Lemma add_videos_rows (files : list string) :
  forall (s : state) (rs : list row),
    rows_of s rs -> NoDup (map file_path rs) ->
    exists rs',
      rows_of (snd (add_videos files s)) rs' /\ NoDup (map file_path rs')
      /\ fst (add_videos files s) = Returned tt.
Proof.
  induction files as [|file files IH]; intros s rs Hrows Hnd.
  - exists rs. now rewrite add_videos_nil.
  - destruct (in_dec string_dec file (video_list s)) as [Hin|Hout].
    + rewrite add_videos_tracked by exact Hin. now apply (IH s rs).
    + rewrite add_videos_new by exact Hout.
      apply (IH _ (rs ++ [fresh_row file])).
      * now apply rows_of_track.
      * rewrite map_app. cbn [map]. destruct Hrows as (Hl & _).
        rewrite Hl in Hout. apply NoDup_app; try assumption.
        -- repeat constructor. intros [].
        -- intros x Hx [Heq|[]]. subst x.
           rewrite fresh_row_path in Hx. contradiction.
Qed.

Lemma rows_of_same_window (s s' : state) (rs : list row) :
  same_window s s' -> rows_of s rs -> rows_of s' rs.
Proof.
  intros (H1 & H2 & _) (Hl & Hw). split; congruence.
Qed.

(** An edit of a combo box keeps the shape of the frame and its path. *)
Lemma edit_frame_row (pos : nat) (f : FocusComboBox -> FocusComboBox) (r : row) :
  exists r', edit_frame pos f (frame_of r) = frame_of r'
             /\ file_path r' = file_path r.
Proof.
  destruct r as [p ih im is_ oh om os].
  unfold edit_frame, frame_of, video_frame_of.
  cbn [file_path in_hour in_min in_sec out_hour out_min out_sec update_nth].
  do 13 (destruct pos as [|pos];
         [ cbn [update_nth];
           eexists (Build_row p _ _ _ _ _ _); split; reflexivity | ]).
  cbn [update_nth]. eexists (Build_row p _ _ _ _ _ _); split; reflexivity.
Qed.

Lemma edit_rows (pos : nat) (f : FocusComboBox -> FocusComboBox) (rs : list row) :
  forall index,
  exists rs', update_nth index (edit_frame pos f) (map frame_of rs) = map frame_of rs'
              /\ map file_path rs' = map file_path rs.
Proof.
  induction rs as [|r rs IH]; intro index.
  - exists []. split; reflexivity.
  - destruct index as [|index]; cbn [map update_nth].
    + destruct (edit_frame_row pos f r) as (r' & Hf & Hp).
      exists (r' :: rs). cbn [map]. now rewrite Hf, Hp.
    + destruct (IH index) as (rs' & Hf & Hp).
      exists (r :: rs'). cbn [map]. now rewrite Hf, Hp.
Qed.

Lemma rows_of_edit_combo (index pos : nat) (f : FocusComboBox -> FocusComboBox)
    (s : state) (rs : list row) :
  rows_of s rs ->
  exists rs', rows_of (edit_combo index pos f s) rs'
              /\ map file_path rs' = map file_path rs.
Proof.
  intros (Hl & Hw).
  destruct (edit_rows pos f rs index) as (rs' & Hf & Hp).
  exists rs'. split; [ | exact Hp ].
  split; unfold edit_combo, set_video_list_widget;
    cbn [video_list video_list_widget]; congruence.
Qed.

Section SessionFacts.
Variable to_ascii : string -> string.
Variable world : World.

Lemma perform_rows (a : action) (s : state) (rs : list row) :
  rows_of s rs -> NoDup (map file_path rs) ->
  exists rs', rows_of (snd (perform to_ascii world a s)) rs'
              /\ NoDup (map file_path rs').
Proof.
  intros Hrows Hnd.
  destruct a as [files| |index button|index pos|value|index pos item|index pos text];
    cbn [perform].
  - destruct (add_videos_rows files s rs Hrows Hnd) as (rs' & H1 & H2 & _).
    now exists rs'.
  - exists rs. split; [ | exact Hnd ].
    eapply rows_of_same_window; [ apply quiet_extract_all_videos | exact Hrows ].
  - exists rs. split; [ | exact Hnd ].
    eapply rows_of_same_window; [ apply quiet_click | exact Hrows ].
  - exists rs. split; [ | exact Hnd ]. exact Hrows.
  - unfold handle_quick_insert, bind, gets, lift.
    destruct (current_combo s) as [[row pos]|]; [ | now exists rs ].
    destruct (Py.str value) as [text|e]; [ | now exists rs ].
    cbn [snd modify].
    destruct (rows_of_edit_combo row pos (setCurrentText text) s rs Hrows)
      as (rs' & H1 & H2).
    exists rs'. now rewrite H2.
  - destruct (rows_of_edit_combo index pos (setCurrentIndex item) s rs Hrows)
      as (rs' & H1 & H2).
    exists rs'. now rewrite H2.
  - destruct (rows_of_edit_combo index pos (setCurrentText text) s rs Hrows)
      as (rs' & H1 & H2).
    exists rs'. now rewrite H2.
Qed.

(** Every state of a session shows one frame per tracked path, in the
    order of [video_list], and tracks no path twice. *)
Lemma session_rows (acts : list action) :
  forall (s : state) (rs : list row),
    rows_of s rs -> NoDup (map file_path rs) ->
    exists rs', rows_of (session to_ascii world acts s) rs'
                /\ NoDup (map file_path rs').
Proof.
  induction acts as [|a acts IH]; intros s rs Hrows Hnd; cbn [session].
  - now exists rs.
  - destruct (perform_rows a s rs Hrows Hnd) as (rs1 & H1 & H2).
    destruct (perform to_ascii world a s) as [[[]|e] s1]; cbn [snd] in H1.
    + now apply (IH s1 rs1).
    + now exists rs1.
Qed.

Lemma initial_rows : rows_of initial [].
Proof. split; reflexivity. Qed.

Lemma session_initial_rows (acts : list action) :
  exists rs, rows_of (session to_ascii world acts initial) rs
             /\ NoDup (map file_path rs).
Proof. apply (session_rows acts initial []); [ apply initial_rows | constructor ]. Qed.
End SessionFacts.

(* ================================================================== *)
(** * From a row back to its path *)
(* ================================================================== *)

Lemma replace_from_absent (old new s : string) :
  Py.in_str old s = false -> Py.replace_from old new 0 s = s.
Proof.
  induction s as [|c r IH]; intro H; [ reflexivity | ].
  cbn [Py.in_str] in H. apply orb_false_elim in H. destruct H as (Hhead & Htail).
  cbn [Py.replace_from]. rewrite Hhead. now rewrite IH.
Qed.

(** Stripping the decoration from a title leaves the stripped base name. *)
Lemma strip_title (b : string) :
  Py.replace film "" (film +++ b) = Py.replace film "" b.
Proof. reflexivity. Qed.

Lemma strip_plain_title (b : string) :
  Py.in_str film b = false -> Py.replace film "" (film +++ b) = b.
Proof.
  intro H. rewrite strip_title. now apply (replace_from_absent film "" b).
Qed.

Lemma find_by_key {A} (key : A -> string) (l : list A) (x : A) :
  NoDup (map key l) -> In x l ->
  find (fun y => String.eqb (key y) (key x)) l = Some x.
Proof.
  induction l as [|y l IH]; intros Hnd Hin; [ destruct Hin | ].
  cbn [map] in Hnd. inversion Hnd as [|k ks Hnotin Hnd']; subst.
  cbn [find]. destruct Hin as [->|Hin].
  - now rewrite String.eqb_refl.
  - destruct (String.eqb_spec (key y) (key x)) as [Heq|_].
    + exfalso. apply Hnotin. rewrite Heq. now apply in_map.
    + now apply IH.
Qed.

Lemma nth_error_middle {A} (pre : list A) (x : A) (suf : list A) :
  nth_error (pre ++ x :: suf) (List.length pre) = Some x.
Proof. induction pre as [|y pre IH]; [ reflexivity | exact IH ]. Qed.

Lemma truthy_nonempty (s : string) : s <> "" -> Py.truthy s = true.
Proof.
  intro H. unfold Py.truthy. now destruct (String.eqb_spec s "").
Qed.

Section RowFacts.
Variable to_ascii : string -> string.
Variable world : World.

(** One turn of the loop on a row whose base name holds no decoration:
    the row's title is matched against the tracked paths, first match
    first, and the match is extracted with the row's own combo boxes. *)
Lemma extract_row_plain (s : state) (rs : list row) (index : nat) (r : row) :
  rows_of s rs ->
  nth_error rs index = Some r ->
  Py.in_str film (posixpath.basename (file_path r)) = false ->
  extract_row to_ascii world index s
  = match find (fun path => String.eqb (posixpath.basename path)
                              (posixpath.basename (file_path r)))
            (video_list s) with
    | None => (Returned tt, s)
    | Some video_path =>
        if negb (Py.truthy video_path) then (Returned tt, s)
        else extract_video to_ascii world video_path
               (in_hour r) (in_min r) (in_sec r)
               (out_hour r) (out_min r) (out_sec r) s
    end.
Proof.
  intros (Hl & Hw) Hnth Hplain.
  unfold extract_row. unfold bind at 1. unfold gets at 1.
  rewrite Hw, nth_error_map, Hnth. cbn [option_map].
  unfold bind at 1. cbn [deref]. unfold ret at 1.
  unfold bind at 1.
  change (option_bind (option_bind (itemAt 0 (frame_of r)) widget_of) text_of)
    with (Some (film +++ posixpath.basename (file_path r))).
  cbn [deref]. unfold ret at 1.
  rewrite (strip_plain_title _ Hplain).
  unfold bind at 1. unfold gets at 1.
  destruct (find _ (video_list s)) as [video_path|]; [ | reflexivity ].
  destruct (negb (Py.truthy video_path)); reflexivity.
Qed.

(** With one tracked path per base name, the match is the row's path. *)
Lemma extract_row_own (s : state) (rs : list row) (index : nat) (r : row) :
  rows_of s rs ->
  nth_error rs index = Some r ->
  NoDup (map posixpath.basename (video_list s)) ->
  Py.in_str film (posixpath.basename (file_path r)) = false ->
  file_path r <> "" ->
  extract_row to_ascii world index s = extract_entry to_ascii world r s.
Proof.
  intros Hrows Hnth Hnd Hplain Hpath.
  rewrite (extract_row_plain s rs index r Hrows Hnth Hplain).
  destruct Hrows as (Hl & _).
  rewrite (find_by_key posixpath.basename (video_list s) (file_path r) Hnd).
  - now rewrite truthy_nonempty.
  - rewrite Hl. apply in_map. eapply nth_error_In. exact Hnth.
Qed.
End RowFacts.

(* ================================================================== *)
(** * The loop over the rows *)
(* ================================================================== *)

Lemma bind_ext {A B} (m : M A) (k k' : A -> M B) (s : state) :
  (forall a s', k a s' = k' a s') -> bind m k s = bind m k' s.
Proof.
  intro H. unfold bind. destruct (m s) as [[a|e] s']; [ apply H | reflexivity ].
Qed.

Lemma bind_ext_left {A B} (m m' : M A) (k : A -> M B) (s : state) :
  m s = m' s -> bind m k s = bind m' k s.
Proof. intro H. unfold bind. now rewrite H. Qed.

Lemma bind_assoc {A B C} (m : M A) (k : A -> M B) (h : B -> M C) (s : state) :
  bind (bind m k) h s = bind m (fun a => bind (k a) h) s.
Proof.
  unfold bind. destruct (m s) as [[a|e] s']; reflexivity.
Qed.

Lemma for_each_app {A} (l1 l2 : list A) (body : A -> M unit) (s : state) :
  for_each (l1 ++ l2) body s
  = bind (for_each l1 body) (fun _ => for_each l2 body) s.
Proof.
  revert s. induction l1 as [|x l1 IH]; intro s; cbn [app for_each].
  - reflexivity.
  - rewrite bind_assoc. apply bind_ext. intros _ s'. apply IH.
Qed.

Section LoopFacts.
Variable to_ascii : string -> string.
Variable world : World.

Lemma quiet_extract_entry (r : row) : quiet (extract_entry to_ascii world r).
Proof. apply quiet_extract_video. Qed.


(** Rows with a path, an undecorated base name, and base names that are
    pairwise distinct: the turns of the loop are the rows' own
    extractions. *)
Lemma for_each_rows (suf : list row) :
  forall (pre : list row) (s : state),
    rows_of s (pre ++ suf) ->
    NoDup (map posixpath.basename (map file_path (pre ++ suf))) ->
    Forall (fun r => file_path r <> ""
                     /\ Py.in_str film (posixpath.basename (file_path r)) = false)
      (pre ++ suf) ->
    for_each (seq (List.length pre) (List.length suf)) (extract_row to_ascii world) s
    = for_each suf (extract_entry to_ascii world) s.
Proof.
  induction suf as [|r suf IH]; intros pre s Hrows Hnd Hall; [ reflexivity | ].
  cbn [List.length seq for_each].
  assert (Hr : file_path r <> ""
               /\ Py.in_str film (posixpath.basename (file_path r)) = false).
  { rewrite Forall_forall in Hall. apply Hall, in_elt. }
  destruct Hr as (Hpath & Hplain).
  assert (Hstep : extract_row to_ascii world (List.length pre) s
                  = extract_entry to_ascii world r s).
  { apply (extract_row_own to_ascii world s (pre ++ r :: suf)); try assumption.
    - apply nth_error_middle.
    - destruct Hrows as (Hl & _). now rewrite Hl. }
  unfold bind. rewrite Hstep.
  pose proof (quiet_extract_entry r s) as Hquiet.
  destruct (extract_entry to_ascii world r s) as [[[]|e] s']; [ | reflexivity ].
  cbn [snd] in Hquiet.
  replace (S (List.length pre)) with (List.length (pre ++ [r]))
    by (rewrite length_app; cbn; lia).
  apply IH; rewrite <- app_assoc; cbn [app]; try assumption.
  eapply rows_of_same_window; eassumption.
Qed.

Lemma extract_all_videos_rows (s : state) (rs : list row) :
  rows_of s rs ->
  NoDup (map posixpath.basename (map file_path rs)) ->
  Forall (fun r => file_path r <> ""
                   /\ Py.in_str film (posixpath.basename (file_path r)) = false)
    rs ->
  extract_all_videos to_ascii world s = for_each rs (extract_entry to_ascii world) s.
Proof.
  intros Hrows Hnd Hall. unfold extract_all_videos, bind, gets.
  destruct Hrows as (Hl & Hw). rewrite Hw, length_map.
  apply (for_each_rows rs [] s); try assumption. now split.
Qed.

(** In a world where every launch returns, the extraction of rows
    whose times can be written out does not raise. *)
Lemma for_each_entries_return (rs : list row) :
  (forall k args, exists rc err, run world k args = completed rc err) ->
  Forall (writable_times to_ascii) rs ->
  forall s, fst (for_each rs (extract_entry to_ascii world) s) = Returned tt.
Proof.
  intros Hworld Hall. induction Hall as [|r rs Hr Hall IH]; intro s;
    [ reflexivity | ].
  cbn [for_each]. unfold bind.
  assert (Hret : fst (extract_entry to_ascii world r s) = Returned tt).
  { unfold extract_entry.
    destruct (extract_video_cases to_ascii world (file_path r)
                (in_hour r) (in_min r) (in_sec r)
                (out_hour r) (out_min r) (out_sec r) s)
      as [(_ & ->)|[(Hlt & Hbeyond & _)|(_ & _ & _ & ->)]].
    - reflexivity.
    - elim Hbeyond. exact (Hr Hlt).
    - match goal with |- context [run world ?k ?a] =>
        destruct (Hworld k a) as (rc & err & Hrun); rewrite Hrun end.
      reflexivity. }
  destruct (extract_entry to_ascii world r s) as [[[]|e] s']; cbn [fst] in Hret.
  - apply IH.
  - discriminate.
Qed.
End LoopFacts.

(* ================================================================== *)
(** * Extract: the range check and the command line *)
(* ================================================================== *)

Lemma commands_app (l1 l2 : list event) :
  commands (l1 ++ l2) = commands l1 ++ commands l2.
Proof.
  induction l1 as [|e l1 IH]; [ reflexivity | ].
  destruct e; cbn [app commands]; now rewrite IH.
Qed.

Section ExtractClaims.
Variable to_ascii : string -> string.
Variable world : World.

(** C1.  When the IN time read from the selectors is not below the OUT
    time, [extract_video] shows the warning "OUT time must be greater
    than IN time." and returns: [process_extraction] is not called, so
    the clock is not read, no command is launched and nothing else is
    logged. *)
Theorem extract_video_rejects_invalid_range (path : string)
    (ih im is_ oh om os : FocusComboBox) (s : state) :
  get_selected_time to_ascii ih im is_ >= get_selected_time to_ascii oh om os ->
  let s' := snd (extract_video to_ascii world path ih im is_ oh om os s) in
  extract_video to_ascii world path ih im is_ oh om os s
  = (Returned tt,
     advance [Warning "Invalid Time" "OUT time must be greater than IN time."]
       0 0 s)
  /\ commands (log s') = commands (log s)
  /\ launches s' = launches s
  /\ clock_reads s' = clock_reads s.
Proof.
  intros Hge s'. subst s'.
  rewrite (extract_video_invalid to_ascii world path ih im is_ oh om os s Hge).
  cbn [snd advance log launches clock_reads].
  rewrite commands_app. cbn [commands]. rewrite app_nil_r.
  repeat split.
Qed.


(** C3.  Once both [str()] calls returned, the output file handed to the
    tool is [./output] joined with
    [<basename of the source>_clip_<YYYYMMDD_HHMMSS>.mp4], the time stamp
    being the reading of the clock made by this call: the year as it is,
    four digits from the year 1000 on, and every other field padded with
    zeros to two digits. *)
Theorem process_extraction_output_file (input_file : string)
    (start_time end_time : Z) (start_text end_text : string) (s : state) :
  Py.str start_time = Returned start_text ->
  Py.str end_time = Returned end_text ->
  let t := now world (clock_reads s) in
  let stamp :=
    Py.decimal (year t) +++ Py.format_0d 2 (month t)
    +++ Py.format_0d 2 (day t) +++ "_" +++ Py.format_0d 2 (hour t)
    +++ Py.format_0d 2 (minute t) +++ Py.format_0d 2 (second t) in
  let name := posixpath.basename input_file +++ "_clip_" +++ stamp +++ ".mp4" in
  log (snd (process_extraction world input_file start_time end_time s))
  = log s ++ [ Launched [ "ffmpeg"; "-i"; input_file; "-ss"; start_text;
                          "-to"; end_text; "-c"; "copy";
                          posixpath.join OUTPUT_FOLDER name ] ]
  /\ posixpath.join OUTPUT_FOLDER name = "./output/" +++ name
  /\ (1000 <= year t <= 9999 ->
      Py.decimal (year t) = Py.format_0d 4 (year t)
      /\ String.length (Py.decimal (year t)) = 4%nat).
Proof.
  intros Hstart Hend t stamp name.
  rewrite (process_extraction_run world input_file _ _ _ _ s Hstart Hend).
  cbv zeta. cbn [snd advance log]. rewrite strftime_stamp. fold t stamp name.
  split; [ reflexivity | split ].
  - apply join_output, basename_no_sep.
  - intro Hyear. split; [ now apply decimal_four_digits | ].
    now apply length_decimal_four_digits.
Qed.
End ExtractClaims.

(* ================================================================== *)
(** * Reading the time selectors *)
(* ================================================================== *)

Lemma in_range (n : nat) (i : Z) :
  In i (Py.range n) <-> 0 <= i < Z.of_nat n.
Proof.
  unfold Py.range. rewrite in_map_iff. split.
  - intros (k & <- & Hk). apply in_seq in Hk. lia.
  - intro H. exists (Z.to_nat i). split; [ lia | apply in_seq; lia ].
Qed.

Lemma length_format_02d (i : Z) :
  0 <= i <= 99 -> String.length (Py.format_0d 2 i) = 2%nat.
Proof.
  intro H.
  assert (Hall : forallb (fun i => Nat.eqb (String.length (Py.format_0d 2 i)) 2)
                   (Py.range 100) = true) by (vm_compute; reflexivity).
  rewrite forallb_forall in Hall. apply Nat.eqb_eq, Hall, in_range. lia.
Qed.

Lemma int_format_02d (to_ascii : string -> string) (i : Z) :
  0 <= i <= 99 -> Py.int to_ascii (Py.format_0d 2 i) = Returned i.
Proof.
  intro H. apply int_format_0d.
  rewrite (length_format_02d i H). unfold Py.int_max_str_digits. lia.
Qed.

Lemma format_02d_inj (to_ascii : string -> string) (i j : Z) :
  0 <= i <= 99 -> 0 <= j <= 99 ->
  Py.format_0d 2 i = Py.format_0d 2 j -> i = j.
Proof.
  intros Hi Hj H. pose proof (int_format_02d to_ascii i Hi) as Hread.
  rewrite H, (int_format_02d to_ascii j Hj) in Hread. now injection Hread.
Qed.

Lemma nth_error_range (n i : nat) :
  (i < n)%nat -> nth_error (Py.range n) i = Some (Z.of_nat i).
Proof.
  intro H. unfold Py.range. rewrite nth_error_map.
  assert (Hseq : nth_error (seq 0 n) i = Some i).
  { rewrite (nth_error_nth' _ 0%nat) by (rewrite length_seq; exact H).
    now rewrite seq_nth. }
  now rewrite Hseq.
Qed.

(** The text of a fresh wheel of [n] items after the item [i] was picked. *)
Lemma wheel_pick (n i : nat) (lo hi : Z) (color : string) :
  (i < n)%nat ->
  currentText
    (setCurrentIndex i
       (addItems (map (Py.format_0d 2) (Py.range n))
          (new_FocusComboBox lo hi color)))
  = Py.format_0d 2 (Z.of_nat i).
Proof.
  intro H. unfold setCurrentIndex, addItems, new_FocusComboBox.
  cbn [items app]. rewrite nth_error_map, (nth_error_range n i H).
  reflexivity.
Qed.

Section SelectorClaims.
Variable to_ascii : string -> string.

Lemma safe_int_format_02d (i : Z) :
  0 <= i <= 99 -> safe_int to_ascii (Py.format_0d 2 i) = i.
Proof.
  intro H. unfold safe_int. now rewrite int_format_02d.
Qed.

Lemma safe_int_str (n : Z) (text : string) :
  Py.str n = Returned text -> safe_int to_ascii text = n.
Proof. intro H. unfold safe_int. now rewrite (int_str to_ascii n text H). Qed.


Lemma safe_int_refused (text : string) :
  (forall n, Py.int to_ascii text <> Returned n) -> safe_int to_ascii text = 0.
Proof.
  intro H. unfold safe_int.
  destruct (Py.int to_ascii text) as [n|e]; [ now elim (H n) | reflexivity ].
Qed.

(** C4.  With the item [h] of the hour wheel (0 to 23), the item [m] of
    the minute wheel and the item [s] of the second wheel (0 to 59)
    picked, [get_selected_time] returns [h*3600 + m*60 + s]. *)
Theorem get_selected_time_of_wheels (h m s : nat)
    (hour_combo minute_combo second_combo : FocusComboBox) :
  create_time_wheels = (hour_combo, minute_combo, second_combo) ->
  (h < 24)%nat -> (m < 60)%nat -> (s < 60)%nat ->
  get_selected_time to_ascii (setCurrentIndex h hour_combo)
    (setCurrentIndex m minute_combo) (setCurrentIndex s second_combo)
  = Z.of_nat h * 3600 + Z.of_nat m * 60 + Z.of_nat s.
Proof.
  intros Hwheels Hh Hm Hs. unfold create_time_wheels in Hwheels.
  injection Hwheels as <- <- <-.
  unfold get_selected_time.
  rewrite (wheel_pick 24 h) by exact Hh.
  rewrite (wheel_pick 60 m) by exact Hm.
  rewrite (wheel_pick 60 s) by exact Hs.
  now rewrite !safe_int_format_02d by lia.
Qed.

(** C5, as the code has it.  The reading of a field is [0] exactly when
    [int] refuses its text, and the integer the text writes otherwise,
    inside the range of the field or not.  [int] refuses, besides the
    texts that write no number, every numeral of more digits than the
    limit (4300), leading zeros counted: such a text of digits reads [0],
    a text of at most 4300 digits reads as the number it writes.  The
    decimal text of any integer [n] within the limit, negative or beyond
    [max_val], is read as [n]. *)
Theorem field_text_read_as_written (c : FocusComboBox) (text : string) :
  ((forall n, Py.int to_ascii text <> Returned n) ->
   safe_int to_ascii (currentText (setCurrentText text c)) = 0)
  /\ (forall n, Py.int to_ascii text = Returned n ->
      safe_int to_ascii (currentText (setCurrentText text c)) = n)
  /\ (forall n, within_digit_limit n ->
      Py.str n = Returned (Py.decimal n)
      /\ safe_int to_ascii (currentText (setCurrentText (Py.decimal n) c)) = n)
  /\ (forall n text', Py.str n = Returned text' ->
      safe_int to_ascii (currentText (setCurrentText text' c)) = n)
  /\ (all_digits text = true ->
      Py.int_max_str_digits < Z.of_nat (String.length text) ->
      Py.int to_ascii text = Raised ValueError
      /\ safe_int to_ascii (currentText (setCurrentText text c)) = 0)
  /\ (text <> "" -> all_digits text = true ->
      Z.of_nat (String.length text) <= Py.int_max_str_digits ->
      exists n, 0 <= n /\ Py.int to_ascii text = Returned n
                /\ safe_int to_ascii (currentText (setCurrentText text c)) = n).
Proof.
  cbn [currentText setCurrentText].
  split; [ | split; [ | split; [ | split; [ | split ] ] ] ].
  - apply safe_int_refused.
  - intros n Hn. unfold safe_int. now rewrite Hn.
  - intros n Hn. pose proof (str_within n Hn) as Hstr.
    split; [ exact Hstr | exact (safe_int_str n _ Hstr) ].
  - intros n text' Hstr. exact (safe_int_str n text' Hstr).
  - intros Hall Hlong.
    assert (Hne : text <> "").
    { intros ->. cbn in Hlong. unfold Py.int_max_str_digits in Hlong. lia. }
    pose proof (proj2 (int_all_digits to_ascii text Hne Hall) Hlong) as Hint.
    split; [ exact Hint | ]. unfold safe_int. now rewrite Hint.
  - intros Hne Hall Hshort.
    destruct (proj1 (int_all_digits to_ascii text Hne Hall) Hshort) as (n & Hn & Hint).
    exists n. split; [ exact Hn | split; [ exact Hint | ] ].
    unfold safe_int. now rewrite Hint.
Qed.

(** C6.  A text that [int] refuses counts for [0] in whichever field it
    stands, and [get_selected_time] returns the sum of the other two
    fields' seconds. *)
Theorem refused_text_counts_zero (text : string)
    (hour_combo minute_combo second_combo : FocusComboBox) :
  (forall n, Py.int to_ascii text <> Returned n) ->
  safe_int to_ascii text = 0
  /\ get_selected_time to_ascii (setCurrentText text hour_combo) minute_combo second_combo
     = safe_int to_ascii (currentText minute_combo) * 60
       + safe_int to_ascii (currentText second_combo)
  /\ get_selected_time to_ascii hour_combo (setCurrentText text minute_combo) second_combo
     = safe_int to_ascii (currentText hour_combo) * 3600
       + safe_int to_ascii (currentText second_combo)
  /\ get_selected_time to_ascii hour_combo minute_combo (setCurrentText text second_combo)
     = safe_int to_ascii (currentText hour_combo) * 3600
       + safe_int to_ascii (currentText minute_combo) * 60.
Proof.
  intro H. pose proof (safe_int_refused text H) as Hzero.
  unfold get_selected_time. cbn [currentText setCurrentText].
  rewrite Hzero. repeat split; lia.
Qed.
End SelectorClaims.

(* ================================================================== *)
(** * Adding files *)
(* ================================================================== *)

Section AddClaims.
Variable to_ascii : string -> string.
Variable world : World.

Lemma fresh_row_times (path : string) :
  in_time to_ascii (fresh_row path) = 0 /\ out_time to_ascii (fresh_row path) = 0.
Proof. split; reflexivity. Qed.

(** C7.  In every state of a session, adding a path that is tracked
    changes nothing; adding a path and adding it again leaves it tracked
    exactly once, the second addition changing nothing; a path that was
    not tracked goes to the end of the list with a fresh frame whose IN
    and OUT selectors both read 0 seconds. *)
Theorem add_videos_idempotent (acts : list action) (path : string) :
  let s := session to_ascii world acts initial in
  let s1 := snd (add_videos [path] s) in
  (In path (video_list s) -> add_videos [path] s = (Returned tt, s))
  /\ add_videos [path] s1 = (Returned tt, s1)
  /\ count_occ string_dec (video_list s1) path = 1%nat
  /\ (~ In path (video_list s) ->
      video_list s1 = video_list s ++ [path]
      /\ video_list_widget s1
         = video_list_widget s ++ [frame_of (fresh_row path)]
      /\ in_time to_ascii (fresh_row path) = 0
      /\ out_time to_ascii (fresh_row path) = 0).
Proof.
  intros s s1.
  destruct (session_initial_rows to_ascii world acts) as (rs & Hrows & Hnd).
  fold s in Hrows.
  assert (Hkeep : In path (video_list s) -> add_videos [path] s = (Returned tt, s)).
  { intro Hin. now rewrite add_videos_tracked, add_videos_nil. }
  assert (Hin1 : In path (video_list s1) /\ NoDup (video_list s1)).
  { subst s1. destruct (in_dec string_dec path (video_list s)) as [Hin|Hout].
    - rewrite (Hkeep Hin). cbn [snd]. split; [ exact Hin | ].
      destruct Hrows as (Hl & _). now rewrite Hl.
    - rewrite add_videos_new, add_videos_nil by exact Hout. cbn [snd].
      unfold set_video_list_widget, set_video_list. cbn [video_list].
      split; [ apply in_or_app; right; now left | ].
      destruct Hrows as (Hl & _). rewrite Hl in *.
      apply NoDup_app; [ exact Hnd | repeat constructor; intros [] | ].
      intros x Hx [<-|[]]. contradiction. }
  destruct Hin1 as (Hin1 & Hnd1).
  split; [ exact Hkeep | ].
  split; [ now rewrite add_videos_tracked, add_videos_nil | ].
  split; [ now apply NoDup_count_occ' | ].
  intro Hout. subst s1.
  rewrite add_videos_new, add_videos_nil by exact Hout. cbn [snd].
  repeat split.
Qed.
End AddClaims.

(* ================================================================== *)
(** * The exit status of the tool *)
(* ================================================================== *)

Section ExitStatusClaims.
Variable to_ascii : string -> string.

(** C9, as the code has it.  Take a valid range whose two times [str()]
    writes out, and two worlds that agree on the clock and in which the
    launch returns, with any two return codes and any two standard error
    texts: [extract_video] returns normally in both, with the same state,
    whose log ends with the launch and the "Done" box.  In a world where
    the launch cannot start, the exception leaves [extract_video] and the
    log ends with the launch: no "Done" box. *)
Theorem extract_video_ignores_exit_status (w1 w2 w3 : World) (path : string)
    (ih im is_ oh om os : FocusComboBox) (start_text end_text : string)
    (s : state) (rc1 rc2 : Z) (err1 err2 : string) (e : exn) :
  get_selected_time to_ascii ih im is_ < get_selected_time to_ascii oh om os ->
  Py.str (get_selected_time to_ascii ih im is_) = Returned start_text ->
  Py.str (get_selected_time to_ascii oh om os) = Returned end_text ->
  let args :=
    [ "ffmpeg"; "-i"; path; "-ss"; start_text; "-to"; end_text;
      "-c"; "copy";
      posixpath.join OUTPUT_FOLDER
        (posixpath.basename path +++ "_clip_"
         +++ strftime "%Y%m%d_%H%M%S" (now w1 (clock_reads s)) +++ ".mp4") ] in
  now w2 (clock_reads s) = now w1 (clock_reads s) ->
  now w3 (clock_reads s) = now w1 (clock_reads s) ->
  run w1 (launches s) args = completed rc1 err1 ->
  run w2 (launches s) args = completed rc2 err2 ->
  run w3 (launches s) args = failed_to_start e ->
  extract_video to_ascii w1 path ih im is_ oh om os s
  = (Returned tt,
     advance [ Launched args;
               Information "Done"
                 ("Extraction completed for " +++ posixpath.basename path +++ "!") ]
       1 1 s)
  /\ extract_video to_ascii w2 path ih im is_ oh om os s
     = extract_video to_ascii w1 path ih im is_ oh om os s
  /\ extract_video to_ascii w3 path ih im is_ oh om os s
     = (Raised e, advance [Launched args] 1 1 s).
Proof.
  intros Hlt Hstart Hend args Hclock2 Hclock3 Hrun1 Hrun2 Hrun3.
  rewrite (extract_video_valid to_ascii w1 path ih im is_ oh om os _ _ s
             Hlt Hstart Hend).
  rewrite (extract_video_valid to_ascii w2 path ih im is_ oh om os _ _ s
             Hlt Hstart Hend).
  rewrite (extract_video_valid to_ascii w3 path ih im is_ oh om os _ _ s
             Hlt Hstart Hend).
  cbv zeta. rewrite Hclock2, Hclock3. fold args.
  rewrite Hrun1, Hrun2, Hrun3. repeat split.
Qed.
End ExitStatusClaims.

(* ================================================================== *)
(** * Extract All *)
(* ================================================================== *)

Section ExtractAllClaims.
Variable to_ascii : string -> string.
Variable world : World.

(** C8, as the code has it.  Take a window showing the rows [rs] (every
    state of a session shows such rows, see [session_initial_rows]) whose
    paths are not empty and whose base names are pairwise distinct and
    hold no title decoration.  Then [extract_all_videos] is the run of
    [extract_video] over the rows in list order, each with its own path
    and its own combo boxes; a row whose range is invalid only shows the
    warning and the rows after it follow; where every launch returns and
    the times of every row with a valid range are within the limit on the
    digits of [str()], the whole run returns, so every row is reached; and
    an exception raised for one row, by the launch or by [str()], leaves
    the loop there. *)
Theorem extract_all_videos_runs_every_row (s : state) (rs : list row) :
  rows_of s rs ->
  NoDup (map posixpath.basename (map file_path rs)) ->
  Forall (fun r => file_path r <> ""
                   /\ Py.in_str film (posixpath.basename (file_path r)) = false)
    rs ->
  extract_all_videos to_ascii world s = for_each rs (extract_entry to_ascii world) s
  /\ (forall before k after,
        rs = before ++ k :: after ->
        in_time to_ascii k >= out_time to_ascii k ->
        extract_all_videos to_ascii world s
        = bind (for_each before (extract_entry to_ascii world))
            (fun _ =>
               bind (QMessageBox_warning "Invalid Time"
                       "OUT time must be greater than IN time.")
                 (fun _ => for_each after (extract_entry to_ascii world))) s)
  /\ ((forall n args, exists rc err, run world n args = completed rc err) ->
      Forall (writable_times to_ascii) rs ->
      fst (extract_all_videos to_ascii world s) = Returned tt)
  /\ (forall before r after s1 e s2,
        rs = before ++ r :: after ->
        for_each before (extract_entry to_ascii world) s = (Returned tt, s1) ->
        extract_entry to_ascii world r s1 = (Raised e, s2) ->
        extract_all_videos to_ascii world s = (Raised e, s2))
  /\ (forall before r after s1,
        rs = before ++ r :: after ->
        for_each before (extract_entry to_ascii world) s = (Returned tt, s1) ->
        in_time to_ascii r < out_time to_ascii r ->
        ~ (within_digit_limit (in_time to_ascii r)
           /\ within_digit_limit (out_time to_ascii r)) ->
        extract_all_videos to_ascii world s
        = (Raised ValueError, advance [] 1 0 s1)).
Proof.
  intros Hrows Hnd Hall.
  pose proof (extract_all_videos_rows to_ascii world s rs Hrows Hnd Hall) as Hrun.
  split; [ exact Hrun | split; [ | split; [ | split ] ] ].
  - intros before k after -> Hk. rewrite Hrun, for_each_app.
    apply bind_ext. intros _ s1. cbn [for_each].
    apply bind_ext_left. unfold extract_entry, extract_video.
    fold (in_time to_ascii k) (out_time to_ascii k).
    destruct (Z.geb_spec (in_time to_ascii k) (out_time to_ascii k)); [ reflexivity | lia ].
  - intros Hworld Hwritable. rewrite Hrun. now apply for_each_entries_return.
  - intros before r after s1 e s2 -> Hbefore Hr.
    rewrite Hrun, for_each_app. unfold bind at 1. rewrite Hbefore.
    cbn [for_each]. unfold bind. now rewrite Hr.
  - intros before r after s1 -> Hbefore Hlt Hbeyond.
    rewrite Hrun, for_each_app. unfold bind at 1. rewrite Hbefore.
    cbn [for_each]. unfold bind, extract_entry.
    now rewrite (extract_video_raises to_ascii world (file_path r) _ _ _ _ _ _ s1
                   Hlt Hbeyond).
Qed.
End ExtractAllClaims.

(* ================================================================== *)
(** * Worked sessions *)
(* ================================================================== *)

(** Equal IN and OUT times (the fresh selectors, 00:00:00 on both sides)
    are rejected with the warning. *)
Lemma extract_video_rejects_equal_times :
  in_time ascii_only (fresh_row "/videos/clip.mp4")
  >= out_time ascii_only (fresh_row "/videos/clip.mp4")
  /\ extract_entry ascii_only calm_world (fresh_row "/videos/clip.mp4") initial
     = (Returned tt,
        advance [Warning "Invalid Time" "OUT time must be greater than IN time."]
          0 0 initial).
Proof.
  assert (H : in_time ascii_only (fresh_row "/videos/clip.mp4")
              >= out_time ascii_only (fresh_row "/videos/clip.mp4"))
    by (vm_compute; discriminate).
  split; [ exact H | ].
  exact (proj1 (extract_video_rejects_invalid_range ascii_only calm_world
                  "/videos/clip.mp4" _ _ _ _ _ _ initial H)).
Defined.



(** The source [clip.mp4] extracted at 2025-02-27 16:10:00 goes to
    [clip.mp4_clip_20250227_161000.mp4] in [./output]. *)
Lemma process_extraction_output_file_clip :
  Py.str 0 = Returned "0"
  /\ Py.str 10 = Returned "10"
  /\ log (snd (process_extraction calm_world "clip.mp4" 0 10 initial))
     = [ Launched [ "ffmpeg"; "-i"; "clip.mp4"; "-ss"; "0"; "-to"; "10";
                    "-c"; "copy"; "./output/clip.mp4_clip_20250227_161000.mp4" ] ]
  /\ posixpath.basename "./output/clip.mp4_clip_20250227_161000.mp4"
     = "clip.mp4_clip_20250227_161000.mp4".
Proof.
  split; [ reflexivity | split; [ reflexivity | split; [ | reflexivity ] ] ].
  exact (proj1 (process_extraction_output_file calm_world "clip.mp4" 0 10
                  "0" "10" initial eq_refl eq_refl)).
Defined.

(** The selection (h=1, m=2, s=3) is 3723 seconds. *)
Lemma get_selected_time_1_2_3 :
  get_selected_time ascii_only
    (setCurrentIndex 1 (fst (fst create_time_wheels)))
    (setCurrentIndex 2 (snd (fst create_time_wheels)))
    (setCurrentIndex 3 (snd create_time_wheels))
  = 3723.
Proof.
  exact (get_selected_time_of_wheels ascii_only 1 2 3 _ _ _ eq_refl
           ltac:(lia) ltac:(lia) ltac:(lia)).
Defined.

(** A text beyond the range of its field is read at its value: [75]
    typed into a minute box counts for 75 minutes, [-5] is read as -5, and
    the quick-insert button 45 pressed on an hour box (0 to 23) gives 45
    hours. *)
Lemma out_of_range_text_is_not_coerced :
  max_val (in_min (fresh_row "/videos/clip.mp4")) = 59
  /\ Py.int ascii_only "75" = Returned 75
  /\ safe_int ascii_only
       (currentText (setCurrentText "75" (in_min (fresh_row "/videos/clip.mp4"))))
     = 75
  /\ get_selected_time ascii_only
       (in_hour (fresh_row "/videos/clip.mp4"))
       (setCurrentText "75" (in_min (fresh_row "/videos/clip.mp4")))
       (in_sec (fresh_row "/videos/clip.mp4"))
     = 4500
  /\ safe_int ascii_only
       (currentText (setCurrentText "-5" (in_min (fresh_row "/videos/clip.mp4"))))
     = -5
  /\ commands
       (log (session ascii_only calm_world
               [ AddVideos ["/videos/clip.mp4"]; Focus 0 1; QuickInsert 45;
                 Focus 0 8; QuickInsert 46; Click 0 2 ] initial))
     = [ [ "ffmpeg"; "-i"; "/videos/clip.mp4"; "-ss"; "162000"; "-to"; "165600";
           "-c"; "copy"; "./output/clip.mp4_clip_20250227_161000.mp4" ] ].
Proof. repeat split. Qed.

(** A cleared minute box reads 0; the same box holding [75] reads 75;
    holding [23] after 4299 zeros, 4301 digits in all, it reads 0. *)
Lemma field_text_cleared_and_beyond_range :
  safe_int ascii_only
    (currentText (setCurrentText "" (in_min (fresh_row "/videos/clip.mp4"))))
  = 0
  /\ safe_int ascii_only
       (currentText (setCurrentText "75" (in_min (fresh_row "/videos/clip.mp4"))))
     = 75
  /\ safe_int ascii_only
       (currentText
          (setCurrentText (Py.repeat_char "0" 4299 +++ "23")
             (in_min (fresh_row "/videos/clip.mp4"))))
     = 0.
Proof.
  assert (H : forall n, Py.int ascii_only "" <> Returned n)
    by (intros n Hn; vm_compute in Hn; discriminate Hn).
  split; [ | split ].
  - exact (proj1 (field_text_read_as_written ascii_only
                    (in_min (fresh_row "/videos/clip.mp4")) "") H).
  - exact (proj1 (proj2 (field_text_read_as_written ascii_only
                           (in_min (fresh_row "/videos/clip.mp4")) "75"))
             75 eq_refl).
  - refine (proj2 (proj1 (proj2 (proj2 (proj2 (proj2
              (field_text_read_as_written ascii_only
                 (in_min (fresh_row "/videos/clip.mp4"))
                 (Py.repeat_char "0" 4299 +++ "23"))))))
              _ _)); vm_compute; reflexivity.
Defined.

(** A file added a second time: nothing changes and it is tracked once. *)
Lemma add_videos_same_file_twice :
  In "/a/v.mp4"
    (video_list (session ascii_only calm_world [AddVideos ["/a/v.mp4"]] initial))
  /\ add_videos ["/a/v.mp4"]
       (session ascii_only calm_world [AddVideos ["/a/v.mp4"]] initial)
     = (Returned tt,
        session ascii_only calm_world [AddVideos ["/a/v.mp4"]] initial)
  /\ video_list
       (session ascii_only calm_world
          [AddVideos ["/a/v.mp4"]; AddVideos ["/a/v.mp4"]] initial)
     = ["/a/v.mp4"].
Proof.
  assert (H : In "/a/v.mp4"
                (video_list (session ascii_only calm_world
                               [AddVideos ["/a/v.mp4"]] initial)))
    by (left; reflexivity).
  split; [ exact H | split; [ | reflexivity ] ].
  exact (proj1 (add_videos_idempotent ascii_only calm_world
                  [AddVideos ["/a/v.mp4"]] "/a/v.mp4") H).
Defined.

(** A box whose text was cleared counts for nothing. *)
Lemma refused_text_empty_box :
  safe_int ascii_only "" = 0
  /\ get_selected_time ascii_only
       (setCurrentText "" (in_hour (fresh_row "/videos/clip.mp4")))
       (setCurrentIndex 2 (in_min (fresh_row "/videos/clip.mp4")))
       (setCurrentIndex 3 (in_sec (fresh_row "/videos/clip.mp4")))
     = 123.
Proof.
  assert (H : forall n, Py.int ascii_only "" <> Returned n)
    by (intros n Hn; vm_compute in Hn; discriminate Hn).
  pose proof (refused_text_counts_zero ascii_only ""
                (in_hour (fresh_row "/videos/clip.mp4"))
                (setCurrentIndex 2 (in_min (fresh_row "/videos/clip.mp4")))
                (setCurrentIndex 3 (in_sec (fresh_row "/videos/clip.mp4"))) H)
    as (Hzero & Hhour & _).
  split; [ exact Hzero | exact Hhour ].
Defined.

(** So does a text with a colon. *)
Example refused_text_one_thirty :
  Py.int ascii_only "1:30" = Raised ValueError /\ safe_int ascii_only "1:30" = 0.
Proof.
  pose proof (int_foreign ascii_only "1:30" eq_refl eq_refl) as H.
  split; [ exact H | ]. unfold safe_int. now rewrite H.
Qed.

(** Without [ffmpeg] a valid extraction ends in the exception of the
    launch: the log holds the launch and no "Done" box. *)
Lemma extract_video_without_ffmpeg :
  in_time ascii_only (edited_row "/videos/clip.mp4" "10")
  < out_time ascii_only (edited_row "/videos/clip.mp4" "10")
  /\ extract_entry ascii_only no_ffmpeg_world
       (edited_row "/videos/clip.mp4" "10") initial
     = (Raised (OSError "[Errno 2] No such file or directory: 'ffmpeg'"),
        advance
          [ Launched
              [ "ffmpeg"; "-i"; "/videos/clip.mp4"; "-ss"; "0"; "-to"; "10";
                "-c"; "copy"; "./output/clip.mp4_clip_20250227_161000.mp4" ] ]
          1 1 initial).
Proof. split; reflexivity. Qed.

(** Exit code 1 with a complaint on the standard error and exit code 0
    give the same "Done". *)
Lemma extract_video_same_on_exit_1 :
  in_time ascii_only (edited_row "/videos/clip.mp4" "10")
  < out_time ascii_only (edited_row "/videos/clip.mp4" "10")
  /\ extract_entry ascii_only failing_world
       (edited_row "/videos/clip.mp4" "10") initial
     = extract_entry ascii_only calm_world
         (edited_row "/videos/clip.mp4" "10") initial.
Proof.
  assert (H : in_time ascii_only (edited_row "/videos/clip.mp4" "10")
              < out_time ascii_only (edited_row "/videos/clip.mp4" "10"))
    by reflexivity.
  split; [ exact H | ].
  exact (proj1 (proj2
    (extract_video_ignores_exit_status ascii_only
       calm_world failing_world no_ffmpeg_world
       "/videos/clip.mp4" _ _ _ _ _ _
       "0" "10" initial
       0 1 "" "Invalid data found when processing input"
       (OSError "[Errno 2] No such file or directory: 'ffmpeg'")
       H eq_refl eq_refl eq_refl eq_refl eq_refl eq_refl eq_refl))).
Defined.

(** Two sessions of three tracked files in which one entry has an invalid
    range and Extract All leaves another entry out.

    Without [ffmpeg]: the first row has a valid range, the second an
    invalid one, the third a valid one.  The launch for the first row
    raises, the exception leaves the loop, and neither the warning of the
    second row nor the launch of the third is ever made.

    With [ffmpeg]: the second file has the base name of the first and a
    valid range, the third an invalid range.  Extract All launches the
    first file twice, with the times of the first and of the second row,
    and never the second file, which Extract on its own row would
    launch. *)
Lemma extract_all_videos_leaves_entries_out :
  (rows_of
     (session ascii_only no_ffmpeg_world
        [ AddVideos ["/a/v.mp4"; "/b/w.mp4"; "/c/z.mp4"];
          TypeText 0 12 "10"; TypeText 2 12 "5" ] initial)
     [ edited_row "/a/v.mp4" "10"; fresh_row "/b/w.mp4"; edited_row "/c/z.mp4" "5" ]
   /\ in_time ascii_only (fresh_row "/b/w.mp4")
      >= out_time ascii_only (fresh_row "/b/w.mp4")
   /\ in_time ascii_only (edited_row "/c/z.mp4" "5")
      < out_time ascii_only (edited_row "/c/z.mp4" "5")
   /\ extract_all_videos ascii_only no_ffmpeg_world
        (session ascii_only no_ffmpeg_world
           [ AddVideos ["/a/v.mp4"; "/b/w.mp4"; "/c/z.mp4"];
             TypeText 0 12 "10"; TypeText 2 12 "5" ] initial)
      = (Raised (OSError "[Errno 2] No such file or directory: 'ffmpeg'"),
         advance
           [ Launched
               [ "ffmpeg"; "-i"; "/a/v.mp4"; "-ss"; "0"; "-to"; "10"; "-c"; "copy";
                 "./output/v.mp4_clip_20250227_161000.mp4" ] ]
           1 1
           (session ascii_only no_ffmpeg_world
              [ AddVideos ["/a/v.mp4"; "/b/w.mp4"; "/c/z.mp4"];
                TypeText 0 12 "10"; TypeText 2 12 "5" ] initial)))
  /\
  (rows_of
     (session ascii_only calm_world
        [ AddVideos ["/a/v.mp4"; "/b/v.mp4"; "/c/w.mp4"];
          TypeText 0 12 "10"; TypeText 1 12 "5" ] initial)
     [ edited_row "/a/v.mp4" "10"; edited_row "/b/v.mp4" "5"; fresh_row "/c/w.mp4" ]
   /\ in_time ascii_only (fresh_row "/c/w.mp4")
      >= out_time ascii_only (fresh_row "/c/w.mp4")
   /\ in_time ascii_only (edited_row "/b/v.mp4" "5")
      < out_time ascii_only (edited_row "/b/v.mp4" "5")
   /\ commands
        (log (snd (extract_entry ascii_only calm_world (edited_row "/b/v.mp4" "5")
                     initial)))
      = [ [ "ffmpeg"; "-i"; "/b/v.mp4"; "-ss"; "0"; "-to"; "5"; "-c"; "copy";
            "./output/v.mp4_clip_20250227_161000.mp4" ] ]
   /\ commands
        (log (snd (extract_all_videos ascii_only calm_world
                     (session ascii_only calm_world
                        [ AddVideos ["/a/v.mp4"; "/b/v.mp4"; "/c/w.mp4"];
                          TypeText 0 12 "10"; TypeText 1 12 "5" ] initial))))
      = [ [ "ffmpeg"; "-i"; "/a/v.mp4"; "-ss"; "0"; "-to"; "10"; "-c"; "copy";
            "./output/v.mp4_clip_20250227_161000.mp4" ];
          [ "ffmpeg"; "-i"; "/a/v.mp4"; "-ss"; "0"; "-to"; "5"; "-c"; "copy";
            "./output/v.mp4_clip_20250227_161000.mp4" ] ]).
Proof.
  repeat split; try reflexivity; vm_compute; discriminate.
Qed.

(** Two files with distinct base names, the second with an invalid range:
    Extract All is Extract on the first row, then on the second. *)
Lemma extract_all_videos_two_rows :
  rows_of
    (session ascii_only calm_world
       [ AddVideos ["/a/v.mp4"; "/c/w.mp4"]; TypeText 0 12 "10" ] initial)
    [ edited_row "/a/v.mp4" "10"; fresh_row "/c/w.mp4" ]
  /\ extract_all_videos ascii_only calm_world
       (session ascii_only calm_world
          [ AddVideos ["/a/v.mp4"; "/c/w.mp4"]; TypeText 0 12 "10" ] initial)
     = for_each [ edited_row "/a/v.mp4" "10"; fresh_row "/c/w.mp4" ]
         (extract_entry ascii_only calm_world)
         (session ascii_only calm_world
            [ AddVideos ["/a/v.mp4"; "/c/w.mp4"]; TypeText 0 12 "10" ] initial).
Proof.
  assert (Hrows : rows_of
    (session ascii_only calm_world
       [ AddVideos ["/a/v.mp4"; "/c/w.mp4"]; TypeText 0 12 "10" ] initial)
    [ edited_row "/a/v.mp4" "10"; fresh_row "/c/w.mp4" ])
    by (split; reflexivity).
  split; [ exact Hrows | ].
  refine (proj1 (extract_all_videos_runs_every_row ascii_only calm_world _ _
                   Hrows _ _)).
  - cbn. repeat constructor; cbn; intuition discriminate.
  - repeat constructor; discriminate.
Defined.

(** C10, at two files named [x📽 y.mp4], both with a valid range.  The
    claim has both rows resolve to the first of the two paths; the code
    strips every decoration from the title, not the leading one only, gets
    [xy.mp4], which is the base name of no tracked path, and Extract All
    does nothing at all. *)
Lemma extract_all_videos_decorated_base_name :
  rows_of
    (session ascii_only calm_world
       [ AddVideos ["/a/x📽 y.mp4"; "/b/x📽 y.mp4"];
         TypeText 0 12 "10"; TypeText 1 12 "5" ] initial)
    [ edited_row "/a/x📽 y.mp4" "10"; edited_row "/b/x📽 y.mp4" "5" ]
  /\ posixpath.basename "/a/x📽 y.mp4" = posixpath.basename "/b/x📽 y.mp4"
  /\ Py.replace film "" (film +++ posixpath.basename "/a/x📽 y.mp4") = "xy.mp4"
  /\ in_time ascii_only (edited_row "/a/x📽 y.mp4" "10")
     < out_time ascii_only (edited_row "/a/x📽 y.mp4" "10")
  /\ in_time ascii_only (edited_row "/b/x📽 y.mp4" "5")
     < out_time ascii_only (edited_row "/b/x📽 y.mp4" "5")
  /\ extract_all_videos ascii_only calm_world
       (session ascii_only calm_world
          [ AddVideos ["/a/x📽 y.mp4"; "/b/x📽 y.mp4"];
            TypeText 0 12 "10"; TypeText 1 12 "5" ] initial)
     = (Returned tt,
        session ascii_only calm_world
          [ AddVideos ["/a/x📽 y.mp4"; "/b/x📽 y.mp4"];
            TypeText 0 12 "10"; TypeText 1 12 "5" ] initial).
Proof. repeat split. Qed.


(* ================================================================== *)
(** * The quick-insert bar: cells, captions, values *)
(* ================================================================== *)

Lemma in_quick_insert_bar (b : quick_button) :
  In b create_quick_insert_bar
  <-> exists i, 0 <= i <= 59 /\ b = quick_insert_button i.
Proof.
  unfold create_quick_insert_bar. rewrite in_map_iff. split.
  - intros (i & <- & Hi). apply in_range in Hi. exists i. split; [ lia | reflexivity ].
  - intros (i & Hi & ->). exists i. split; [ reflexivity | apply in_range; lia ].
Qed.

(** X1.  The grid of the quick-insert bar: every button stands in one of
    the 3 rows and 20 columns, at the cell its value counts out
    ([value = 20 * row + col]); every cell holds a button; no two
    buttons share a cell. *)
Theorem quick_insert_bar_fills_the_grid :
  List.length create_quick_insert_bar = 60%nat
  /\ (forall b, In b create_quick_insert_bar ->
        0 <= grid_row b < 3 /\ 0 <= grid_col b < 20
        /\ inserts b = 20 * grid_row b + grid_col b)
  /\ (forall r c, 0 <= r < 3 -> 0 <= c < 20 ->
        exists b, In b create_quick_insert_bar
                  /\ grid_row b = r /\ grid_col b = c)
  /\ (forall b b', In b create_quick_insert_bar -> In b' create_quick_insert_bar ->
        grid_row b = grid_row b' -> grid_col b = grid_col b' -> b = b').
Proof.
  split; [ reflexivity | split; [ | split ] ].
  - intros b Hb. apply in_quick_insert_bar in Hb. destruct Hb as (i & Hi & ->).
    cbn [grid_row grid_col inserts quick_insert_button].
    pose proof (Z.div_mod i 20 ltac:(lia)).
    pose proof (Z.mod_pos_bound i 20 ltac:(lia)).
    assert (0 <= i / 20 < 3)
      by (split; [ apply Z.div_pos; lia | apply Z.div_lt_upper_bound; lia ]).
    lia.
  - intros r c Hr Hc. exists (quick_insert_button (20 * r + c)).
    split; [ apply in_quick_insert_bar; exists (20 * r + c); split; [ lia | reflexivity ] | ].
    cbn [grid_row grid_col quick_insert_button].
    split.
    + symmetry. apply (Z.div_unique (20 * r + c) 20 r c); lia.
    + symmetry. apply (Z.mod_unique (20 * r + c) 20 r c); lia.
  - intros b b' Hb Hb' Hrow Hcol.
    apply in_quick_insert_bar in Hb, Hb'.
    destruct Hb as (i & Hi & ->). destruct Hb' as (j & Hj & ->).
    cbn [grid_row grid_col quick_insert_button] in Hrow, Hcol.
    pose proof (Z.div_mod i 20 ltac:(lia)).
    pose proof (Z.div_mod j 20 ltac:(lia)).
    replace j with i by lia. reflexivity.
Qed.

Section QuickInsertValues.
Variable to_ascii : string -> string.

(** X2.  The buttons of the quick-insert bar insert the values 0 to 59,
    each value once; the caption of a button is what [str] makes of the
    value it inserts, its decimal text, as [int] reads it; and the caption
    is cyan on the buttons 0, 1 and 2 only. *)
Theorem quick_insert_bar_values :
  NoDup (map inserts create_quick_insert_bar)
  /\ (forall v, In v (map inserts create_quick_insert_bar) <-> 0 <= v <= 59)
  /\ (forall b, In b create_quick_insert_bar ->
        Py.int to_ascii (caption b) = Returned (inserts b)
        /\ (text_color b = "#00FFFF" <-> inserts b <= 2)
        /\ (text_color b = "#FF00FF" <-> 3 <= inserts b))
  /\ (forall b, In b create_quick_insert_bar ->
        Py.str (inserts b) = Returned (caption b)).
Proof.
  split; [ | split; [ | split ] ].
  - unfold create_quick_insert_bar. rewrite map_map. cbn [inserts quick_insert_button].
    rewrite map_id. unfold Py.range.
    apply Injective_map_NoDup; [ intros x y; lia | apply seq_NoDup ].
  - intro v. unfold create_quick_insert_bar. rewrite map_map.
    cbn [inserts quick_insert_button]. rewrite map_id, in_range. lia.
  - intros b Hb. apply in_quick_insert_bar in Hb. destruct Hb as (i & Hi & ->).
    cbn [caption inserts text_color quick_insert_button].
    split; [ apply int_decimal, small_within_digit_limit; lia | ].
    unfold in_ints. cbn [existsb].
    destruct (Z.eqb_spec i 0); [ subst; cbn; split; split; (reflexivity || lia || discriminate) | ].
    destruct (Z.eqb_spec i 1); [ subst; cbn; split; split; (reflexivity || lia || discriminate) | ].
    destruct (Z.eqb_spec i 2); [ subst; cbn; split; split; (reflexivity || lia || discriminate) | ].
    cbn [orb]. split; split; (reflexivity || lia || discriminate).
  - intros b Hb. apply in_quick_insert_bar in Hb. destruct Hb as (i & Hi & ->).
    cbn [caption inserts quick_insert_button].
    apply str_within, small_within_digit_limit. lia.
Qed.
End QuickInsertValues.

(* ================================================================== *)
(** * Quick insert into the focused box *)
(* ================================================================== *)

Lemma edit_frame_edit_row (pos : nat) (f : FocusComboBox -> FocusComboBox) (r : row) :
  edit_frame pos f (frame_of r) = frame_of (edit_row pos f r).
Proof.
  destruct r as [p ih im is_ oh om os].
  do 13 (destruct pos as [|pos]; [ reflexivity | ]). reflexivity.
Qed.

Lemma update_nth_map {A B} (g : A -> B) (f : A -> A) (f' : B -> B) (l : list A) :
  (forall x, f' (g x) = g (f x)) ->
  forall n, update_nth n f' (map g l) = map g (update_nth n f l).
Proof.
  intro H. induction l as [|x l IH]; intro n; [ reflexivity | ].
  destruct n as [|n]; cbn [map update_nth]; [ now rewrite H | now rewrite IH ].
Qed.

Lemma update_nth_same_image {A B} (g : A -> B) (f : A -> A) (l : list A) :
  (forall x, g (f x) = g x) ->
  forall n, map g (update_nth n f l) = map g l.
Proof.
  intro H. induction l as [|x l IH]; intro n; [ reflexivity | ].
  destruct n as [|n]; cbn [map update_nth]; [ now rewrite H | now rewrite IH ].
Qed.

Lemma rows_of_edit_row (index pos : nat) (f : FocusComboBox -> FocusComboBox)
    (s : state) (rs : list row) :
  rows_of s rs ->
  rows_of (edit_combo index pos f s) (update_nth index (edit_row pos f) rs).
Proof.
  intros (Hl & Hw). unfold edit_combo, set_video_list_widget. split;
    cbn [video_list video_list_widget].
  - rewrite Hl. symmetry. now apply update_nth_same_image.
  - rewrite Hw. apply update_nth_map. intro r. apply edit_frame_edit_row.
Qed.

Lemma nth_error_update_nth {A} (f : A -> A) (l : list A) :
  forall n m,
    nth_error (update_nth n f l) m
    = if Nat.eqb n m then option_map f (nth_error l m) else nth_error l m.
Proof.
  induction l as [|x l IH]; intros n m.
  - destruct m; cbn; now destruct (Nat.eqb n _).
  - destruct n as [|n], m as [|m]; cbn [update_nth nth_error Nat.eqb option_map];
      try reflexivity.
    apply IH.
Qed.

Lemma box_at_edit_row (pos pos' : nat) (f : FocusComboBox -> FocusComboBox) (r : row) :
  box_at pos' (edit_row pos f r)
  = if Nat.eqb pos pos' then option_map f (box_at pos' r) else box_at pos' r.
Proof.
  unfold box_at, edit_row.
  cbn [in_hour in_min in_sec out_hour out_min out_sec].
  destruct (Nat.eqb_spec pos pos') as [->|Hne].
  - do 13 (destruct pos' as [|pos']; [ reflexivity | ]). reflexivity.
  - do 13 (destruct pos' as [|pos'];
           [ do 13 (destruct pos as [|pos]; [ reflexivity || congruence | ]);
             reflexivity | ]).
    reflexivity.
Qed.

Section QuickInsert.
Variable to_ascii : string -> string.

(** X3.  With a combo box focused, [handle_quick_insert] puts the text
    [str] makes of the value into that box, which then reads as the value;
    every other box of the row, every other row, the tracked list, the
    focus and the log stay as they were.  With no box focused it does
    nothing.  [str] returns on every value a button of the bar hands over
    (0 to 59). *)
Theorem handle_quick_insert_sets_the_focused_box (s : state) (rs : list row)
    (index pos : nat) (r : row) (c : FocusComboBox) (v : Z) (text : string) :
  rows_of s rs ->
  current_combo s = Some (index, pos) ->
  nth_error rs index = Some r ->
  box_at pos r = Some c ->
  Py.str v = Returned text ->
  let s' := snd (handle_quick_insert v s) in
  let r' := edit_row pos (setCurrentText text) r in
  fst (handle_quick_insert v s) = Returned tt
  /\ rows_of s' (update_nth index (fun _ => r') rs)
  /\ box_at pos r' = Some (setCurrentText text c)
  /\ safe_int to_ascii (currentText (setCurrentText text c)) = v
  /\ (forall pos', pos' <> pos -> box_at pos' r' = box_at pos' r)
  /\ file_path r' = file_path r
  /\ (forall j, j <> index ->
        nth_error (update_nth index (fun _ => r') rs) j = nth_error rs j)
  /\ video_list s' = video_list s
  /\ current_combo s' = current_combo s
  /\ log s' = log s
  /\ (forall s0, current_combo s0 = None ->
        handle_quick_insert v s0 = (Returned tt, s0))
  /\ (forall b, In b create_quick_insert_bar ->
        exists t, Py.str (inserts b) = Returned t).
Proof.
  intros Hrows Hfocus Hnth Hbox Hstr s' r'.
  assert (Hrun : handle_quick_insert v s
                 = (Returned tt, edit_combo index pos (setCurrentText text) s)).
  { unfold handle_quick_insert, bind, gets, lift. now rewrite Hfocus, Hstr. }
  subst s'. rewrite Hrun. cbn [fst snd].
  assert (Hsame : update_nth index (edit_row pos (setCurrentText text)) rs
                  = update_nth index (fun _ => r') rs).
  { clear - Hnth. subst r'. revert index Hnth.
    induction rs as [|x rs IH]; intros [|index] Hnth; cbn in *; try discriminate.
    - now injection Hnth as ->.
    - now rewrite (IH _ Hnth). }
  repeat split.
  - rewrite <- Hsame. now apply rows_of_edit_row.
  - rewrite <- Hsame. now apply rows_of_edit_row.
  - subst r'. rewrite box_at_edit_row, Nat.eqb_refl, Hbox. reflexivity.
  - exact (safe_int_str to_ascii v text Hstr).
  - intros pos' Hne. subst r'. rewrite box_at_edit_row.
    now destruct (Nat.eqb_spec pos pos') as [->|_].
  - intros j Hj. rewrite nth_error_update_nth.
    now destruct (Nat.eqb_spec index j) as [->|_].
  - intros s0 H0. unfold handle_quick_insert, bind, gets. now rewrite H0.
  - intros b Hb. apply in_quick_insert_bar in Hb. destruct Hb as (i & Hi & ->).
    exists (Py.decimal i). cbn [inserts quick_insert_button].
    apply str_within, small_within_digit_limit. lia.
Qed.

(** X4.  A quick-insert button pressed on a minute or second box always
    leaves a reading inside the range of the box (0 to 59); pressed on an
    hour box (0 to 23) it leaves the value of the button too, which is
    beyond the range for the buttons 24 to 59. *)
Theorem quick_insert_and_the_ranges (b : quick_button)
    (hour_combo minute_combo second_combo : FocusComboBox) :
  create_time_wheels = (hour_combo, minute_combo, second_combo) ->
  In b create_quick_insert_bar ->
  exists text,
    Py.str (inserts b) = Returned text
    /\ let reading (c : FocusComboBox) :=
         safe_int to_ascii (currentText (setCurrentText text c)) in
       min_val minute_combo <= reading minute_combo <= max_val minute_combo
       /\ min_val second_combo <= reading second_combo <= max_val second_combo
       /\ reading hour_combo = inserts b
       /\ (min_val hour_combo <= reading hour_combo <= max_val hour_combo
           <-> inserts b <= 23).
Proof.
  intros Hwheels Hb. unfold create_time_wheels in Hwheels.
  injection Hwheels as <- <- <-.
  apply in_quick_insert_bar in Hb. destruct Hb as (i & Hi & ->).
  assert (Hstr : Py.str i = Returned (Py.decimal i))
    by (apply str_within, small_within_digit_limit; lia).
  exists (Py.decimal i). split; [ exact Hstr | ].
  intro reading. subst reading.
  cbn [currentText setCurrentText inserts quick_insert_button
    min_val max_val addItems new_FocusComboBox].
  rewrite (safe_int_str to_ascii i _ Hstr). lia.
Qed.
End QuickInsert.

(* ================================================================== *)
(** * The range check, field by field *)
(* ================================================================== *)

Section FieldOrder.
Variable to_ascii : string -> string.
Variable world : World.

(** X5.  When the minute and second boxes on both sides read within 0 to
    59, the times compare as the displays do, field by field: Extract
    shows the warning unless OUT comes after IN in hours, then minutes,
    then seconds; when it does, Extract launches the tool, provided both
    times are within the limit on the digits of [str()], as they are with
    hours within 0 to 23, and raises [ValueError] without a launch
    otherwise.  With the hour within 0 to 23, the time is a second of the
    day. *)
Theorem extract_video_compares_field_by_field (path : string)
    (ih im is_ oh om os : FocusComboBox) (s : state) :
  let h := safe_int to_ascii (currentText ih) in
  let m := safe_int to_ascii (currentText im) in
  let sec := safe_int to_ascii (currentText is_) in
  let h' := safe_int to_ascii (currentText oh) in
  let m' := safe_int to_ascii (currentText om) in
  let sec' := safe_int to_ascii (currentText os) in
  0 <= m <= 59 -> 0 <= sec <= 59 -> 0 <= m' <= 59 -> 0 <= sec' <= 59 ->
  (get_selected_time to_ascii ih im is_ < get_selected_time to_ascii oh om os
   <-> hms_before h m sec h' m' sec')
  /\ (hms_before h m sec h' m' sec' ->
      within_digit_limit (get_selected_time to_ascii ih im is_) ->
      within_digit_limit (get_selected_time to_ascii oh om os) ->
      launches (snd (extract_video to_ascii world path ih im is_ oh om os s))
      = S (launches s))
  /\ (hms_before h m sec h' m' sec' -> 0 <= h <= 23 -> 0 <= h' <= 23 ->
      launches (snd (extract_video to_ascii world path ih im is_ oh om os s))
      = S (launches s))
  /\ (hms_before h m sec h' m' sec' ->
      ~ (within_digit_limit (get_selected_time to_ascii ih im is_)
         /\ within_digit_limit (get_selected_time to_ascii oh om os)) ->
      extract_video to_ascii world path ih im is_ oh om os s
      = (Raised ValueError, advance [] 1 0 s))
  /\ (~ hms_before h m sec h' m' sec' ->
      extract_video to_ascii world path ih im is_ oh om os s
      = (Returned tt,
         advance [Warning "Invalid Time" "OUT time must be greater than IN time."]
           0 0 s))
  /\ (0 <= h <= 23 -> 0 <= get_selected_time to_ascii ih im is_ <= 86399).
Proof.
  intros h m sec h' m' sec' Hm Hs Hm' Hs'.
  assert (Hiff : get_selected_time to_ascii ih im is_
                 < get_selected_time to_ascii oh om os
                 <-> hms_before h m sec h' m' sec').
  { unfold get_selected_time, hms_before. fold h m sec h' m' sec'. lia. }
  assert (Hlaunch : hms_before h m sec h' m' sec' ->
            within_digit_limit (get_selected_time to_ascii ih im is_) ->
            within_digit_limit (get_selected_time to_ascii oh om os) ->
            launches (snd (extract_video to_ascii world path ih im is_ oh om os s))
            = S (launches s)).
  { intros Hbefore Hin Hout. apply Hiff in Hbefore.
    rewrite (extract_video_valid to_ascii world path ih im is_ oh om os _ _ s
               Hbefore (str_within _ Hin) (str_within _ Hout)).
    cbv zeta. now destruct (run world _ _). }
  split; [ exact Hiff | split; [ exact Hlaunch | split; [ | split; [ | split ] ] ] ].
  - intros Hbefore Hh Hh'.
    apply Hlaunch; [ exact Hbefore | | ]; apply small_within_digit_limit;
      unfold get_selected_time; fold h m sec h' m' sec'; lia.
  - intros Hbefore Hbeyond. apply Hiff in Hbefore.
    now apply extract_video_raises.
  - intro Hnot. apply extract_video_invalid.
    destruct (Z_lt_ge_dec (get_selected_time to_ascii ih im is_)
                (get_selected_time to_ascii oh om os)) as [Hlt|Hge];
      [ now apply Hiff in Hlt | exact Hge ].
  - intro Hh. unfold get_selected_time. fold h m sec. lia.
Qed.
End FieldOrder.

(* ================================================================== *)
(** * Extract All on the frames of a session *)
(* ================================================================== *)

Section ExtractAllOutcome.
Variable to_ascii : string -> string.
Variable world : World.

(** One turn of the loop on the frame of a row, whatever its name. *)
Lemma extract_row_any (s : state) (rs : list row) (index : nat) (r : row) :
  rows_of s rs ->
  nth_error rs index = Some r ->
  extract_row to_ascii world index s
  = match find (fun path =>
                  String.eqb (posixpath.basename path)
                    (Py.replace film "" (posixpath.basename (file_path r))))
            (video_list s) with
    | None => (Returned tt, s)
    | Some video_path =>
        if negb (Py.truthy video_path) then (Returned tt, s)
        else extract_video to_ascii world video_path
               (in_hour r) (in_min r) (in_sec r)
               (out_hour r) (out_min r) (out_sec r) s
    end.
Proof.
  intros (Hl & Hw) Hnth.
  unfold extract_row. unfold bind at 1. unfold gets at 1.
  rewrite Hw, nth_error_map, Hnth. cbn [option_map].
  unfold bind at 1. cbn [deref]. unfold ret at 1.
  unfold bind at 1.
  change (option_bind (option_bind (itemAt 0 (frame_of r)) widget_of) text_of)
    with (Some (film +++ posixpath.basename (file_path r))).
  cbn [deref]. unfold ret at 1.
  rewrite strip_title.
  unfold bind at 1. unfold gets at 1.
  destruct (find _ (video_list s)) as [video_path|]; [ | reflexivity ].
  destruct (negb (Py.truthy video_path)); reflexivity.
Qed.

Lemma extract_video_end (path : string) (r : row) (rs : list row) (s : state) :
  In r rs ->
  extraction_end to_ascii world rs
    (fst (extract_video to_ascii world path
            (in_hour r) (in_min r) (in_sec r)
            (out_hour r) (out_min r) (out_sec r) s)).
Proof.
  intro Hr.
  destruct (extract_video_cases to_ascii world path
              (in_hour r) (in_min r) (in_sec r)
              (out_hour r) (out_min r) (out_sec r) s)
    as [(_ & ->)|[(Hlt & Hbeyond & ->)|(_ & _ & _ & ->)]].
  - now left.
  - right; right. split; [ reflexivity | ]. exists r. now repeat split.
  - match goal with |- context [run world ?k ?a] =>
      destruct (run world k a) as [rc err|e] eqn:Hrun end.
    + now left.
    + right; left. exists e. do 2 eexists. split; [ reflexivity | exact Hrun ].
Qed.

Lemma extract_row_end (s : state) (rs : list row) (index : nat) :
  rows_of s rs -> (index < List.length rs)%nat ->
  extraction_end to_ascii world rs (fst (extract_row to_ascii world index s)).
Proof.
  intros Hrows Hlt.
  destruct (nth_error rs index) as [r|] eqn:Hnth;
    [ | apply nth_error_None in Hnth; lia ].
  rewrite (extract_row_any s rs index r Hrows Hnth).
  destruct (find _ (video_list s)) as [q|]; [ | now left ].
  destruct (negb (Py.truthy q)); [ now left | ].
  apply extract_video_end. eapply nth_error_In. exact Hnth.
Qed.

Lemma for_each_rows_end (rs : list row) (n : nat) :
  forall (k : nat) (s : state),
    rows_of s rs -> (k + n <= List.length rs)%nat ->
    extraction_end to_ascii world rs
      (fst (for_each (seq k n) (extract_row to_ascii world) s)).
Proof.
  induction n as [|n IH]; intros k s Hrows Hle; cbn [seq for_each]; [ now left | ].
  unfold bind.
  pose proof (extract_row_end s rs k Hrows ltac:(lia)) as Hone.
  pose proof (quiet_extract_row to_ascii world k s) as Hquiet.
  destruct (extract_row to_ascii world k s) as [[[]|e] s1]; cbn [fst snd] in *.
  - apply IH; [ eapply rows_of_same_window; eassumption | lia ].
  - exact Hone.
Qed.

(** X6.  In every state of a session the traversal of [extract_all_videos]
    finds the title, the time layout and the six combo boxes of every
    frame where it looks for them.  The run returns, or raises what a
    launch raised, or raises the [ValueError] of [str()] on a time beyond
    the limit on the digits, held by a row with a valid range, and nothing
    else; where every launch returns and the rows with a valid range hold
    times within the limit, it returns. *)
Theorem extract_all_videos_how_it_ends (acts : list action) :
  exists rs,
    rows_of (session to_ascii world acts initial) rs
    /\ extraction_end to_ascii world rs
         (fst (extract_all_videos to_ascii world
                 (session to_ascii world acts initial)))
    /\ ((forall k args, exists rc err, run world k args = completed rc err) ->
        Forall (writable_times to_ascii) rs ->
        fst (extract_all_videos to_ascii world
               (session to_ascii world acts initial))
        = Returned tt).
Proof.
  destruct (session_initial_rows to_ascii world acts) as (rs & Hrows & _).
  exists rs. split; [ exact Hrows | ].
  assert (H : extraction_end to_ascii world rs
    (fst (extract_all_videos to_ascii world (session to_ascii world acts initial)))).
  { unfold extract_all_videos, bind, gets.
    apply (for_each_rows_end rs); [ exact Hrows | ].
    destruct Hrows as (_ & Hw). rewrite Hw, length_map. lia. }
  split; [ exact H | ].
  intros Hworld Hwritable.
  destruct H as [H|[(e & k & args & _ & Hrun)|(_ & r & Hr & Hlt & Hbeyond)]].
  - exact H.
  - destruct (Hworld k args) as (rc & err & Hdone). congruence.
  - rewrite Forall_forall in Hwritable. elim Hbeyond. exact (Hwritable r Hr Hlt).
Qed.
End ExtractAllOutcome.

(* ================================================================== *)
(** * What Extract All launches *)
(* ================================================================== *)

Lemma launches_only_refl (P : list string -> Prop) (s : state) :
  launches_only P s s.
Proof. exists []. split; [ now rewrite app_nil_r | constructor ]. Qed.

Lemma launches_only_trans (P : list string -> Prop) (s1 s2 s3 : state) :
  launches_only P s1 s2 -> launches_only P s2 s3 -> launches_only P s1 s3.
Proof.
  intros (a & Ha & HPa) (b & Hb & HPb). exists (a ++ b). split.
  - now rewrite Hb, Ha, app_assoc.
  - rewrite commands_app. now apply Forall_app.
Qed.

Lemma find_first_of_its_name (tracked : list string) (label q : string) :
  find (fun path => String.eqb (posixpath.basename path) label) tracked = Some q ->
  first_of_its_name tracked q.
Proof.
  intro H. unfold first_of_its_name.
  pose proof (find_some _ _ H) as (_ & Hq). apply String.eqb_eq in Hq.
  now rewrite Hq.
Qed.

(** The first path with a name stands at or before any path with that
    name. *)
Lemma first_of_its_name_earliest (tracked : list string) (p q : string) :
  first_of_its_name tracked p ->
  forall i, nth_error tracked i = Some q ->
            posixpath.basename q = posixpath.basename p ->
            exists j, (j <= i)%nat /\ nth_error tracked j = Some p.
Proof.
  unfold first_of_its_name.
  induction tracked as [|x l IH]; intros Hfind i Hi Hname; [ discriminate | ].
  cbn [find] in Hfind.
  destruct (String.eqb_spec (posixpath.basename x) (posixpath.basename p)) as [Hx|Hx].
  - injection Hfind as ->. exists 0%nat. split; [ lia | reflexivity ].
  - destruct i as [|i]; cbn [nth_error] in Hi.
    + injection Hi as ->. contradiction.
    + destruct (IH Hfind i Hi Hname) as (j & Hj & Hnth).
      exists (S j). split; [ lia | exact Hnth ].
Qed.

Section ExtractAllLaunches.
Variable to_ascii : string -> string.
Variable world : World.

Lemma extract_video_launches_its_path (path : string)
    (ih im is_ oh om os : FocusComboBox) (s : state) :
  launches_only (fun args => input_of args = Some path) s
    (snd (extract_video to_ascii world path ih im is_ oh om os s)).
Proof.
  destruct (extract_video_cases to_ascii world path ih im is_ oh om os s)
    as [(_ & ->)|[(_ & _ & ->)|(_ & _ & _ & ->)]].
  - cbn [snd advance log].
    eexists. split; [ reflexivity | ]. cbn [commands]. constructor.
  - cbn [snd advance log].
    eexists. split; [ reflexivity | ]. cbn [commands]. constructor.
  - destruct (run world _ _); cbn [snd advance log]; eexists; (split; [ reflexivity | ]);
      cbn [commands]; repeat constructor.
Qed.

(** One turn of the loop, on any frame at all: nothing happens, or the
    first tracked path with the stripped title for base name is
    extracted. *)
Lemma extract_row_shape (index : nat) (s : state) :
  snd (extract_row to_ascii world index s) = s
  \/ exists q ih im is_ oh om os,
       first_of_its_name (video_list s) q
       /\ extract_row to_ascii world index s
          = extract_video to_ascii world q ih im is_ oh om os s.
Proof.
  unfold extract_row, bind, gets, combo_at.
  destruct (nth_error (video_list_widget s) index) as [frame|]; [ | now left ].
  cbn [deref ret].
  destruct (option_bind (option_bind (itemAt 0 frame) widget_of) text_of)
    as [title|]; [ | now left ].
  cbn [deref ret].
  destruct (find _ (video_list s)) as [q|] eqn:Hfind; [ | now left ].
  destruct (negb (Py.truthy q)); [ now left | ].
  destruct (option_bind (itemAt 1 frame) layout_of) as [tl|]; [ | now left ].
  cbn [deref ret].
  destruct (option_bind (option_bind (itemAt 1 tl) widget_of) as_combo) as [ih|];
    [ | now left ]. cbn [deref ret].
  destruct (option_bind (option_bind (itemAt 3 tl) widget_of) as_combo) as [im|];
    [ | now left ]. cbn [deref ret].
  destruct (option_bind (option_bind (itemAt 5 tl) widget_of) as_combo) as [is_|];
    [ | now left ]. cbn [deref ret].
  destruct (option_bind (option_bind (itemAt 8 tl) widget_of) as_combo) as [oh|];
    [ | now left ]. cbn [deref ret].
  destruct (option_bind (option_bind (itemAt 10 tl) widget_of) as_combo) as [om|];
    [ | now left ]. cbn [deref ret].
  destruct (option_bind (option_bind (itemAt 12 tl) widget_of) as_combo) as [os|];
    [ | now left ]. cbn [deref ret].
  right. exists q, ih, im, is_, oh, om, os.
  split; [ eapply find_first_of_its_name; exact Hfind | reflexivity ].
Qed.

Lemma extract_row_launches (index : nat) (s : state) :
  launches_only
    (fun args => exists p, input_of args = Some p
                           /\ first_of_its_name (video_list s) p)
    s (snd (extract_row to_ascii world index s)).
Proof.
  destruct (extract_row_shape index s) as [Hsame|(q & ih & im & is_ & oh & om & os & Hq & Hrun)].
  - rewrite Hsame. apply launches_only_refl.
  - rewrite Hrun.
    destruct (extract_video_launches_its_path q ih im is_ oh om os s)
      as (added & Hlog & Hall).
    exists added. split; [ exact Hlog | ].
    eapply Forall_impl; [ | exact Hall ]. intros args Hargs. now exists q.
Qed.

Lemma for_each_rows_launches (l : list nat) :
  forall s,
    launches_only
      (fun args => exists p, input_of args = Some p
                             /\ first_of_its_name (video_list s) p)
      s (snd (for_each l (extract_row to_ascii world) s)).
Proof.
  induction l as [|index l IH]; intro s; cbn [for_each].
  - apply launches_only_refl.
  - unfold bind.
    pose proof (extract_row_launches index s) as Hone.
    pose proof (quiet_extract_row to_ascii world index s) as (Hlist & _).
    destruct (extract_row to_ascii world index s) as [[[]|e] s1]; cbn [snd] in *.
    + eapply launches_only_trans; [ exact Hone | ].
      specialize (IH s1). rewrite Hlist in IH. exact IH.
    + exact Hone.
Qed.

(** X7.  Whatever the window shows, every command Extract All launches
    takes as input a tracked path that is the first of the tracked paths
    with its base name: a path tracked after another path with the same
    base name is never handed to the tool by Extract All. *)
Theorem extract_all_videos_launches_first_of_a_name (s : state) :
  exists added,
    log (snd (extract_all_videos to_ascii world s)) = log s ++ added
    /\ Forall (fun args => exists p, input_of args = Some p
                                     /\ first_of_its_name (video_list s) p)
         (commands added)
    /\ (forall args p q i,
          In args (commands added) -> input_of args = Some p ->
          nth_error (video_list s) i = Some q ->
          posixpath.basename q = posixpath.basename p ->
          exists j, (j <= i)%nat /\ nth_error (video_list s) j = Some p).
Proof.
  unfold extract_all_videos, bind, gets.
  destruct (for_each_rows_launches (seq 0 (List.length (video_list_widget s))) s)
    as (added & Hlog & Hall).
  exists added. split; [ exact Hlog | split; [ exact Hall | ] ].
  intros args p q i Hin Hinput Hq Hname.
  rewrite Forall_forall in Hall. destruct (Hall args Hin) as (p' & Hp' & Hfirst).
  rewrite Hinput in Hp'. injection Hp' as <-.
  now apply (first_of_its_name_earliest (video_list s) p q Hfirst i).
Qed.
End ExtractAllLaunches.

(* ================================================================== *)
(** * The buttons of a row *)
(* ================================================================== *)

Section RowButtons.
Variable to_ascii : string -> string.
Variable world : World.

Lemma click_extract_row (s : state) (rs : list row) (index : nat) (r : row) :
  rows_of s rs -> nth_error rs index = Some r ->
  click to_ascii world index 2 s = extract_entry to_ascii world r s.
Proof.
  intros (_ & Hw) Hnth. unfold click, bind, gets.
  rewrite Hw, nth_error_map, Hnth. reflexivity.
Qed.

Lemma click_play_row (s : state) (rs : list row) (index : nat) (r : row) :
  rows_of s rs -> nth_error rs index = Some r ->
  click to_ascii world index 3 s = play_video (file_path r) s.
Proof.
  intros (_ & Hw) Hnth. unfold click, bind, gets.
  rewrite Hw, nth_error_map, Hnth. reflexivity.
Qed.

(** X8.  The Extract button of a row runs [extract_video] on the path of
    that row with the six combo boxes of that row, and its Play button
    opens the path of that row, whatever the other rows are called: the
    tracked path at the same place in [video_list], edits of the boxes
    included. *)
Theorem click_acts_on_its_own_row (s : state) (rs : list row)
    (index : nat) (r : row) :
  rows_of s rs ->
  nth_error rs index = Some r ->
  nth_error (video_list s) index = Some (file_path r)
  /\ click to_ascii world index 2 s
     = extract_video to_ascii world (file_path r)
         (in_hour r) (in_min r) (in_sec r) (out_hour r) (out_min r) (out_sec r) s
  /\ click to_ascii world index 3 s
     = (Returned tt, advance [Opened (file_path r)] 0 0 s).
Proof.
  intros Hrows Hnth. split; [ | split ].
  - destruct Hrows as (Hl & _). now rewrite Hl, nth_error_map, Hnth.
  - exact (click_extract_row s rs index r Hrows Hnth).
  - rewrite (click_play_row s rs index r Hrows Hnth). reflexivity.
Qed.

Lemma for_each_clicks (suf : list row) :
  forall (pre : list row) (s : state),
    rows_of s (pre ++ suf) ->
    for_each (seq (List.length pre) (List.length suf))
      (fun index => click to_ascii world index 2) s
    = for_each suf (extract_entry to_ascii world) s.
Proof.
  induction suf as [|r suf IH]; intros pre s Hrows; [ reflexivity | ].
  cbn [List.length seq for_each]. unfold bind.
  rewrite (click_extract_row s (pre ++ r :: suf) (List.length pre) r Hrows
             (nth_error_middle pre r suf)).
  pose proof (quiet_extract_entry to_ascii world r s) as Hquiet.
  destruct (extract_entry to_ascii world r s) as [[[]|e] s']; [ | reflexivity ].
  cbn [snd] in Hquiet.
  replace (S (List.length pre)) with (List.length (pre ++ [r]))
    by (rewrite length_app; cbn; lia).
  apply IH. rewrite <- app_assoc. cbn [app].
  eapply rows_of_same_window; eassumption.
Qed.

(** X9.  Where the tracked paths are not empty and have pairwise
    distinct, undecorated base names, Extract All does what pressing the
    Extract button of every row does, from the first row to the last. *)
Theorem extract_all_videos_is_every_extract_button (s : state) (rs : list row) :
  rows_of s rs ->
  NoDup (map posixpath.basename (map file_path rs)) ->
  Forall (fun r => file_path r <> ""
                   /\ Py.in_str film (posixpath.basename (file_path r)) = false)
    rs ->
  extract_all_videos to_ascii world s
  = for_each (seq 0 (List.length rs))
      (fun index => click to_ascii world index 2) s.
Proof.
  intros Hrows Hnd Hall.
  rewrite (extract_all_videos_rows to_ascii world s rs Hrows Hnd Hall).
  symmetry. now apply (for_each_clicks rs [] s).
Qed.

(** X10.  Extract All and the buttons of the rows leave the window as it
    was: the tracked list, every frame with the texts of its combo boxes,
    and the focused box. *)
Theorem extracting_and_playing_keep_the_window (s : state) (index button : nat) :
  same_window s (snd (extract_all_videos to_ascii world s))
  /\ same_window s (snd (click to_ascii world index button s))
  /\ (forall rs, rows_of s rs ->
        rows_of (snd (extract_all_videos to_ascii world s)) rs
        /\ rows_of (snd (click to_ascii world index button s)) rs).
Proof.
  pose proof (quiet_extract_all_videos to_ascii world s) as Hall.
  pose proof (quiet_click to_ascii world index button s) as Hclick.
  split; [ exact Hall | split; [ exact Hclick | ] ].
  intros rs Hrows. split; eapply rows_of_same_window; eassumption.
Qed.
End RowButtons.

(* ================================================================== *)
(** * What Add Videos tracks *)
(* ================================================================== *)

Lemma fresh_files_spec (files : list string) :
  forall tracked f,
    In f (fresh_files files tracked) <-> In f files /\ ~ In f tracked.
Proof.
  induction files as [|file rest IH]; intros tracked f; cbn [fresh_files].
  - cbn. tauto.
  - destruct (Py.in_list file tracked) eqn:Hin.
    + apply in_list_spec in Hin. rewrite IH. cbn [In].
      split; [ tauto | ]. intros ([<-|Hrest] & Hout); [ contradiction | tauto ].
    + apply in_list_false in Hin. cbn [In]. rewrite IH, in_app_iff. cbn [In].
      destruct (string_dec file f) as [<-|Hne]; [ tauto | ].
      split; [ tauto | ]. intros ([Heq|Hrest] & Hout); [ contradiction | ].
      right. split; [ exact Hrest | ]. intros [H|[H|[]]]; [ contradiction | congruence ].
Qed.

Lemma fresh_files_NoDup (files : list string) :
  forall tracked, NoDup (fresh_files files tracked).
Proof.
  induction files as [|file rest IH]; intro tracked; cbn [fresh_files];
    [ constructor | ].
  destruct (Py.in_list file tracked); [ apply IH | ].
  constructor; [ | apply IH ].
  rewrite fresh_files_spec, in_app_iff. cbn [In]. tauto.
Qed.

Lemma add_videos_fresh_files (files : list string) :
  forall s,
    add_videos files s
    = (Returned tt,
       set_video_list_widget
         (video_list_widget s
          ++ map (fun f => frame_of (fresh_row f)) (fresh_files files (video_list s)))
         (set_video_list (video_list s ++ fresh_files files (video_list s)) s)).
Proof.
  induction files as [|file rest IH]; intro s; cbn [fresh_files].
  - rewrite add_videos_nil. cbn [map]. rewrite !app_nil_r. now destruct s.
  - destruct (Py.in_list file (video_list s)) eqn:Hin.
    + apply in_list_spec in Hin. rewrite add_videos_tracked by exact Hin. apply IH.
    + apply in_list_false in Hin. rewrite add_videos_new by exact Hin.
      rewrite IH. unfold set_video_list_widget, set_video_list.
      cbn [video_list video_list_widget current_combo log clock_reads launches map].
      now rewrite <- !app_assoc.
Qed.

Lemma add_videos_all_tracked (files : list string) (s : state) :
  (forall f, In f files -> In f (video_list s)) ->
  add_videos files s = (Returned tt, s).
Proof.
  induction files as [|file rest IH]; intro H; [ apply add_videos_nil | ].
  rewrite add_videos_tracked by (apply H; now left).
  apply IH. intros f Hf. apply H. now right.
Qed.

(** X11.  Add Videos on a dialog answer keeps the rows there are, with
    the texts of their combo boxes, and puts after them one fresh row for
    each file of the answer that was not tracked, in the order of the
    answer and once each even when the answer repeats a file; afterwards
    every file of the answer is tracked; the log and the focus are not
    touched. *)
Theorem add_videos_appends_the_new_files (s : state) (rs : list row)
    (files : list string) :
  rows_of s rs ->
  let fresh := fresh_files files (video_list s) in
  let s' := snd (add_videos files s) in
  fst (add_videos files s) = Returned tt
  /\ rows_of s' (rs ++ map fresh_row fresh)
  /\ NoDup fresh
  /\ (forall f, In f fresh <-> In f files /\ ~ In f (video_list s))
  /\ (forall f, In f files -> In f (video_list s'))
  /\ log s' = log s
  /\ current_combo s' = current_combo s.
Proof.
  intros (Hl & Hw) fresh s'. subst s'. rewrite add_videos_fresh_files.
  fold fresh. cbn [fst snd]. unfold set_video_list_widget, set_video_list.
  cbn [video_list video_list_widget current_combo log].
  split; [ reflexivity | split; [ | split; [ | split; [ | split ] ] ] ].
  - split; cbn [video_list video_list_widget]; rewrite map_app, map_map.
    + rewrite Hl. f_equal. symmetry.
      erewrite map_ext; [ apply map_id | intro f; apply fresh_row_path ].
    + now rewrite Hw.
  - apply fresh_files_NoDup.
  - intro f. apply fresh_files_spec.
  - intros f Hf. apply in_or_app.
    destruct (in_dec string_dec f (video_list s)) as [Hin|Hout]; [ now left | ].
    right. apply fresh_files_spec. now split.
  - split; reflexivity.
Qed.

(** X12.  Whatever the state, choosing the same files again changes
    nothing: Add Videos on an answer, then on the same answer, is Add
    Videos on the answer once, and so is Add Videos on the answer written
    twice in a row. *)
Theorem add_videos_again_changes_nothing (s : state) (files : list string) :
  add_videos files (snd (add_videos files s))
  = (Returned tt, snd (add_videos files s))
  /\ add_videos (files ++ files) s = add_videos files s.
Proof.
  assert (Hall : forall f, In f files -> In f (video_list (snd (add_videos files s)))).
  { intros f Hf. rewrite add_videos_fresh_files. cbn [snd].
    unfold set_video_list_widget, set_video_list. cbn [video_list].
    apply in_or_app.
    destruct (in_dec string_dec f (video_list s)) as [Hin|Hout]; [ now left | ].
    right. apply fresh_files_spec. now split. }
  assert (Hagain : add_videos files (snd (add_videos files s))
                   = (Returned tt, snd (add_videos files s)))
    by now apply add_videos_all_tracked.
  split; [ exact Hagain | ].
  unfold add_videos at 1. rewrite for_each_app. fold (add_videos files).
  unfold bind. rewrite (add_videos_fresh_files files s) at 1.
  rewrite (add_videos_fresh_files files s) in Hagain. cbn [snd] in Hagain.
  rewrite Hagain. symmetry. apply add_videos_fresh_files.
Qed.

Section TrackedForGood.
Variable to_ascii : string -> string.
Variable world : World.

Lemma perform_keeps_tracked (a : action) (s : state) :
  exists more, video_list (snd (perform to_ascii world a s)) = video_list s ++ more.
Proof.
  destruct a as [files| |index button|index pos|value|index pos item|index pos text];
    cbn [perform].
  - rewrite add_videos_fresh_files. cbn [snd]. eexists. reflexivity.
  - exists []. rewrite app_nil_r. apply quiet_extract_all_videos.
  - exists []. rewrite app_nil_r. apply quiet_click.
  - exists []. now rewrite app_nil_r.
  - exists []. rewrite app_nil_r. unfold handle_quick_insert, bind, gets, lift.
    destruct (current_combo s) as [[row pos]|]; [ | reflexivity ].
    now destruct (Py.str value).
  - exists []. now rewrite app_nil_r.
  - exists []. now rewrite app_nil_r.
Qed.

(** X13.  No run of actions removes or moves a tracked path: the list
    after the run is the list before it with the new paths at its end.
    From the empty window on, the list never holds a path twice and the
    window shows one frame per tracked path. *)
Theorem tracked_paths_stay (acts : list action) (s : state) :
  (exists more, video_list (session to_ascii world acts s) = video_list s ++ more)
  /\ NoDup (video_list (session to_ascii world acts initial))
  /\ List.length (video_list_widget (session to_ascii world acts initial))
     = List.length (video_list (session to_ascii world acts initial)).
Proof.
  split.
  - revert s. induction acts as [|a acts IH]; intro s; cbn [session].
    + exists []. now rewrite app_nil_r.
    + destruct (perform_keeps_tracked a s) as (more1 & H1).
      destruct (perform to_ascii world a s) as [[[]|e] s1]; cbn [snd] in H1.
      * destruct (IH s1) as (more2 & H2). exists (more1 ++ more2).
        now rewrite H2, H1, app_assoc.
      * now exists more1.
  - destruct (session_initial_rows to_ascii world acts) as (rs & (Hl & Hw) & Hnd).
    rewrite Hl, Hw, !length_map. split; [ exact Hnd | reflexivity ].
Qed.
End TrackedForGood.

(* ================================================================== *)
(** * Where the clip goes *)
(* ================================================================== *)

Lemma has_sep_app (a b : string) :
  posixpath.has_sep (a +++ b) = posixpath.has_sep a || posixpath.has_sep b.
Proof.
  induction a as [|c a IH]; [ reflexivity | ].
  cbn [String.append posixpath.has_sep]. now rewrite IH, orb_assoc.
Qed.

Lemma has_sep_all_digits (s : string) :
  all_digits s = true -> posixpath.has_sep s = false.
Proof.
  induction s as [|c r IH]; [ reflexivity | ].
  cbn [all_digits posixpath.has_sep].
  destruct (Py.digit_value c) as [d|] eqn:Hd; [ | discriminate ].
  intro H. rewrite (IH H), orb_false_r.
  unfold posixpath.is_sep.
  destruct (Ascii.eqb_spec c "/") as [->|_]; [ discriminate Hd | reflexivity ].
Qed.

Lemma has_sep_decimal (n : Z) : posixpath.has_sep (Py.decimal n) = false.
Proof.
  destruct (Z_lt_ge_dec n 0) as [Hneg|Hpos].
  - rewrite (decimal_neg n Hneg). cbn [posixpath.has_sep].
    destruct (decimal_digits (- n) ltac:(lia)) as (_ & Hall & _).
    now rewrite (has_sep_all_digits _ Hall).
  - destruct (decimal_digits n ltac:(lia)) as (_ & Hall & _).
    now apply has_sep_all_digits.
Qed.

Lemma has_sep_format_0d (width : nat) (i : Z) :
  posixpath.has_sep (Py.format_0d width i) = false.
Proof.
  destruct (Z_lt_ge_dec i 0) as [Hneg|Hpos].
  - rewrite (format_0d_neg width i Hneg). cbn [posixpath.has_sep].
    destruct (padded_digits (width - 1 - String.length (Py.decimal (- i))) (- i)
                ltac:(lia)) as (_ & Hall & _).
    now rewrite (has_sep_all_digits _ Hall).
  - rewrite (format_0d_nonneg width i ltac:(lia)).
    destruct (padded_digits (width - String.length (Py.decimal i)) i
                ltac:(lia)) as (_ & Hall & _).
    now apply has_sep_all_digits.
Qed.

Lemma basename_plain_name (n : string) :
  posixpath.has_sep n = false -> posixpath.basename n = n.
Proof.
  induction n as [|c n IH]; [ reflexivity | ].
  cbn [posixpath.has_sep posixpath.basename]. intro H.
  apply orb_false_elim in H. destruct H as (Hc & Hn). now rewrite Hc, Hn.
Qed.

Lemma basename_after_sep (p n : string) :
  posixpath.has_sep n = false -> posixpath.basename (p +++ "/" +++ n) = n.
Proof.
  intro Hn. induction p as [|c p IH].
  - cbn. now apply basename_plain_name.
  - cbn [String.append posixpath.basename].
    destruct (posixpath.is_sep c); [ exact IH | ].
    rewrite has_sep_app. change (posixpath.has_sep ("/" +++ n)) with true.
    rewrite orb_true_r. exact IH.
Qed.

Section OutputPlace.
Variable world : World.

(** X14.  Wherever the source lies, [process_extraction] names an output
    file that stands in [./output] itself: the file name it builds holds
    no [/], so the output handed to the tool once both [str()] calls
    returned is [./output/] followed by that name, and its base name is
    that name. *)
Theorem output_file_stands_in_output_folder (input_file : string)
    (start_time end_time : Z) (start_text end_text : string) (s : state) :
  Py.str start_time = Returned start_text ->
  Py.str end_time = Returned end_text ->
  let name :=
    posixpath.basename input_file +++ "_clip_"
    +++ strftime "%Y%m%d_%H%M%S" (now world (clock_reads s)) +++ ".mp4" in
  commands (log (snd (process_extraction world input_file start_time end_time s)))
  = commands (log s)
    ++ [ [ "ffmpeg"; "-i"; input_file; "-ss"; start_text;
           "-to"; end_text; "-c"; "copy"; "./output/" +++ name ] ]
  /\ posixpath.has_sep name = false
  /\ posixpath.basename ("./output/" +++ name) = name.
Proof.
  intros Hstart Hend name.
  assert (Hname : posixpath.has_sep name = false).
  { subst name. rewrite strftime_stamp.
    rewrite !has_sep_app, basename_no_sep, has_sep_decimal, !has_sep_format_0d.
    reflexivity. }
  split; [ | split; [ exact Hname | ] ].
  - rewrite (process_extraction_run world input_file _ _ _ _ s Hstart Hend).
    cbv zeta. cbn [snd advance log].
    rewrite commands_app. cbn [commands]. subst name.
    now rewrite join_output by apply basename_no_sep.
  - exact (basename_after_sep "./output" name Hname).
Qed.
End OutputPlace.

(* ================================================================== *)
(** * The time stamp of the clip *)
(* ================================================================== *)

Lemma append_inj_l (a b c : string) : a +++ b = a +++ c -> b = c.
Proof.
  induction a as [|x a IH]; intro H; [ exact H | ].
  cbn [String.append] in H. injection H as H. now apply IH.
Qed.

Lemma append_inj_length (a a' b b' : string) :
  String.length a = String.length a' ->
  a +++ b = a' +++ b' -> a = a' /\ b = b'.
Proof.
  revert a'. induction a as [|x a IH]; intros [|x' a'] Hlen H; try discriminate.
  - now split.
  - cbn [String.append] in H. injection H as -> H.
    cbn [String.length] in Hlen. injection Hlen as Hlen.
    destruct (IH a' Hlen H) as (-> & ->). now split.
Qed.

Lemma decimal_inj (i j : Z) :
  within_digit_limit i -> within_digit_limit j ->
  Py.decimal i = Py.decimal j -> i = j.
Proof.
  intros Hi Hj H. pose proof (int_decimal ascii_only i Hi) as Hread.
  rewrite H, (int_decimal ascii_only j Hj) in Hread. now injection Hread.
Qed.

(** The fields of the stamp after the year: eleven characters. *)
Lemma length_stamp_fields (d : datetime) :
  valid_datetime d ->
  String.length
    (Py.format_0d 2 (month d) +++ Py.format_0d 2 (day d) +++ "_"
     +++ Py.format_0d 2 (hour d) +++ Py.format_0d 2 (minute d)
     +++ Py.format_0d 2 (second d))
  = 11%nat.
Proof.
  intros (_ & Hm & Hd & HH & HM & HS).
  rewrite !length_append, !length_format_02d by lia. reflexivity.
Qed.

Lemma strftime_stamp_inj (d1 d2 : datetime) :
  valid_datetime d1 -> valid_datetime d2 ->
  strftime "%Y%m%d_%H%M%S" d1 = strftime "%Y%m%d_%H%M%S" d2 -> d1 = d2.
Proof.
  intros Hv1 Hv2. rewrite !strftime_stamp. intro H.
  pose proof (length_stamp_fields d1 Hv1) as Hl1.
  pose proof (length_stamp_fields d2 Hv2) as Hl2.
  destruct Hv1 as (Hy1 & Hm1 & Hd1 & HH1 & HM1 & HS1).
  destruct Hv2 as (Hy2 & Hm2 & Hd2 & HH2 & HM2 & HS2).
  pose proof (f_equal String.length H) as Hlen.
  rewrite (length_append (Py.decimal (year d1))) in Hlen.
  rewrite (length_append (Py.decimal (year d2))) in Hlen.
  rewrite Hl1, Hl2 in Hlen.
  apply append_inj_length in H; [ | lia ].
  destruct H as (Hy & H).
  apply decimal_inj in Hy; [ | apply small_within_digit_limit; lia .. ].
  apply append_inj_length in H;
    [ | now rewrite !length_format_02d by lia ].
  destruct H as (Hm & H). apply (format_02d_inj ascii_only) in Hm; [ | lia .. ].
  apply append_inj_length in H;
    [ | now rewrite !length_format_02d by lia ].
  destruct H as (Hd & H). apply (format_02d_inj ascii_only) in Hd; [ | lia .. ].
  apply (append_inj_l "_") in H.
  apply append_inj_length in H;
    [ | now rewrite !length_format_02d by lia ].
  destruct H as (HH & H). apply (format_02d_inj ascii_only) in HH; [ | lia .. ].
  apply append_inj_length in H;
    [ | now rewrite !length_format_02d by lia ].
  destruct H as (HM & HS).
  apply (format_02d_inj ascii_only) in HM; [ | lia .. ].
  apply (format_02d_inj ascii_only) in HS; [ | lia .. ].
  destruct d1, d2. cbn in *. congruence.
Qed.

Lemma length_strftime_stamp (d : datetime) :
  valid_datetime d ->
  String.length (strftime "%Y%m%d_%H%M%S" d)
  = (String.length (Py.decimal (year d)) + 11)%nat.
Proof.
  intro Hv. rewrite strftime_stamp, length_append.
  now rewrite (length_stamp_fields d Hv).
Qed.

Lemma output_file_inj (input_file : string) (d1 d2 : datetime) :
  valid_datetime d1 -> valid_datetime d2 ->
  posixpath.join OUTPUT_FOLDER
    (posixpath.basename input_file +++ "_clip_"
     +++ strftime "%Y%m%d_%H%M%S" d1 +++ ".mp4")
  = posixpath.join OUTPUT_FOLDER
      (posixpath.basename input_file +++ "_clip_"
       +++ strftime "%Y%m%d_%H%M%S" d2 +++ ".mp4") ->
  d1 = d2.
Proof.
  intros Hv1 Hv2 H. rewrite !join_output in H by apply basename_no_sep.
  apply (append_inj_l "./output/") in H.
  apply append_inj_l in H. apply (append_inj_l "_clip_") in H.
  pose proof (f_equal String.length H) as Hlen.
  rewrite !length_append in Hlen.
  apply append_inj_length in H; [ | cbn [String.length] in Hlen; lia ].
  now apply strftime_stamp_inj.
Qed.

Section TimeStamp.
Variable world : World.

(** X15.  Take two calls of [process_extraction] on one source, each
    with times [str()] writes out, at clock readings that are values a
    [datetime] can hold.  The stamp [%Y%m%d_%H%M%S] of a reading is 15
    characters long from the year 1000 on, and two readings with the same
    stamp are the same second; so the two calls hand the same output file
    to the tool only when the clock read the same second for both. *)
Theorem time_stamp_tells_the_second (input_file : string)
    (start1 end1 start2 end2 : Z) (a1 b1 a2 b2 : string) (s1 s2 : state) :
  Py.str start1 = Returned a1 -> Py.str end1 = Returned b1 ->
  Py.str start2 = Returned a2 -> Py.str end2 = Returned b2 ->
  let d1 := now world (clock_reads s1) in
  let d2 := now world (clock_reads s2) in
  valid_datetime d1 -> valid_datetime d2 ->
  (1000 <= year d1 -> String.length (strftime "%Y%m%d_%H%M%S" d1) = 15%nat)
  /\ (strftime "%Y%m%d_%H%M%S" d1 = strftime "%Y%m%d_%H%M%S" d2 -> d1 = d2)
  /\ exists args1 args2,
       log (snd (process_extraction world input_file start1 end1 s1))
       = log s1 ++ [Launched args1]
       /\ log (snd (process_extraction world input_file start2 end2 s2))
          = log s2 ++ [Launched args2]
       /\ input_of args1 = Some input_file
       /\ input_of args2 = Some input_file
       /\ (output_of args1 = output_of args2 -> d1 = d2).
Proof.
  intros Ha1 Hb1 Ha2 Hb2 d1 d2 Hv1 Hv2.
  split; [ | split ].
  - intro Hyear. rewrite (length_strftime_stamp d1 Hv1).
    rewrite length_decimal_four_digits; [ reflexivity | ].
    destruct Hv1 as (Hy & _). lia.
  - now apply strftime_stamp_inj.
  - rewrite (process_extraction_run world input_file _ _ _ _ s1 Ha1 Hb1).
    rewrite (process_extraction_run world input_file _ _ _ _ s2 Ha2 Hb2).
    cbv zeta. cbn [snd advance log]. do 2 eexists.
    split; [ reflexivity | split; [ reflexivity | ] ].
    split; [ reflexivity | split; [ reflexivity | ] ].
    unfold output_of. cbn [nth_error]. intro H. injection H as H.
    exact (output_file_inj input_file d1 d2 Hv1 Hv2 H).
Qed.
End TimeStamp.

(* ================================================================== *)
(** * Which texts count *)
(* ================================================================== *)

Section TextsThatCount.
Variable to_ascii : string -> string.

(** X16.  What [safe_int] makes of an ASCII text: a text that holds a
    character other than a digit, a blank, a sign or an underscore (a
    colon, a dot, a letter) counts for 0; a text of one or more digits,
    leading zeros allowed and counted, is read as a number that is not
    negative when the digits are at most 4300, and counts for 0 when they
    are more: [int] refuses it. *)
Theorem safe_int_on_ascii_text (text : string) :
  (Py.is_ascii text = true -> Py.all_numeric text = false ->
   Py.int to_ascii text = Raised ValueError /\ safe_int to_ascii text = 0)
  /\ (text <> "" -> all_digits text = true ->
      Z.of_nat (String.length text) <= Py.int_max_str_digits ->
      exists n, 0 <= n /\ Py.int to_ascii text = Returned n
                /\ safe_int to_ascii text = n)
  /\ (all_digits text = true ->
      Py.int_max_str_digits < Z.of_nat (String.length text) ->
      Py.int to_ascii text = Raised ValueError /\ safe_int to_ascii text = 0).
Proof.
  split; [ | split ].
  - intros Hascii Hforeign.
    pose proof (int_foreign to_ascii text Hascii Hforeign) as H.
    split; [ exact H | ]. unfold safe_int. now rewrite H.
  - intros Hne Hdigits Hshort.
    destruct (proj1 (int_all_digits to_ascii text Hne Hdigits) Hshort)
      as (n & Hn & Hread).
    exists n. unfold safe_int. rewrite Hread. repeat split; exact Hn || reflexivity.
  - intros Hdigits Hlong.
    assert (Hne : text <> "").
    { intros ->. cbn in Hlong. unfold Py.int_max_str_digits in Hlong. lia. }
    pose proof (proj2 (int_all_digits to_ascii text Hne Hdigits) Hlong) as H.
    split; [ exact H | ]. unfold safe_int. now rewrite H.
Qed.
End TextsThatCount.

(* ================================================================== *)
(** * What the drop-down lists offer *)
(* ================================================================== *)

Lemma range_NoDup (n : nat) : NoDup (Py.range n).
Proof.
  unfold Py.range.
  apply Injective_map_NoDup; [ intros x y; lia | apply seq_NoDup ].
Qed.

(** A function that is injective on [range(n)] maps it to distinct
    values. *)
Lemma NoDup_map_on_range {B} (f : Z -> B) (n : nat) :
  (forall x y, 0 <= x < Z.of_nat n -> 0 <= y < Z.of_nat n -> f x = f y -> x = y) ->
  NoDup (map f (Py.range n)).
Proof.
  intro Hinj.
  assert (Hgen : forall l, NoDup l -> (forall x, In x l -> In x (Py.range n)) ->
                           NoDup (map f l)).
  { induction l as [|x l IH]; intros Hnd Hin; cbn [map]; [ constructor | ].
    inversion Hnd as [|x' l' Hx Hnd']; subst.
    constructor.
    - intro Hfx. apply in_map_iff in Hfx. destruct Hfx as (y & Heq & Hy).
      assert (y = x).
      { apply Hinj; [ apply in_range, Hin; now right
                    | apply in_range, Hin; now left | exact Heq ]. }
      subst y. contradiction.
    - apply IH; [ exact Hnd' | ]. intros y Hy. apply Hin. now right. }
  apply Hgen; [ apply range_NoDup | auto ].
Qed.

Section WheelItems.
Variable to_ascii : string -> string.

Lemma wheel_offers (n : nat) (lo hi : Z) (color : string) :
  lo = 0 -> hi = Z.of_nat n - 1 -> (0 < n <= 100)%nat ->
  let c := addItems (map (Py.format_0d 2) (Py.range n))
             (new_FocusComboBox lo hi color) in
  (forall v, (exists t, In t (items c) /\ Py.int to_ascii t = Returned v)
             <-> min_val c <= v <= max_val c)
  /\ NoDup (items c)
  /\ (forall t, In t (items c) -> String.length t = 2%nat)
  /\ safe_int to_ascii (currentText c) = 0.
Proof.
  intros -> -> Hn c. subst c.
  cbn [items min_val max_val currentText addItems new_FocusComboBox app].
  split; [ | split; [ | split ] ].
  - intro v. split.
    + intros (t & Ht & Hread). apply in_map_iff in Ht.
      destruct Ht as (i & <- & Hi). apply in_range in Hi.
      rewrite int_format_02d in Hread by lia. injection Hread as <-. lia.
    + intro Hv. exists (Py.format_0d 2 v).
      split; [ | apply int_format_02d; lia ].
      apply in_map, in_range. lia.
  - apply NoDup_map_on_range. intros x y Hx Hy.
    apply (format_02d_inj to_ascii); lia.
  - intros t Ht. apply in_map_iff in Ht. destruct Ht as (i & <- & Hi).
    apply in_range in Hi. apply length_format_02d. lia.
  - destruct n as [|n]; [ lia | ].
    unfold Py.range. cbn [seq map]. apply safe_int_format_02d. lia.
Qed.

(** X17.  Each wheel of [create_time_wheels] offers in its drop-down list
    exactly the values its validator allows ([min_val] to [max_val]: 0 to
    23 for the hour, 0 to 59 for the minute and the second), each once,
    as two-character texts that read back as those values; a fresh wheel
    shows [00] and reads 0. *)
Theorem wheels_offer_their_range (hour_combo minute_combo second_combo c : FocusComboBox) :
  create_time_wheels = (hour_combo, minute_combo, second_combo) ->
  In c [hour_combo; minute_combo; second_combo] ->
  (forall v, (exists t, In t (items c) /\ Py.int to_ascii t = Returned v)
             <-> min_val c <= v <= max_val c)
  /\ NoDup (items c)
  /\ (forall t, In t (items c) -> String.length t = 2%nat)
  /\ currentText c = "00"
  /\ safe_int to_ascii (currentText c) = 0.
Proof.
  intros Hwheels Hc. unfold create_time_wheels in Hwheels.
  injection Hwheels as <- <- <-.
  destruct Hc as [<-|[<-|[<-|[]]]].
  - destruct (wheel_offers 24 0 23 "#00FFFF" eq_refl eq_refl ltac:(lia))
      as (H1 & H2 & H3 & H4).
    split; [ exact H1 | split; [ exact H2 | split; [ exact H3 | split; [ reflexivity | exact H4 ] ] ] ].
  - destruct (wheel_offers 60 0 59 "#39FF14" eq_refl eq_refl ltac:(lia))
      as (H1 & H2 & H3 & H4).
    split; [ exact H1 | split; [ exact H2 | split; [ exact H3 | split; [ reflexivity | exact H4 ] ] ] ].
  - destruct (wheel_offers 60 0 59 "red" eq_refl eq_refl ltac:(lia))
      as (H1 & H2 & H3 & H4).
    split; [ exact H1 | split; [ exact H2 | split; [ exact H3 | split; [ reflexivity | exact H4 ] ] ] ].
Qed.
End WheelItems.

(* ================================================================== *)
(** * More worked sessions *)
(* ================================================================== *)

(** The quick-insert button 45 pressed with the IN hour box of the only
    row focused: the row reads 45 hours. *)
Lemma quick_insert_45_into_in_hour :
  current_combo
    (session ascii_only calm_world [AddVideos ["/a/v.mp4"]; Focus 0 1] initial)
  = Some (0%nat, 1%nat)
  /\ Py.str 45 = Returned "45"
  /\ rows_of
       (snd (handle_quick_insert 45
               (session ascii_only calm_world
                  [AddVideos ["/a/v.mp4"]; Focus 0 1] initial)))
       [ edit_row 1 (setCurrentText "45") (fresh_row "/a/v.mp4") ]
  /\ in_time ascii_only
       (edit_row 1 (setCurrentText "45") (fresh_row "/a/v.mp4"))
     = 162000.
Proof.
  split; [ reflexivity | split; [ reflexivity | split; [ | reflexivity ] ] ].
  refine (proj1 (proj2
    (handle_quick_insert_sets_the_focused_box ascii_only
       (session ascii_only calm_world [AddVideos ["/a/v.mp4"]; Focus 0 1] initial)
       [fresh_row "/a/v.mp4"] 0 1 (fresh_row "/a/v.mp4")
       (in_hour (fresh_row "/a/v.mp4")) 45 "45" _ eq_refl eq_refl eq_refl eq_refl))).
  split; reflexivity.
Defined.

(** The button 45 on an hour box: the box reads 45, past its maximum. *)
Lemma quick_insert_45_and_the_hour_range :
  In (quick_insert_button 45) create_quick_insert_bar
  /\ (exists text,
        Py.str (inserts (quick_insert_button 45)) = Returned text
        /\ safe_int ascii_only
             (currentText (setCurrentText text (fst (fst create_time_wheels))))
           = 45)
  /\ max_val (fst (fst create_time_wheels)) = 23.
Proof.
  assert (H : In (quick_insert_button 45) create_quick_insert_bar).
  { apply in_quick_insert_bar. exists 45. split; [ lia | reflexivity ]. }
  split; [ exact H | split; [ | reflexivity ] ].
  destruct (quick_insert_and_the_ranges ascii_only (quick_insert_button 45)
              _ _ _ eq_refl H) as (text & Hstr & _ & _ & Hhour & _).
  exists text. split; [ exact Hstr | exact Hhour ].
Defined.

(** From 00:00:00 to 00:00:10: OUT comes after IN, the tool is launched. *)
Lemma extract_video_field_by_field_clip :
  hms_before 0 0 0 0 0 10
  /\ launches
       (snd (extract_entry ascii_only calm_world
               (edited_row "/videos/clip.mp4" "10") initial))
     = 1%nat.
Proof.
  assert (H : hms_before 0 0 0 0 0 10) by (unfold hms_before; lia).
  split; [ exact H | ].
  refine (proj1 (proj2 (proj2
    (extract_video_compares_field_by_field ascii_only calm_world
       "/videos/clip.mp4"
       (in_hour (edited_row "/videos/clip.mp4" "10"))
       (in_min (edited_row "/videos/clip.mp4" "10"))
       (in_sec (edited_row "/videos/clip.mp4" "10"))
       (out_hour (edited_row "/videos/clip.mp4" "10"))
       (out_min (edited_row "/videos/clip.mp4" "10"))
       (out_sec (edited_row "/videos/clip.mp4" "10"))
       initial _ _ _ _))) H _ _); vm_compute; split; discriminate.
Defined.

(** Two files called [v.mp4]: the Extract button of the second row
    extracts the second file. *)
Lemma click_extract_second_of_a_name :
  rows_of
    (session ascii_only calm_world
       [ AddVideos ["/a/v.mp4"; "/b/v.mp4"]; TypeText 1 12 "5" ] initial)
    [ fresh_row "/a/v.mp4"; edited_row "/b/v.mp4" "5" ]
  /\ commands
       (log (snd (click ascii_only calm_world 1 2
                    (session ascii_only calm_world
                       [ AddVideos ["/a/v.mp4"; "/b/v.mp4"]; TypeText 1 12 "5" ]
                       initial))))
     = [ [ "ffmpeg"; "-i"; "/b/v.mp4"; "-ss"; "0"; "-to"; "5"; "-c"; "copy";
           "./output/v.mp4_clip_20250227_161000.mp4" ] ].
Proof.
  assert (Hrows : rows_of
    (session ascii_only calm_world
       [ AddVideos ["/a/v.mp4"; "/b/v.mp4"]; TypeText 1 12 "5" ] initial)
    [ fresh_row "/a/v.mp4"; edited_row "/b/v.mp4" "5" ])
    by (split; reflexivity).
  split; [ exact Hrows | ].
  rewrite (proj1 (proj2
    (click_acts_on_its_own_row ascii_only calm_world _ _ 1
       (edited_row "/b/v.mp4" "5") Hrows eq_refl))).
  reflexivity.
Defined.

(** Two rows with distinct names: Extract All is the two Extract buttons
    pressed in turn. *)
Lemma extract_all_videos_is_two_clicks :
  extract_all_videos ascii_only calm_world
    (session ascii_only calm_world
       [ AddVideos ["/a/v.mp4"; "/c/w.mp4"]; TypeText 0 12 "10" ] initial)
  = for_each [0%nat; 1%nat] (fun index => click ascii_only calm_world index 2)
      (session ascii_only calm_world
         [ AddVideos ["/a/v.mp4"; "/c/w.mp4"]; TypeText 0 12 "10" ] initial).
Proof.
  refine (extract_all_videos_is_every_extract_button ascii_only calm_world _
            [ edited_row "/a/v.mp4" "10"; fresh_row "/c/w.mp4" ] _ _ _).
  - split; reflexivity.
  - cbn. repeat constructor; cbn; intuition discriminate.
  - repeat constructor; discriminate.
Defined.

(** One file tracked; the dialog answers a new file, the tracked one and
    the new one again: one row is added. *)
Lemma add_videos_answer_with_repeats :
  rows_of (session ascii_only calm_world [AddVideos ["/a/v.mp4"]] initial)
    [ fresh_row "/a/v.mp4" ]
  /\ rows_of
       (snd (add_videos ["/b/w.mp4"; "/a/v.mp4"; "/b/w.mp4"]
               (session ascii_only calm_world [AddVideos ["/a/v.mp4"]] initial)))
       [ fresh_row "/a/v.mp4"; fresh_row "/b/w.mp4" ].
Proof.
  assert (Hrows : rows_of
    (session ascii_only calm_world [AddVideos ["/a/v.mp4"]] initial)
    [ fresh_row "/a/v.mp4" ]) by (split; reflexivity).
  split; [ exact Hrows | ].
  exact (proj1 (proj2
    (add_videos_appends_the_new_files _ _
       ["/b/w.mp4"; "/a/v.mp4"; "/b/w.mp4"] Hrows))).
Defined.

(** The clip of [/videos/clip.mp4] from 0 to 10 goes to [./output]. *)
Lemma output_file_of_the_example :
  Py.str 0 = Returned "0"
  /\ Py.str 10 = Returned "10"
  /\ commands
       (log (snd (process_extraction calm_world "/videos/clip.mp4" 0 10 initial)))
     = [ [ "ffmpeg"; "-i"; "/videos/clip.mp4"; "-ss"; "0"; "-to"; "10";
           "-c"; "copy"; "./output/clip.mp4_clip_20250227_161000.mp4" ] ].
Proof.
  split; [ reflexivity | split; [ reflexivity | ] ].
  exact (proj1 (output_file_stands_in_output_folder calm_world
                  "/videos/clip.mp4" 0 10 "0" "10" initial eq_refl eq_refl)).
Defined.

(** The stamp of 2025-02-27 16:10:00. *)
Lemma time_stamp_of_the_example :
  valid_datetime (now calm_world 0)
  /\ 1000 <= year (now calm_world 0)
  /\ String.length (strftime "%Y%m%d_%H%M%S" (now calm_world 0)) = 15%nat.
Proof.
  assert (H : valid_datetime (now calm_world 0))
    by (unfold valid_datetime; cbn; lia).
  assert (Hyear : 1000 <= year (now calm_world 0)) by (cbn; lia).
  split; [ exact H | split; [ exact Hyear | ] ].
  exact (proj1 (time_stamp_tells_the_second calm_world "clip.mp4"
                  0 10 0 10 "0" "10" "0" "10" initial initial
                  eq_refl eq_refl eq_refl eq_refl H H) Hyear).
Defined.

(** [1:30] counts for 0 and [007] for 7. *)
Lemma safe_int_colon_and_leading_zeros :
  safe_int ascii_only "1:30" = 0
  /\ exists n, 0 <= n /\ Py.int ascii_only "007" = Returned n
               /\ safe_int ascii_only "007" = n.
Proof.
  split.
  - exact (proj2 (proj1 (safe_int_on_ascii_text ascii_only "1:30") eq_refl eq_refl)).
  - refine (proj1 (proj2 (safe_int_on_ascii_text ascii_only "007")) _ eq_refl _).
    + discriminate.
    + vm_compute. discriminate.
Defined.

(** The hour wheel offers 24 distinct texts and shows [00]. *)
Lemma hour_wheel_offers_its_range :
  In (fst (fst create_time_wheels))
    [ fst (fst create_time_wheels); snd (fst create_time_wheels);
      snd create_time_wheels ]
  /\ NoDup (items (fst (fst create_time_wheels)))
  /\ currentText (fst (fst create_time_wheels)) = "00".
Proof.
  assert (H : In (fst (fst create_time_wheels))
                [ fst (fst create_time_wheels); snd (fst create_time_wheels);
                  snd create_time_wheels ]) by (left; reflexivity).
  split; [ exact H | ].
  pose proof (wheels_offer_their_range ascii_only _ _ _ _ eq_refl H)
    as (_ & Hnd & _ & Htext & _).
  split; [ exact Hnd | exact Htext ].
Defined.

